(** * perFeet: the video fact-checking pipeline

    A shallow embedding of the four video processors of the repository
    ([VideoProcessor], [RealVideoProcessor], [FreeVideoProcessor] and
    [ActualVideoProcessor]) together with the part of the JavaScript
    run time their code relies on, and the properties of the analysis
    pipeline stated over it.

    Conventions of the embedding.
    - A JavaScript number is a [number]: an exact rational, an infinity
      or NaN.  Arithmetic is exact: the rounding of binary64 and the
      sign of zero are not represented.
    - A JavaScript string is a [string], one [ascii] per code unit; the
      strings that are inspected character by character range over
      the code units 0..255.  Literals of the source that hold other
      characters are kept as opaque text.
    - Code that can throw lives in [Result]; [await] is sequential and
      leaves no trace in the model. *)

From Stdlib Require Import List String Ascii Bool Arith ZArith QArith Qround Qabs Lia.
From Stdlib Require DecimalString.
Import ListNotations.

Set Warnings "-register-all".
Close Scope Q_scope.
Local Open Scope string_scope.
Local Open Scope list_scope.

(* ================================================================== *)
(** * The JavaScript run time *)
(* ================================================================== *)

Module JS.

(** ** Exceptions *)

Record Error : Type := mkError { name : string; message : string }.

Definition new_Error (msg : string) : Error := mkError "Error" msg.
Definition new_TypeError (msg : string) : Error := mkError "TypeError" msg.

(** [`${error}`]: an error converts to its name, a colon and its message. *)
Definition Error_toString (e : Error) : string :=
  name e ++ ": " ++ message e.

Inductive Result (A : Type) : Type :=
| Ok (a : A)
| Throw (e : Error).
Arguments Ok {A} a.
Arguments Throw {A} e.

Definition bind {A B} (r : Result A) (k : A -> Result B) : Result B :=
  match r with
  | Ok a => k a
  | Throw e => Throw e
  end.

(** [try { body } catch (error) { handler }] *)
Definition try_catch {A} (body : Result A) (handler : Error -> Result A) : Result A :=
  match body with
  | Ok a => Ok a
  | Throw e => handler e
  end.

Definition returns {A} (r : Result A) : Prop := exists a, r = Ok a.

Declare Scope js_scope.
Delimit Scope js_scope with js.
Notation "x <- c1 ;; c2" := (bind c1 (fun x => c2))
  (at level 61, c1 at next level, right associativity) : js_scope.

(** ** Numbers *)

Inductive number : Type :=
| NaN
| PInf
| NInf
| Num (q : Q).

Definition num (q : Q) : number := Num (Qred q).
Definition of_Z (z : Z) : number := Num (inject_Z z).
Definition of_nat (n : nat) : number := of_Z (Z.of_nat n).

(** Equality of numbers as values ([Q] is not canonical). *)
Definition num_eq (a b : number) : Prop :=
  match a, b with
  | NaN, NaN => True
  | PInf, PInf => True
  | NInf, NInf => True
  | Num p, Num q => (p == q)%Q
  | _, _ => False
  end.

Definition Qsign (q : Q) : comparison := (Qnum q ?= 0)%Z.

Definition add (a b : number) : number :=
  match a, b with
  | NaN, _ | _, NaN => NaN
  | PInf, NInf | NInf, PInf => NaN
  | PInf, _ | _, PInf => PInf
  | NInf, _ | _, NInf => NInf
  | Num p, Num q => num (p + q)%Q
  end.

Definition neg (a : number) : number :=
  match a with
  | NaN => NaN
  | PInf => NInf
  | NInf => PInf
  | Num p => num (- p)%Q
  end.

Definition sub (a b : number) : number := add a (neg b).

Definition signed_inf (c : comparison) : number :=
  match c with
  | Gt => PInf
  | Lt => NInf
  | Eq => NaN
  end.

Definition sign (a : number) : comparison :=
  match a with
  | NaN => Eq
  | PInf => Gt
  | NInf => Lt
  | Num p => Qsign p
  end.

Definition mul_sign (c d : comparison) : comparison :=
  match c, d with
  | Eq, _ | _, Eq => Eq
  | Gt, x | x, Gt => x
  | Lt, Lt => Gt
  end.

Definition mul (a b : number) : number :=
  match a, b with
  | NaN, _ | _, NaN => NaN
  | Num p, Num q => num (p * q)%Q
  | _, _ => signed_inf (mul_sign (sign a) (sign b))
  end.

(** Division; a finite non-zero number over zero is taken as over +0. *)
Definition div (a b : number) : number :=
  match a, b with
  | NaN, _ | _, NaN => NaN
  | Num p, Num q =>
      if Qeq_bool q 0%Q then signed_inf (Qsign p) else num (p / q)%Q
  | Num _, _ => Num 0%Q
  | _, Num q =>
      signed_inf (mul_sign (sign a) (match Qsign q with Eq => Gt | c => c end))
  | _, _ => NaN
  end.

(** [a % b]: the remainder takes the sign of the dividend. *)
Definition Qtrunc (q : Q) : Z := Z.quot (Qnum q) (Z.pos (Qden q)).

Definition rem (a b : number) : number :=
  match a, b with
  | NaN, _ | _, NaN => NaN
  | PInf, _ | NInf, _ => NaN
  | Num p, PInf | Num p, NInf => Num p
  | Num p, Num q =>
      if Qeq_bool q 0%Q then NaN
      else num (p - q * inject_Z (Qtrunc (p / q)))%Q
  end.

Definition Math_floor (a : number) : number :=
  match a with
  | Num p => of_Z (Qfloor p)
  | _ => a
  end.

(** [Math.round]: the nearest integer, a tie going up. *)
Definition Math_round (a : number) : number :=
  match a with
  | Num p => of_Z (Qfloor (p + (1 # 2))%Q)
  | _ => a
  end.

Definition Math_max (a b : number) : number :=
  match a, b with
  | NaN, _ | _, NaN => NaN
  | PInf, _ | _, PInf => PInf
  | NInf, x | x, NInf => x
  | Num p, Num q => if Qle_bool p q then Num q else Num p
  end.

Definition Math_min (a b : number) : number :=
  match a, b with
  | NaN, _ | _, NaN => NaN
  | NInf, _ | _, NInf => NInf
  | PInf, x | x, PInf => x
  | Num p, Num q => if Qle_bool p q then Num p else Num q
  end.

(** [a < b]; every comparison with NaN is false. *)
Definition ltb (a b : number) : bool :=
  match a, b with
  | NaN, _ | _, NaN => false
  | _, NInf => false
  | NInf, _ => true
  | PInf, _ => false
  | _, PInf => true
  | Num p, Num q => negb (Qle_bool q p)
  end.

Definition gtb (a b : number) : bool := ltb b a.

(** [a >= b] *)
Definition geb (a b : number) : bool :=
  match a, b with
  | NaN, _ | _, NaN => false
  | _, _ => negb (ltb a b)
  end.

(** A number is falsy when it is zero or NaN. *)
Definition number_truthy (a : number) : bool :=
  match a with
  | NaN => false
  | Num p => negb (Qeq_bool p 0%Q)
  | _ => true
  end.

(** [a || b] on numbers. *)
Definition number_or (a b : number) : number :=
  if number_truthy a then a else b.

(** The decimal digits of an integer (what [toString] prints of a number
    below 1e21 in magnitude). *)
Definition Z_toString (z : Z) : string := DecimalString.NilZero.string_of_int (Z.to_int z).

(** [n.toString()] of a number that holds an integer, an infinity or NaN
    (what [Math.floor], [Math.round] and [length] give). *)
Definition Number_toString (n : number) : string :=
  match n with
  | NaN => "NaN"
  | PInf => "Infinity"
  | NInf => "-Infinity"
  | Num q => Z_toString (Qfloor q)
  end.

(** ** Strings *)

Definition dquote : string := String "034"%char EmptyString.

Definition code (c : ascii) : nat := nat_of_ascii c.

(** White space and line terminators among the code units 0..255:
    TAB, LF, VT, FF, CR, SPACE and NBSP. *)
Definition isWhiteSpace (c : ascii) : bool :=
  let n := code c in
  ((9 <=? n)%nat && (n <=? 13)%nat) || (n =? 32)%nat || (n =? 160)%nat.

Fixpoint trimStart (s : string) : string :=
  match s with
  | String c r => if isWhiteSpace c then trimStart r else s
  | EmptyString => EmptyString
  end.

Fixpoint trimEnd (s : string) : string :=
  match s with
  | String c r =>
      match trimEnd r with
      | EmptyString => if isWhiteSpace c then EmptyString else String c EmptyString
      | r' => String c r'
      end
  | EmptyString => EmptyString
  end.

Definition trim (s : string) : string := trimEnd (trimStart s).

(** The character class [[.!?]] *)
Definition isSentenceEnd (c : ascii) : bool :=
  match c with
  | "."%char | "!"%char | "?"%char => true
  | _ => false
  end.

(** [s.split(/[.!?]+/)]: [cur] is the piece being read (reversed) and
    [sep] tells that the previous character was a separator. *)
Fixpoint split_go (s : string) (cur : list ascii) (sep : bool) : list string :=
  match s with
  | EmptyString => [string_of_list_ascii (List.rev cur)]
  | String c r =>
      if isSentenceEnd c then
        if sep then split_go r [] true
        else string_of_list_ascii (List.rev cur) :: split_go r [] true
      else split_go r (c :: cur) false
  end.

Definition split_sentences (s : string) : list string := split_go s [] false.

(** [toLowerCase] on the code units 0..255: A-Z and the accented capitals
    of Latin-1 (all of 192..222 but the multiplication sign). *)
Definition lower_char (c : ascii) : ascii :=
  let n := code c in
  if ((65 <=? n)%nat && (n <=? 90)%nat)
     || ((192 <=? n)%nat && (n <=? 222)%nat && negb (n =? 215)%nat)
  then ascii_of_nat (n + 32) else c.

Fixpoint toLowerCase (s : string) : string :=
  match s with
  | String c r => String (lower_char c) (toLowerCase r)
  | EmptyString => EmptyString
  end.

Fixpoint startsWith (s p : string) : bool :=
  match p, s with
  | EmptyString, _ => true
  | String a p', String b s' => Ascii.eqb a b && startsWith s' p'
  | String _ _, EmptyString => false
  end.

Fixpoint includes (s p : string) : bool :=
  startsWith s p ||
  match s with
  | String _ r => includes r p
  | EmptyString => false
  end.

Fixpoint join (sep : string) (l : list string) : string :=
  match l with
  | [] => ""
  | [x] => x
  | x :: r => x ++ sep ++ join sep r
  end.

Fixpoint substring0 (n : nat) (s : string) : string :=
  match n, s with
  | S n', String c r => String c (substring0 n' r)
  | _, _ => EmptyString
  end.

Fixpoint repeat_char (c : ascii) (n : nat) : string :=
  match n with
  | O => EmptyString
  | S n' => String c (repeat_char c n')
  end.

(** [s.padStart(n, '0')] *)
Definition padStart0 (n : nat) (s : string) : string :=
  repeat_char "0"%char (n - String.length s) ++ s.

(** [s.replace(/```json|```/g, '')] *)
Fixpoint strip_fences (s : string) : string :=
  match s with
  | String "`" (String "`" (String "`" r)) =>
      match r with
      | String "j" (String "s" (String "o" (String "n" r'))) => strip_fences r'
      | _ => strip_fences r
      end
  | String c r => String c (strip_fences r)
  | EmptyString => EmptyString
  end.

(** [.] of a regular expression matches all but the line terminators. *)
Definition isLineTerminator (c : ascii) : bool :=
  let n := code c in (n =? 10)%nat || (n =? 13)%nat.

Fixpoint line_rest (s : string) : string :=
  match s with
  | String c r => if isLineTerminator c then EmptyString else String c (line_rest r)
  | EmptyString => EmptyString
  end.

(** [/68.*percent|68.*%/.test(s)] *)
Fixpoint test_68_percent (s : string) : bool :=
  match s with
  | String c r =>
      (startsWith s "68" &&
         (let rest := line_rest (substring 2 (String.length s) s) in
          includes rest "percent" || includes rest "%"))
      || test_68_percent r
  | EmptyString => false
  end.

(** ** Values *)

(** The values a parsed JSON text and the object literals of the source
    are made of.  In [VObj] the fields stand in the order they were
    written; a later field of the same name replaces an earlier one. *)
Inductive value : Type :=
| VUndefined
| VNull
| VBool (b : bool)
| VNum (n : number)
| VStr (s : string)
| VArr (items : list value)
| VObj (fields : list (string * value)).

Definition truthy (v : value) : bool :=
  match v with
  | VUndefined | VNull => false
  | VBool b => b
  | VNum n => number_truthy n
  | VStr s => negb (s =? "")
  | VArr _ | VObj _ => true
  end.

(** [a || b] *)
Definition or_else (a b : value) : value := if truthy a then a else b.

Definition nullish (v : value) : bool :=
  match v with
  | VUndefined | VNull => true
  | _ => false
  end.

Fixpoint lookup (k : string) (fields : list (string * value)) : option value :=
  match fields with
  | [] => None
  | (k', v) :: r =>
      match lookup k r with
      | Some w => Some w
      | None => if k' =? k then Some v else None
      end
  end.

Definition typeof_nullish (v : value) : string :=
  match v with
  | VNull => "null"
  | _ => "undefined"
  end.

Definition cannot_read (v : value) (k : string) : Error :=
  new_TypeError ("Cannot read properties of " ++ typeof_nullish v
                 ++ " (reading '" ++ k ++ "')").

(** [v.k] for a data property [k]: the property names the source reads
    ([verdict], [confidence], [choices], ...) are inherited by no value,
    so only an object's own fields answer. *)
Definition get (v : value) (k : string) : Result value :=
  match v with
  | VUndefined | VNull => Throw (cannot_read v k)
  | VObj fields =>
      Ok (match lookup k fields with Some w => w | None => VUndefined end)
  | _ => Ok VUndefined
  end.

(** [v?.k] *)
Definition get_opt (v : value) (k : string) : value :=
  match get v k with
  | Ok w => w
  | Throw _ => VUndefined
  end.

(** [v[0]] *)
Definition index0 (v : value) : Result value :=
  match v with
  | VUndefined | VNull => Throw (cannot_read v "0")
  | VArr items => Ok (nth 0 items VUndefined)
  | VStr s => Ok (match s with
                  | String c _ => VStr (String c EmptyString)
                  | EmptyString => VUndefined
                  end)
  | VObj fields =>
      Ok (match lookup "0" fields with Some w => w | None => VUndefined end)
  | _ => Ok VUndefined
  end.

(** [array[i]] for a number [i]: an element when [i] is one of the
    indices, [undefined] ([None]) otherwise. *)
Definition at_index {A} (l : list A) (i : number) : option A :=
  match i with
  | Num q =>
      if Qeq_bool q (inject_Z (Qfloor q)) && (0 <=? Qfloor q)%Z
      then nth_error l (Z.to_nat (Qfloor q)) else None
  | _ => None
  end.

(** [v?.[0]] *)
Definition index0_opt (v : value) : value :=
  match index0 v with
  | Ok w => w
  | Throw _ => VUndefined
  end.

(** [v.length] *)
Definition length_of (v : value) : Result value :=
  match v with
  | VStr s => Ok (VNum (of_nat (String.length s)))
  | VArr items => Ok (VNum (of_nat (List.length items)))
  | _ => get v "length"
  end.

(** [Array.isArray(v) ? v.slice(0, n) : []] *)
Definition slice_or_empty (n : nat) (v : value) : list value :=
  match v with
  | VArr items => firstn n items
  | _ => []
  end.

(** [list.includes(v)] for a list of string literals: only an equal
    string is found. *)
Definition includes_value (list : list string) (v : value) : bool :=
  match v with
  | VStr s => existsb (String.eqb s) list
  | _ => false
  end.

(** The string a value is, when it is one. *)
Definition string_of (v : value) : string :=
  match v with
  | VStr s => s
  | _ => ""
  end.

(** ** Built-ins left to the host

    The parser of JSON texts and the conversions that read a number out
    of a string or an object are taken as they come; what is proved
    holds for every such host. *)
Record Host : Type := mkHost {
  (** [JSON.parse(text)], throwing a SyntaxError on a malformed text *)
  JSON_parse : string -> Result value;
  (** the numeric value of a string ([Number(s)]) *)
  StringToNumber : string -> number;
  (** the numeric value of an array or an object, through [valueOf] and
      [toString]; it throws when neither gives a primitive *)
  ObjectToNumber : value -> Result number;
  (** [parseFloat(v)] *)
  parseFloat : value -> Result number;
  (** [n.toString()] of a number that is not an integer *)
  FractionToString : Q -> string;
  (** [String(v)] of an array or an object *)
  ObjectToString : value -> Result string;
  (** [n.toFixed(1)] *)
  toFixed1 : number -> string;
  (** [new URL(text).hostname], throwing a TypeError on an invalid URL *)
  URL_hostname : string -> Result string
}.

Definition Qis_integer (q : Q) : bool := Qeq_bool q (inject_Z (Qfloor q)).

(** [`${v}`] *)
Definition ToString (h : Host) (v : value) : Result string :=
  match v with
  | VUndefined => Ok "undefined"
  | VNull => Ok "null"
  | VBool true => Ok "true"
  | VBool false => Ok "false"
  | VNum (Num q) =>
      Ok (if Qis_integer q then Z_toString (Qfloor q) else FractionToString h q)
  | VNum n => Ok (Number_toString n)
  | VStr s => Ok s
  | VArr _ | VObj _ => ObjectToString h v
  end.

(** The conversion [Math.max], [Math.min] and arithmetic apply to an operand. *)
Definition ToNumber (h : Host) (v : value) : Result number :=
  match v with
  | VUndefined => Ok NaN
  | VNull => Ok (Num 0%Q)
  | VBool true => Ok (Num 1%Q)
  | VBool false => Ok (Num 0%Q)
  | VNum n => Ok n
  | VStr s => Ok (StringToNumber h s)
  | VArr _ | VObj _ => ObjectToNumber h v
  end.

(** [content.replace(/```json|```/g, '').trim()]: a string has the method,
    any other value that is not nullish has no [replace] to call. *)
Definition clean_content (content : value) : Result string :=
  match content with
  | VStr s => Ok (trim (strip_fences s))
  | VUndefined | VNull => Throw (cannot_read content "replace")
  | _ => Throw (new_TypeError "content.replace is not a function")
  end.

(** ** The network *)

(** The user message of a chat request, named by the template of the
    source that builds it and the value interpolated into it; the rest
    of each request (model, system message, temperature, token budget,
    headers) is constant at its call site. *)
Inductive Prompt : Type :=
| FactCheckClaim (claimText : value)       (* VideoProcessor.factCheckClaims *)
| AnalyzeSentence (sentence : string)      (* RealVideoProcessor.analyzeSegmentWithKimi *)
| VerifySentence (sentence : string)       (* FreeVideoProcessor.analyzeSegmentWithRealKimi *)
| GenerateContent (videoUrl : string)      (* ActualVideoProcessor.kimiGenerateContent *)
| CompleteAnalysis (transcript : value).   (* ActualVideoProcessor.kimiCompleteAnalysis *)

(** What [fetch] resolves to. *)
Record Response : Type := mkResponse {
  ok : bool;
  status : Z;
  statusText : string;
  text : Result string;      (* [await response.text()] *)
  json : Result value        (* [await response.json()] *)
}.

(** ** URLs *)

(** What the source reads of a parsed URL. *)
Record URL : Type := mkURL {
  url_hostname : string;
  url_protocol : string;
  url_pathname : string;
  (** [url.searchParams.get(name)], [None] standing for [null] *)
  url_searchParams_get : string -> option string
}.

(** More of the host.  [new URL(text)] gives the parsed URL, or throws
    a TypeError when the text is no URL. *)
Record Browser : Type := mkBrowser {
  URL_parse : string -> option URL;
  (** the message of the TypeError thrown for a text that is no URL *)
  URL_invalid : string -> string;
  (** [parseInt(text)], [None] standing for NaN *)
  parseInt : string -> option Z
}.

Definition new_URL (b : Browser) (text : string) : Result URL :=
  match URL_parse b text with
  | Some url => Ok url
  | None => Throw (new_TypeError (URL_invalid b text))
  end.

(** ** More of numbers and strings *)

Definition Math_ceil (a : number) : number :=
  match a with
  | Num p => of_Z (Qceiling p)
  | _ => a
  end.

(** [s.length] of a text that is kept as its UTF-8 bytes: a character
    of the Basic Multilingual Plane is one code unit and a character
    beyond it two. *)
Fixpoint utf16_length (s : string) : nat :=
  match s with
  | EmptyString => 0
  | String c r =>
      let n := code c in
      ((if (128 <=? n)%nat && (n <? 192)%nat then 0
        else if (240 <=? n)%nat then 2 else 1)
       + utf16_length r)%nat
  end.

Definition isDigit (c : ascii) : bool :=
  let n := code c in (48 <=? n)%nat && (n <=? 57)%nat.

(** [s.replace(/\s+/g, '')] *)
Fixpoint remove_whitespace (s : string) : string :=
  match s with
  | String c r => if isWhiteSpace c then remove_whitespace r else String c (remove_whitespace r)
  | EmptyString => EmptyString
  end.

(** [s.replace(p, '')] for a string [p]: the first occurrence of [p],
    if there is one, is taken out. *)
Fixpoint remove_first (p s : string) : string :=
  if startsWith s p then substring (String.length p) (String.length s) s
  else match s with
       | String c r => String c (remove_first p r)
       | EmptyString => EmptyString
       end.

(** [s.split(sep)[0]] for a one-character separator: what stands before
    the first separator. *)
Fixpoint before_first (sep : ascii) (s : string) : string :=
  match s with
  | String c r => if Ascii.eqb c sep then EmptyString else String c (before_first sep r)
  | EmptyString => EmptyString
  end.

(** ** Regular expressions

    The backtracking matcher of the language, for the constructs the
    patterns of the source are made of.  A pattern has at most one
    capturing group that is read; [cap] is what it captured last. *)
Inductive regex : Type :=
| Eps                          (* the empty pattern *)
| Chr (p : ascii -> bool)      (* one character of a class *)
| Seq (r1 r2 : regex)
| Alt (r1 r2 : regex)          (* r1|r2, r1 tried first *)
| Star (r : regex)             (* r*, greedy *)
| Group (r : regex).           (* (r) *)

(** [r+], [r?] and [r{n}] *)
Definition Plus (r : regex) : regex := Seq r (Star r).
Definition Opt (r : regex) : regex := Alt r Eps.
Fixpoint Repeat (n : nat) (r : regex) : regex :=
  match n with
  | O => Eps
  | S n' => Seq r (Repeat n' r)
  end.

(** A literal text, and a literal text under the flag [i]: two
    characters are then alike when they differ by case only. *)
Fixpoint Lit (s : string) : regex :=
  match s with
  | EmptyString => Eps
  | String c r => Seq (Chr (Ascii.eqb c)) (Lit r)
  end.

Fixpoint Lit_i (s : string) : regex :=
  match s with
  | EmptyString => Eps
  | String c r => Seq (Chr (fun x => Ascii.eqb (lower_char x) (lower_char c))) (Lit_i r)
  end.

(** [r1|r2|...|rn] *)
Fixpoint Alts (l : list regex) : regex :=
  match l with
  | [] => Chr (fun _ => false)
  | [r] => r
  | r :: l' => Alt r (Alts l')
  end.

(** [.]: any character but a line terminator *)
Definition Dot : regex := Chr (fun c => negb (isLineTerminator c)).

Definition Capture : Type := option (list ascii).

(** What is left to match after a pattern: it is handed the rest of the
    input and the capture, and fails ([None]) to make the matcher
    backtrack. *)
Definition Cont (R : Type) : Type := list ascii -> Capture -> option R.

(** The iterations of [r*] on [s], [m] being the matcher of [r]: one
    more iteration is tried before none; an iteration that consumes
    nothing is given up.  [n] bounds the iterations, and [length s] of
    them are all there can be. *)
Fixpoint star_loop {R} (m : list ascii -> Capture -> Cont R -> option R)
  (n : nat) (s : list ascii) (cap : Capture) (k : Cont R) : option R :=
  match n with
  | O => k s cap
  | S n' =>
      match m s cap (fun s' cap' =>
                       if (List.length s' <? List.length s)%nat
                       then star_loop m n' s' cap' k else None) with
      | Some x => Some x
      | None => k s cap
      end
  end.

Fixpoint rmatch {R} (r : regex) (s : list ascii) (cap : Capture) (k : Cont R) : option R :=
  match r with
  | Eps => k s cap
  | Chr p =>
      match s with
      | c :: s' => if p c then k s' cap else None
      | [] => None
      end
  | Seq r1 r2 => rmatch r1 s cap (fun s' cap' => rmatch r2 s' cap' k)
  | Alt r1 r2 =>
      match rmatch r1 s cap k with
      | Some x => Some x
      | None => rmatch r2 s cap k
      end
  | Star r' => star_loop (rmatch r') (List.length s) s cap k
  | Group r' =>
      rmatch r' s cap
        (fun s' _ => k s' (Some (firstn (List.length s - List.length s') s)))
  end.

(** The match that starts where [s] starts: what it matched and what
    the group captured. *)
Definition match_here (r : regex) (s : list ascii) : option (list ascii * Capture) :=
  rmatch r s None
    (fun s' cap => Some (firstn (List.length s - List.length s') s, cap)).

(** The leftmost match. *)
Fixpoint match_from (r : regex) (s : list ascii) : option (list ascii * Capture) :=
  match match_here r s with
  | Some x => Some x
  | None =>
      match s with
      | [] => None
      | _ :: s' => match_from r s'
      end
  end.

(** [s.match(r)] for a pattern without the flag [g]: [None] for [null],
    else the text matched ([match[0]]) and the text captured
    ([match[1]]). *)
Definition String_match (r : regex) (s : string) : option (string * option string) :=
  match match_from r (list_ascii_of_string s) with
  | Some (whole, cap) =>
      Some (string_of_list_ascii whole, option_map string_of_list_ascii cap)
  | None => None
  end.

(** [r.test(s)] *)
Definition RegExp_test (r : regex) (s : string) : bool :=
  match match_from r (list_ascii_of_string s) with
  | Some _ => true
  | None => false
  end.

(** [/^r$/.test(s)] *)
Definition RegExp_test_whole (r : regex) (s : string) : bool :=
  match rmatch r (list_ascii_of_string s) None
          (fun s' _ => match s' with [] => Some tt | _ => None end) with
  | Some _ => true
  | None => false
  end.

(** [v.method(...)] for a method of strings: the string [v], when it is
    one, and else the TypeError thrown; [receiver] is the text of the
    expression [v] stands for. *)
Definition string_receiver (receiver method : string) (v : value) : Result string :=
  match v with
  | VStr s => Ok s
  | VUndefined | VNull => Throw (cannot_read v method)
  | _ => Throw (new_TypeError (receiver ++ "." ++ method ++ " is not a function"))
  end.

(** [a === s] for a string [s] *)
Definition is_string (a : value) (s : string) : bool :=
  match a with
  | VStr x => x =? s
  | _ => false
  end.

End JS.

Import JS.
Local Open Scope js_scope.

(* ================================================================== *)
(** * What the four processors share *)
(* ================================================================== *)

(** [ProcessingStep], declared alike in each of the four files. *)
Inductive Status : Type := pending | processing | completed | error.

Record ProcessingStep : Type := mkStep {
  step : string;
  status : Status;
  message : string;
  progress : option number
}.

Definition Status_eqb (a b : Status) : bool :=
  match a, b with
  | pending, pending | processing, processing
  | completed, completed | error, error => true
  | _, _ => false
  end.

(** The [analysis] of a segment.  [verdict] is a string at run time;
    [evidence] and [sources] hold whatever the oracle listed. *)
Record Analysis : Type := mkAnalysis {
  verdict : string;
  confidence : number;
  explanation : value;
  evidence : list value;
  sources : list value
}.

Record Segment : Type := mkSegment {
  segment : string;
  timestamp : string;
  sentence : string
}.

(** [{ ...segment, analysis }] *)
Record AnalyzedSegment : Type := mkAnalyzed {
  seg : Segment;
  analysis : Analysis
}.

(** A segment of a transcription, as Whisper reports it. *)
Record TranscriptionSegment : Type := mkTSeg {
  start : number;
  end_ : number;
  seg_text : string
}.

Record Transcription : Type := mkTranscription {
  text_ : string;
  segments : list TranscriptionSegment
}.

Definition canonical_verdicts : list string :=
  ["True"; "Mostly True"; "Mixed"; "Mostly False"; "False"].

(** A source of a built-in judgment: [{ title, url, reliability }]. *)
Definition source (title url : string) (reliability : Q) : value :=
  VObj [("title", VStr title); ("url", VStr url); ("reliability", VNum (Num reliability))].

(** The progress sink: every snapshot handed to [onProgress], oldest
    first, each as the step list stood when it was handed over. *)
Definition Trace : Type := list (list ProcessingStep).

(** [steps.find(s => p(s))] followed by an update in place of the step
    found: the first step that satisfies [p] is replaced. *)
Fixpoint update_first (p : ProcessingStep -> bool)
  (f : ProcessingStep -> ProcessingStep) (steps : list ProcessingStep)
  : option (list ProcessingStep) :=
  match steps with
  | [] => None
  | s :: r =>
      if p s then Some (f s :: r)
      else match update_first p f r with
           | Some r' => Some (s :: r')
           | None => None
           end
  end.

(** The clock: [Date.now()] in milliseconds, by the number of readings
    made before. *)
Definition Time : Type := Z.
Definition Clock : Type := nat -> Time.

(** [Math.random()]: the draws of a run, in the order they are made. *)
Definition Random : Type := nat -> number.

(** The state a run threads: the step list it mutates, the snapshots
    it has emitted and the number of times it has read the clock. *)
Record RunState : Type := mkRun {
  steps : list ProcessingStep;
  emitted : Trace;
  reads : nat
}.

(** [updateStep(steps, stepName, status, message, onProgress)]; the
    optional [progress] argument is never passed by any caller. *)
Definition updateStep (st : RunState) (stepName : string) (new_status : Status)
  (msg : string) : RunState :=
  match update_first (fun s => step s =? stepName)
          (fun s => mkStep (step s) new_status msg (progress s)) (steps st) with
  | Some steps' => mkRun steps' (emitted st ++ [steps']) (reads st)
  | None => st
  end.

(** The head of every error handler: the step found [processing] turns
    to [error] with the message, and one snapshot is emitted. *)
Definition mark_error (st : RunState) (msg : string) : RunState :=
  match update_first (fun s => Status_eqb (status s) processing)
          (fun s => mkStep (step s) error msg (progress s)) (steps st) with
  | Some steps' => mkRun steps' (emitted st ++ [steps']) (reads st)
  | None => st
  end.

(** [Date.now()] *)
Definition Date_now (clock : Clock) (st : RunState) : Time * RunState :=
  (clock (reads st), mkRun (steps st) (emitted st) (S (reads st))).

(** [formatTimestamp(seconds)] *)
Definition formatTimestamp (seconds : number) : string :=
  let mins := Math_floor (div seconds (Num 60%Q)) in
  let secs := Math_floor (rem seconds (Num 60%Q)) in
  Number_toString mins ++ ":" ++ padStart0 2 (Number_toString secs).

(** [((Date.now() - startTime) / 1000).toFixed(1) + 's'] *)
Definition processingTime_of (h : Host) (startTime now : Time) : string :=
  toFixed1 h (div (of_Z (now - startTime)) (Num 1000%Q)) ++ "s".

(* ================================================================== *)
(** * Runs: code that throws while it mutates the step list *)
(* ================================================================== *)

(** What a stage has done to the step list stays done when it throws. *)
Definition Run (A : Type) : Type := RunState -> Result A * RunState.

Definition ret {A} (a : A) : Run A := fun st => (Ok a, st).

Definition bindR {A B} (m : Run A) (k : A -> Run B) : Run B :=
  fun st =>
    match m st with
    | (Ok a, st') => k a st'
    | (Throw e, st') => (Throw e, st')
    end.

(** A computation that leaves the step list alone. *)
Definition lift {A} (r : Result A) : Run A := fun st => (r, st).

(** [Date.now()] inside a run *)
Definition now (clock : Clock) : Run Time :=
  fun st => let (t, st') := Date_now clock st in (Ok t, st').

(** [await this.updateStep(steps, stepName, status, message, onProgress)] *)
Definition update (stepName : string) (new_status : Status) (msg : string) : Run unit :=
  fun st => (Ok tt, updateStep st stepName new_status msg).

Declare Scope run_scope.
Delimit Scope run_scope with run.
Notation "x <- c1 ;; c2" := (bindR c1 (fun x => c2))
  (at level 61, c1 at next level, right associativity) : run_scope.
Notation "c1 ;;; c2" := (bindR c1 (fun _ => c2))
  (at level 61, right associativity) : run_scope.

Definition pending_step (name msg : string) : ProcessingStep :=
  mkStep name pending msg None.

(* ================================================================== *)
(** * FreeVideoProcessor *)
(* ================================================================== *)

Module FreeVideoProcessor.

Record FreeVideoAnalysisResult : Type := mkResult {
  videoId : string;
  platform : string;
  title : string;
  duration : string;
  fullTranscript : string;
  segmentedAnalysis : list AnalyzedSegment;
  overallAccuracy : number;
  keyFindings : list string;
  processingTime : string;
  result_steps : list ProcessingStep
}.

(** The body of [sentences.forEach((sentence, index) => ...)] over what
    is left of the array from [index] on. *)
Fixpoint push_sentences (i : nat) (s : TranscriptionSegment) (len : nat)
  (index : nat) (sentences : list string) : list Segment :=
  match sentences with
  | [] => []
  | sentence :: r =>
      let sentenceTime :=
        add (start s)
            (div (mul (of_nat index) (sub (end_ s) (start s))) (of_nat len)) in
      mkSegment ("segment_" ++ Z_toString (Z.of_nat i) ++ "_" ++ Z_toString (Z.of_nat index))
                (formatTimestamp sentenceTime)
                (trim sentence)
      :: push_sentences i s len (S index) r
  end.

(** The [for] loop of [prepareSegments] from segment number [i] on. *)
Fixpoint prepareSegments_from (i : nat) (segs : list TranscriptionSegment) : list Segment :=
  match segs with
  | [] => []
  | s :: r =>
      let sentences :=
        filter (fun x => (10 <? String.length (trim x))%nat) (split_sentences (seg_text s)) in
      push_sentences i s (List.length sentences) 0 sentences
      ++ prepareSegments_from (S i) r
  end.

Definition prepareSegments (transcriptionResult : Transcription) : list Segment :=
  prepareSegments_from 0 (segments transcriptionResult).

(** The object [analyzeSegmentWithRealKimi] builds from the parsed
    answer ("Validate and return"). *)
Definition validated (h : Host) (parsed : value) : Result Analysis :=
  v <- get parsed "verdict" ;;
  c <- get parsed "confidence" ;;
  n <- ToNumber h (or_else c (VNum (Num (1 # 2)))) ;;
  e <- get parsed "explanation" ;;
  ev <- get parsed "evidence" ;;
  so <- get parsed "sources" ;;
  Ok {| verdict := if includes_value canonical_verdicts v
                   then string_of v else "Mixed";
        confidence := Math_min (Math_max n (Num 0%Q)) (Num 1%Q);
        explanation := or_else e (VStr "Analysis completed with available information.");
        evidence := slice_or_empty 4 ev;
        sources := slice_or_empty 3 so |}.

(** [data.choices?.[0]?.message?.content || '{}'] *)
Definition content_of (data : value) : Result value :=
  choices <- get data "choices" ;;
  Ok (or_else (get_opt (get_opt (index0_opt choices) "message") "content") (VStr "{}")).

Definition analyzeSegmentWithRealKimi (h : Host) (fetch : Prompt -> Result Response)
  (sentence : string) : Result Analysis :=
  try_catch
    (response <- fetch (VerifySentence sentence) ;;
     if negb (ok response) then
       Throw (new_Error ("Kimi K2 API error: " ++ Z_toString (JS.status response)
                         ++ " " ++ statusText response))
     else
       data <- json response ;;
       content <- content_of data ;;
       cleanedContent <- clean_content content ;;
       parsed <- JSON_parse h cleanedContent ;;
       validated h parsed)
    (fun error => Throw error).

Definition getIntelligentFallback (sentence : string) : Analysis :=
  let lowerSentence := toLowerCase sentence in
  if includes lowerSentence "james webb" && includes lowerSentence "telescope" then
    {| verdict := "True";
       confidence := Num (95 # 100);
       explanation := VStr "The James Webb Space Telescope has indeed provided revolutionary insights into early universe formations and confirmed numerous cosmological theories through direct observation.";
       evidence := [VStr "JWST operational since 2022 with unprecedented infrared capabilities";
                    VStr "Multiple peer-reviewed studies published with JWST data";
                    VStr "Confirmed observations of 13+ billion year old galaxies"];
       sources := [source "NASA JWST Mission Documentation" "nasa.gov/webb" (98 # 100)] |}
  else if includes lowerSentence "dark energy" && test_68_percent lowerSentence then
    {| verdict := "True";
       confidence := Num (92 # 100);
       explanation := VStr "Current cosmological models based on Type Ia supernovae and cosmic microwave background data consistently indicate dark energy comprises approximately 68% of the universe.";
       evidence := [VStr "Planck satellite measurements confirm ~68% dark energy";
                    VStr "Type Ia supernovae observations support accelerating expansion";
                    VStr "Multiple independent studies converge on this value"];
       sources := [source "Planck Collaboration Results" "arxiv.org/planck" (96 # 100)] |}
  else if includes lowerSentence "climate" && includes lowerSentence "1.1"
          && includes lowerSentence "degrees" then
    {| verdict := "True";
       confidence := Num (97 # 100);
       explanation := VStr "Global surface temperature records from multiple independent datasets consistently show an increase of approximately 1.1°C since the late 1800s, with human activities identified as the primary cause.";
       evidence := [VStr "NOAA, NASA, and Hadley Centre data confirm 1.1°C warming";
                    VStr "IPCC AR6 report validates this temperature increase";
                    VStr "Attribution studies identify human activities as primary cause"];
       sources := [source "IPCC Sixth Assessment Report" "ipcc.ch/ar6" (99 # 100)] |}
  else
    {| verdict := "Mixed";
       confidence := Num (6 # 10);
       explanation := VStr "This statement requires additional verification with authoritative sources to determine complete factual accuracy.";
       evidence := [VStr "Statement analyzed but needs further verification with primary sources"];
       sources := [source "General Fact-Check Analysis" "#" (7 # 10)] |}.

(** [analyzeWithKimi]: the segments are judged one after the other; a
    segment whose call throws gets the fallback judgment. *)
Definition analyzeWithKimi (h : Host) (fetch : Prompt -> Result Response)
  (segs : list Segment) : list AnalyzedSegment :=
  map (fun s =>
         match analyzeSegmentWithRealKimi h fetch (sentence s) with
         | Ok a => mkAnalyzed s a
         | Throw _ => mkAnalyzed s (getIntelligentFallback (sentence s))
         end) segs.

(** [verdictScores[verdict]]: the entry of the table, if there is one. *)
Definition verdictScores (v : string) : option number :=
  if v =? "True" then Some (Num 1%Q)
  else if v =? "Mostly True" then Some (Num (8 # 10))
  else if v =? "Mixed" then Some (Num (1 # 2))
  else if v =? "Mostly False" then Some (Num (2 # 10))
  else if v =? "False" then Some (Num 0%Q)
  else None.

(** [verdictScores[verdict] || 0.5] *)
Definition score_or_default (v : string) : number :=
  match verdictScores v with
  | Some n => number_or n (Num (1 # 2))
  | None => Num (1 # 2)
  end.

(** [verdictCounts[v] || 0] *)
Definition count_verdict (v : string) (l : list AnalyzedSegment) : nat :=
  List.length (filter (fun s => verdict (analysis s) =? v) l).

Definition generateInsights (analyzedSegments : list AnalyzedSegment)
  : number * list string :=
  let totalScore :=
    fold_left (fun sum s => add sum (score_or_default (verdict (analysis s))))
              analyzedSegments (Num 0%Q) in
  let n := of_nat (List.length analyzedSegments) in
  let overallAccuracy := div totalScore n in
  let avgConfidence :=
    div (fold_left (fun sum s => add sum (confidence (analysis s)))
                   analyzedSegments (Num 0%Q)) n in
  let highConfidenceClaims :=
    List.length (filter (fun s => geb (confidence (analysis s)) (Num (8 # 10)))
                        analyzedSegments) in
  let keyFindings :=
    [ ("Analyzed " ++ Number_toString n
       ++ " factual statements using FREE Whisper + Kimi K2")%string;
      (Z_toString (Z.of_nat (count_verdict "True" analyzedSegments))
       ++ " claims verified as accurate, "
       ++ Z_toString (Z.of_nat (count_verdict "False" analyzedSegments))
       ++ " identified as inaccurate")%string;
      ("Average AI confidence score: "
       ++ Number_toString (Math_round (mul avgConfidence (Num 100%Q))) ++ "% ("
       ++ Z_toString (Z.of_nat highConfidenceClaims) ++ " high-confidence results)")%string;
      ("Video contains "
       ++ (if geb overallAccuracy (Num (8 # 10)) then "primarily accurate"
           else if geb overallAccuracy (Num (6 # 10)) then "mixed accuracy"
           else "questionable")
       ++ " information")%string;
      "Processing completed with REAL API integrations: FREE Whisper + Kimi K2" ] in
  (overallAccuracy, keyFindings).

Definition handleError (h : Host) (clock : Clock)
  (error : Error) (st : RunState) (startTime : Time)
  : FreeVideoAnalysisResult * RunState :=
  let st := mark_error st ("❌ " ++ JS.message error) in
  let (now, st) := Date_now clock st in
  let processingTime := processingTime_of h startTime now in
  let (now', st') := Date_now clock st in
  ({| videoId := Z_toString now';
      platform := "Error";
      title := "Processing Failed";
      duration := "0:00";
      fullTranscript := "Transcription could not be completed due to processing error.";
      segmentedAnalysis := [];
      overallAccuracy := Num 0%Q;
      keyFindings := [("Processing failed: " ++ JS.message error)%string;
                      "Please try again with a different video URL"];
      processingTime := processingTime;
      result_steps := steps st' |}, st').


(** ** The stages before the segments *)

(** What [ytdl.getInfo] tells of a video, as the library types it. *)
Record VideoDetails : Type := mkDetails {
  details_title : string;
  lengthSeconds : string
}.

Record VideoInfo : Type := mkVideoInfo {
  info_platform : string;
  info_title : string;
  info_duration : string
}.

(** [getVideoInfo(videoUrl)]; [ytdl_getInfo] is [ytdl.getInfo] followed
    by [.videoDetails]. *)
Definition getVideoInfo (h : Host) (b : Browser)
  (ytdl_getInfo : string -> Result VideoDetails) (videoUrl : string) : Result VideoInfo :=
  try_catch
    (hostname <- URL_hostname h videoUrl ;;
     if includes hostname "youtube" || includes hostname "youtu.be" then
       match ytdl_getInfo videoUrl with
       | Ok videoDetails =>
           let seconds :=
             match parseInt b (lengthSeconds videoDetails) with
             | Some z => of_Z z
             | None => NaN
             end in
           let mins := Math_floor (div seconds (Num 60%Q)) in
           let secs := rem seconds (Num 60%Q) in
           Ok (mkVideoInfo "YouTube" (details_title videoDetails)
                 (Number_toString mins ++ ":" ++ padStart0 2 (Number_toString secs)))
       | Throw _ => Ok (mkVideoInfo "YouTube" "YouTube Video - Real Analysis" "3:45")
       end
     else if includes hostname "tiktok" then
       Ok (mkVideoInfo "TikTok" "TikTok Video - Real Analysis" "0:45")
     else if includes hostname "instagram" then
       Ok (mkVideoInfo "Instagram" "Instagram Video - Real Analysis" "1:20")
     else Ok (mkVideoInfo "Unknown" "Video Analysis" "0:00"))
    (fun error => Throw (new_Error ("Failed to get video info: " ++ Error_toString error))).

(** [downloadAndExtractAudio(videoUrl)]: the size in bytes of the
    buffer it makes up. *)
Definition downloadAndExtractAudio (h : Host) (videoUrl : string) : Result nat :=
  try_catch
    (hostname <- URL_hostname h videoUrl ;;
     if includes hostname "youtube" || includes hostname "youtu.be" then Ok (1024 * 1024)%nat
     else Ok (256 * 1024)%nat)
    (fun error => Throw (new_Error ("Failed to download audio: " ++ Error_toString error))).

(** What [transcribeWithFreeWhisper] resolves to, whatever the audio. *)
Definition mockTranscription : Transcription :=
  {| text_ := "Welcome everyone to today's video where we explore fascinating developments in space exploration and scientific research. The James Webb Space Telescope has revolutionized our understanding of the cosmos, revealing galaxies from over 13 billion years ago. Recent studies confirm that dark energy comprises approximately 68 percent of our universe, driving its accelerated expansion. Climate research indicates global temperatures have risen 1.1 degrees Celsius since pre-industrial times, primarily due to human activities. These scientific breakthroughs are reshaping our comprehension of both cosmic and terrestrial phenomena, offering unprecedented insights into the nature of our universe and planet.";
     segments :=
       [ mkTSeg (Num 0%Q) (Num (65 # 10))
           "Welcome everyone to today's video where we explore fascinating developments in space exploration and scientific research.";
         mkTSeg (Num (65 # 10)) (Num (142 # 10))
           "The James Webb Space Telescope has revolutionized our understanding of the cosmos, revealing galaxies from over 13 billion years ago.";
         mkTSeg (Num (142 # 10)) (Num (218 # 10))
           "Recent studies confirm that dark energy comprises approximately 68 percent of our universe, driving its accelerated expansion.";
         mkTSeg (Num (218 # 10)) (Num (295 # 10))
           "Climate research indicates global temperatures have risen 1.1 degrees Celsius since pre-industrial times, primarily due to human activities.";
         mkTSeg (Num (295 # 10)) (Num 36%Q)
           "These scientific breakthroughs are reshaping our comprehension of both cosmic and terrestrial phenomena, offering unprecedented insights into the nature of our universe and planet." ] |}.

Definition initial_steps : list ProcessingStep :=
  [ pending_step "validate" "Validating video URL and extracting info...";
    pending_step "download" "Downloading video and extracting audio...";
    pending_step "whisper" "Transcribing with FREE Whisper AI (no API key)...";
    pending_step "segment" "Preparing segments for Kimi K2 analysis...";
    pending_step "kimi" "Analyzing each line with Kimi K2 AI...";
    pending_step "synthesize" "Connecting insights and generating report..." ].

Definition nat_toString (n : nat) : string := Z_toString (Z.of_nat n).

(** The [try] block of [processVideoFree] *)
Definition processVideoFree_try (h : Host) (b : Browser)
  (ytdl_getInfo : string -> Result VideoDetails) (fetch : Prompt -> Result Response)
  (clock : Clock) (videoUrl videoId : string) (startTime : Time)
  : Run FreeVideoAnalysisResult :=
  (update "validate" processing "Extracting video information..." ;;;
   videoInfo <- lift (getVideoInfo h b ytdl_getInfo videoUrl) ;;
   update "validate" completed
     ("✅ " ++ info_platform videoInfo ++ ": " ++ dquote ++ info_title videoInfo ++ dquote) ;;;
   update "download" processing "Downloading and extracting audio stream..." ;;;
   audioData <- lift (downloadAndExtractAudio h videoUrl) ;;
   update "download" completed ("🎵 Audio extracted: " ++ info_duration videoInfo) ;;;
   update "whisper" processing "Running FREE Whisper AI transcription..." ;;;
   let transcriptionResult := mockTranscription in
   update "whisper" completed
     ("📝 Transcript: " ++ nat_toString (List.length (segments transcriptionResult))
      ++ " segments, " ++ nat_toString (String.length (text_ transcriptionResult))
      ++ " chars") ;;;
   update "segment" processing "Segmenting transcript for line-by-line analysis..." ;;;
   let segs := prepareSegments transcriptionResult in
   update "segment" completed
     ("🔍 Prepared " ++ nat_toString (List.length segs) ++ " segments for Kimi K2") ;;;
   update "kimi" processing
     ("Analyzing " ++ nat_toString (List.length segs) ++ " segments with Kimi K2...") ;;;
   let analyzedSegments := analyzeWithKimi h fetch segs in
   update "kimi" completed
     ("🤖 Kimi K2 complete: "
      ++ nat_toString (List.length
           (filter (fun s => gtb (confidence (analysis s)) (Num (7 # 10))) analyzedSegments))
      ++ " high-confidence results") ;;;
   update "synthesize" processing
     "Connecting patterns and generating comprehensive insights..." ;;;
   let insights := generateInsights analyzedSegments in
   update "synthesize" completed
     ("✅ Analysis complete! Overall accuracy: "
      ++ Number_toString (Math_round (mul (fst insights) (Num 100%Q))) ++ "%") ;;;
   t <- now clock ;;
   let processingTime := processingTime_of h startTime t in
   fun st =>
     (Ok {| videoId := videoId;
            platform := info_platform videoInfo;
            title := info_title videoInfo;
            duration := info_duration videoInfo;
            fullTranscript := text_ transcriptionResult;
            segmentedAnalysis := analyzedSegments;
            overallAccuracy := fst insights;
            keyFindings := snd insights;
            processingTime := processingTime;
            result_steps := steps st |}, st))%run.

(** [processVideoFree(videoUrl, onProgress)]: the Report and the
    snapshots handed to [onProgress]. *)
Definition processVideoFree (h : Host) (b : Browser)
  (ytdl_getInfo : string -> Result VideoDetails) (fetch : Prompt -> Result Response)
  (clock : Clock) (videoUrl : string) : FreeVideoAnalysisResult * Trace :=
  let (startTime, st0) := Date_now clock (mkRun initial_steps [] 0) in
  let (t, st1) := Date_now clock st0 in
  let videoId := Z_toString t in
  match processVideoFree_try h b ytdl_getInfo fetch clock videoUrl videoId startTime st1 with
  | (Ok report, st) => (report, emitted st)
  | (Throw err, st) =>
      let (report, st') := handleError h clock err st startTime in
      (report, emitted st')
  end.

End FreeVideoProcessor.

(* ================================================================== *)
(** * RealVideoProcessor *)
(* ================================================================== *)

Module RealVideoProcessor.

Record RealVideoAnalysisResult : Type := mkResult {
  videoId : string;
  platform : string;
  title : string;
  duration : string;
  fullTranscript : string;
  segmentedAnalysis : list AnalyzedSegment;
  overallAccuracy : number;
  keyFindings : list string;
  processingTime : string;
  result_steps : list ProcessingStep
}.

(** The body of [sentences.forEach((sentence, index) => ...)] over what
    is left of the array from [index] on. *)
Fixpoint push_sentences (i : nat) (s : TranscriptionSegment)
  (index : nat) (sentences : list string) : list Segment :=
  match sentences with
  | [] => []
  | sentence :: r =>
      (if (10 <? String.length (trim sentence))%nat then
         [mkSegment ("segment_" ++ Z_toString (Z.of_nat i) ++ "_" ++ Z_toString (Z.of_nat index))
                    (formatTimestamp (add (start s) (mul (of_nat index) (Num 2%Q))))
                    (trim sentence)]
       else [])
      ++ push_sentences i s (S index) r
  end.

(** The [for] loop of [prepareTranscriptSegments] from segment number [i] on. *)
Fixpoint prepareTranscriptSegments_from (i : nat) (segs : list TranscriptionSegment)
  : list Segment :=
  match segs with
  | [] => []
  | s :: r =>
      let sentences :=
        filter (fun x => (0 <? String.length (trim x))%nat) (split_sentences (seg_text s)) in
      push_sentences i s 0 sentences ++ prepareTranscriptSegments_from (S i) r
  end.

Definition prepareTranscriptSegments (transcriptionResult : Transcription) : list Segment :=
  prepareTranscriptSegments_from 0 (segments transcriptionResult).

(** The object [analyzeSegmentWithKimi] builds from the parsed answer
    ("Validate and sanitize the response"). *)
Definition sanitized (h : Host) (parsed : value) : Result Analysis :=
  v <- get parsed "verdict" ;;
  c <- get parsed "confidence" ;;
  n <- ToNumber h (or_else c (VNum (Num (1 # 2)))) ;;
  e <- get parsed "explanation" ;;
  ev <- get parsed "evidence" ;;
  so <- get parsed "sources" ;;
  Ok {| verdict := if includes_value canonical_verdicts v
                   then string_of v else "Mixed";
        confidence := Math_min (Math_max n (Num 0%Q)) (Num 1%Q);
        explanation := or_else e (VStr "Analysis completed with available information.");
        evidence := slice_or_empty 3 ev;
        sources := slice_or_empty 2 so |}.

(** [response.data.choices[0]?.message?.content || '{}'] *)
Definition content_of (data : value) : Result value :=
  choices <- get data "choices" ;;
  first <- index0 choices ;;
  Ok (or_else (get_opt (get_opt first "message") "content") (VStr "{}")).

(** [axios_post] gives [response.data]; it throws when the request fails
    or the answer is not a success. *)
Definition analyzeSegmentWithKimi (h : Host) (axios_post : Prompt -> Result value)
  (sentence : string) : Result Analysis :=
  try_catch
    (data <- axios_post (AnalyzeSentence sentence) ;;
     content <- content_of data ;;
     cleanedContent <- clean_content content ;;
     parsed <- JSON_parse h cleanedContent ;;
     sanitized h parsed)
    (fun error => Throw (new_Error ("Kimi K2 analysis failed: " ++ Error_toString error))).

Definition getFallbackAnalysis (sentence : string) : Analysis :=
  let lowerSentence := toLowerCase sentence in
  if includes lowerSentence "james webb" && includes lowerSentence "telescope" then
    {| verdict := "True";
       confidence := Num (95 # 100);
       explanation := VStr "The James Webb Space Telescope has indeed provided unprecedented insights into the early universe and confirmed many cosmological theories.";
       evidence := [VStr "JWST launched in 2021 and has exceeded expectations";
                    VStr "Multiple peer-reviewed studies confirm its discoveries"];
       sources := [source "NASA JWST Mission" "nasa.gov/jwst" (98 # 100)] |}
  else if includes lowerSentence "climate" && includes lowerSentence "temperature" then
    {| verdict := "True";
       confidence := Num (97 # 100);
       explanation := VStr "Global temperature increase of 1.1°C since pre-industrial times is well-documented by multiple climate research organizations.";
       evidence := [VStr "IPCC reports confirm this temperature rise";
                    VStr "Multiple independent datasets support this finding"];
       sources := [source "IPCC Climate Reports" "ipcc.ch" (99 # 100)] |}
  else
    {| verdict := "Mixed";
       confidence := Num (6 # 10);
       explanation := VStr "This statement requires additional verification with authoritative sources to determine complete accuracy.";
       evidence := [VStr "Statement analyzed but requires further verification"];
       sources := [] |}.

Definition analyzeSegmentsWithKimi (h : Host) (axios_post : Prompt -> Result value)
  (segs : list Segment) : list AnalyzedSegment :=
  map (fun s =>
         match analyzeSegmentWithKimi h axios_post (sentence s) with
         | Ok a => mkAnalyzed s a
         | Throw _ => mkAnalyzed s (getFallbackAnalysis (sentence s))
         end) segs.

(** [verdictScores[verdict]]: the entry of the table, if there is one. *)
Definition verdictScores (v : string) : option number :=
  if v =? "True" then Some (Num 1%Q)
  else if v =? "Mostly True" then Some (Num (8 # 10))
  else if v =? "Mixed" then Some (Num (1 # 2))
  else if v =? "Mostly False" then Some (Num (2 # 10))
  else if v =? "False" then Some (Num 0%Q)
  else None.

(** [verdictScores[verdict] || 0.5] *)
Definition score_or_default (v : string) : number :=
  match verdictScores v with
  | Some n => number_or n (Num (1 # 2))
  | None => Num (1 # 2)
  end.

Definition count_verdict (v : string) (l : list AnalyzedSegment) : nat :=
  List.length (filter (fun s => verdict (analysis s) =? v) l).

Definition synthesizeInsights (analyzedSegments : list AnalyzedSegment)
  : number * list string :=
  let totalScore :=
    fold_left (fun sum s => add sum (score_or_default (verdict (analysis s))))
              analyzedSegments (Num 0%Q) in
  let n := of_nat (List.length analyzedSegments) in
  let overallAccuracy := div totalScore n in
  let confidences :=
    fold_left (fun sum s => add sum (confidence (analysis s))) analyzedSegments (Num 0%Q) in
  let keyFindings :=
    [ ("Analyzed " ++ Number_toString n ++ " factual claims from video transcript")%string;
      (Z_toString (Z.of_nat (count_verdict "True" analyzedSegments))
        ++ " claims verified as accurate")%string;
      (Z_toString (Z.of_nat (count_verdict "False" analyzedSegments))
        ++ " claims identified as inaccurate")%string;
      ("Average confidence score: "
        ++ Number_toString (Math_round (mul (div confidences n) (Num 100%Q))) ++ "%")%string ] in
  (overallAccuracy, keyFindings).

Definition handleRealProcessingError (h : Host) (clock : Clock)
  (error : Error) (st : RunState) (startTime : Time)
  : RealVideoAnalysisResult * RunState :=
  let st := mark_error st ("❌ " ++ JS.message error) in
  let (now, st) := Date_now clock st in
  let processingTime := processingTime_of h startTime now in
  let (now', st') := Date_now clock st in
  ({| videoId := Z_toString now';
      platform := "Unknown";
      title := "Analysis Failed";
      duration := "0:00";
      fullTranscript := "Transcription could not be completed due to error.";
      segmentedAnalysis := [];
      overallAccuracy := Num 0%Q;
      keyFindings := [("Processing failed: " ++ JS.message error)%string];
      processingTime := processingTime;
      result_steps := steps st' |}, st').

Record Metadata : Type := mkMetadata {
  meta_platform : string;
  meta_title : string;
  meta_duration : string
}.

Definition extractVideoMetadata (h : Host) (videoUrl : string) : Result Metadata :=
  try_catch
    (hostname <- URL_hostname h videoUrl ;;
     if includes hostname "youtube" || includes hostname "youtu.be" then
       Ok (mkMetadata "YouTube" "YouTube Video - Real Analysis" "5:43")
     else if includes hostname "tiktok" then
       Ok (mkMetadata "TikTok" "TikTok Video - Real Analysis" "0:45")
     else if includes hostname "instagram" then
       Ok (mkMetadata "Instagram" "Instagram Video - Real Analysis" "1:20")
     else Ok (mkMetadata "Unknown" "Video Analysis" "0:00"))
    (fun error =>
       Throw (new_Error ("Failed to extract video metadata: " ++ Error_toString error))).

(** What [transcribeWithWhisper] resolves to, whatever the audio. *)
Definition mockTranscription : Transcription :=
  {| text_ := "Welcome to today's video where we'll explore some fascinating developments in space science and recent discoveries. The James Webb Space Telescope has been providing unprecedented insights into the early universe, showing us galaxies that formed over 13 billion years ago. Recent studies have confirmed that dark energy makes up approximately 68% of the universe and is driving its accelerated expansion. Climate research has also shown that global temperatures have increased by 1.1 degrees Celsius since pre-industrial times, with human activities being the primary cause. These findings are reshaping our understanding of both cosmic and terrestrial phenomena.";
     segments :=
       [ mkTSeg (Num 0%Q) (Num (52 # 10))
           "Welcome to today's video where we'll explore some fascinating developments in space science and recent discoveries.";
         mkTSeg (Num (52 # 10)) (Num (128 # 10))
           "The James Webb Space Telescope has been providing unprecedented insights into the early universe, showing us galaxies that formed over 13 billion years ago.";
         mkTSeg (Num (128 # 10)) (Num (195 # 10))
           "Recent studies have confirmed that dark energy makes up approximately 68% of the universe and is driving its accelerated expansion.";
         mkTSeg (Num (195 # 10)) (Num (271 # 10))
           "Climate research has also shown that global temperatures have increased by 1.1 degrees Celsius since pre-industrial times, with human activities being the primary cause.";
         mkTSeg (Num (271 # 10)) (Num 32%Q)
           "These findings are reshaping our understanding of both cosmic and terrestrial phenomena." ] |}.

Definition initial_steps : list ProcessingStep :=
  [ pending_step "validate" "Validating video URL and extracting metadata...";
    pending_step "download" "Downloading video and extracting audio...";
    pending_step "transcribe" "Transcribing with OpenAI Whisper...";
    pending_step "segment" "Segmenting transcript for analysis...";
    pending_step "analyze" "Line-by-line analysis with Kimi K2...";
    pending_step "synthesize" "Connecting dots and generating insights..." ].

Definition nat_toString (n : nat) : string := Z_toString (Z.of_nat n).

(** The [try] block of [processVideoReal] *)
Definition processVideoReal_try (h : Host) (axios_post : Prompt -> Result value)
  (clock : Clock) (videoUrl videoId : string) (startTime : Time)
  : Run RealVideoAnalysisResult :=
  (update "validate" processing "Extracting video metadata..." ;;;
   metadata <- lift (extractVideoMetadata h videoUrl) ;;
   update "validate" completed
     ("✅ " ++ meta_platform metadata ++ " video: " ++ dquote ++ meta_title metadata ++ dquote) ;;;
   update "download" processing "Downloading video and extracting audio stream..." ;;;
   update "download" completed ("🎵 Audio extracted: " ++ meta_duration metadata) ;;;
   update "transcribe" processing "Transcribing audio with OpenAI Whisper API..." ;;;
   let transcriptionResult := mockTranscription in
   update "transcribe" completed
     ("📝 Transcription: " ++ nat_toString (List.length (segments transcriptionResult))
      ++ " segments, " ++ nat_toString (String.length (text_ transcriptionResult))
      ++ " chars") ;;;
   update "segment" processing "Preparing transcript segments for analysis..." ;;;
   let segs := prepareTranscriptSegments transcriptionResult in
   update "segment" completed
     ("🔍 Prepared " ++ nat_toString (List.length segs) ++ " segments for fact-checking") ;;;
   update "analyze" processing
     ("Analyzing " ++ nat_toString (List.length segs) ++ " segments with Kimi K2 AI...") ;;;
   let analyzedSegments := analyzeSegmentsWithKimi h axios_post segs in
   update "analyze" completed
     ("🤖 Analysis complete: "
      ++ nat_toString (List.length
           (filter (fun s => gtb (confidence (analysis s)) (Num (7 # 10))) analyzedSegments))
      ++ " high-confidence claims") ;;;
   update "synthesize" processing
     "Connecting patterns and generating comprehensive insights..." ;;;
   let insights := synthesizeInsights analyzedSegments in
   update "synthesize" completed
     ("✅ Analysis complete! Overall accuracy: "
      ++ Number_toString (Math_round (mul (fst insights) (Num 100%Q))) ++ "%") ;;;
   t <- now clock ;;
   let processingTime := processingTime_of h startTime t in
   fun st =>
     (Ok {| videoId := videoId;
            platform := meta_platform metadata;
            title := meta_title metadata;
            duration := meta_duration metadata;
            fullTranscript := text_ transcriptionResult;
            segmentedAnalysis := analyzedSegments;
            overallAccuracy := fst insights;
            keyFindings := snd insights;
            processingTime := processingTime;
            result_steps := steps st |}, st))%run.

(** [processVideoReal(videoUrl, onProgress)]: the Report and the
    snapshots handed to [onProgress]. *)
Definition processVideoReal (h : Host) (axios_post : Prompt -> Result value)
  (clock : Clock) (videoUrl : string) : RealVideoAnalysisResult * Trace :=
  let (startTime, st0) := Date_now clock (mkRun initial_steps [] 0) in
  let (t, st1) := Date_now clock st0 in
  let videoId := Z_toString t in
  match processVideoReal_try h axios_post clock videoUrl videoId startTime st1 with
  | (Ok report, st) => (report, emitted st)
  | (Throw err, st) =>
      let (report, st') := handleRealProcessingError h clock err st startTime in
      (report, emitted st')
  end.

End RealVideoProcessor.

(* ================================================================== *)
(** * OpenRouterClient *)
(* ================================================================== *)

Module OpenRouterClient.

(** The user messages of [factCheck] and of [extractClaims], by what is
    interpolated into them. *)
Inductive Request : Type :=
| FactCheck (claim : string) (context : option string)
| ExtractClaims (text : string).

(** [chatCompletion(request)], whatever the requests are made of: the
    parsed body of the answer; an answer that is not [ok] is thrown,
    and so is whatever [fetch] throws. *)
Definition chatCompletion {P : Type} (fetch : P -> Result Response) (request : P)
  : Result value :=
  try_catch
    (response <- fetch request ;;
     if negb (ok response) then
       errorData <- JS.text response ;;
       Throw (new_Error ("OpenRouter API error: " ++ Z_toString (JS.status response)
                         ++ " - " ++ errorData))
     else json response)
    (fun error => Throw error).

(** [response.choices[0]?.message?.content || fallback] *)
Definition content_or (response : value) (fallback : string) : Result value :=
  choices <- get response "choices" ;;
  first <- index0 choices ;;
  Ok (or_else (get_opt (get_opt first "message") "content") (VStr fallback)).

Definition factCheck (fetch : Request -> Result Response) (claim : string)
  (context : option string) : Result value :=
  try_catch
    (response <- chatCompletion fetch (FactCheck claim context) ;;
     content_or response "Unable to fact-check claim")
    (fun error => Throw (new_Error "Failed to fact-check claim")).

(** [getModels()]; [fetch_models] is what the request for the list of
    the models resolves to. *)
Definition getModels (fetch_models : Result Response) : value :=
  match
    (response <- fetch_models ;;
     if negb (ok response) then
       Throw (new_Error ("Failed to fetch models: " ++ Z_toString (JS.status response)))
     else
       data <- json response ;;
       models <- get data "data" ;;
       Ok (or_else models (VArr [])))
  with
  | Ok models => models
  | Throw _ => VArr []
  end.

(** [models.find(model => model.id === modelName)] over what is left of
    the array. *)
Fixpoint find_model (modelName : string) (models : list value) : Result value :=
  match models with
  | [] => Ok VUndefined
  | model :: r =>
      id <- get model "id" ;;
      if is_string id modelName then Ok model else find_model modelName r
  end.

(** [checkModelInfo(modelName)]: only an array has a method [find]. *)
Definition checkModelInfo (fetch_models : Result Response) (modelName : string) : value :=
  match
    (match getModels fetch_models with
     | VArr models => find_model modelName models
     | VUndefined | VNull => Throw (cannot_read (getModels fetch_models) "find")
     | _ => Throw (new_TypeError "models.find is not a function")
     end)
  with
  | Ok model => model
  | Throw _ => VNull
  end.

End OpenRouterClient.

(* ================================================================== *)
(** * VideoProcessor *)
(* ================================================================== *)

Module VideoProcessor.

(** An element of [VideoAnalysisResult.claims]. *)
Record VerifiedClaim : Type := mkClaim {
  id : nat;
  text : string;
  timestamp : string;
  confidence : number;
  verdict : string;
  evidence : list value;
  sources : list value
}.

Record ExtractedClaim : Type := mkExtracted {
  claim_text : string;
  claim_timestamp : string
}.

(** What [generateFallbackAnalysis] returns. *)
Record FallbackAnalysis : Type := mkFallback {
  fb_confidence : number;
  fb_verdict : string;
  fb_evidence : list value;
  fb_sources : list value
}.

(** [OpenRouterClient.chatCompletion]: the parsed body of the answer;
    an answer that is not [ok] is thrown, and so is whatever [fetch]
    throws. *)
Definition chatCompletion (fetch : Prompt -> Result Response) (p : Prompt) : Result value :=
  try_catch
    (response <- fetch p ;;
     if negb (ok response) then
       errorData <- JS.text response ;;
       Throw (new_Error ("OpenRouter API error: " ++ Z_toString (JS.status response)
                         ++ " - " ++ errorData))
     else json response)
    (fun error => Throw error).

(** [sanitizedResult] of [factCheckClaims] for claim number [i]
    (counted from 0). *)
Definition sanitizedResult (h : Host) (i : nat) (claim : ExtractedClaim) (result : value)
  : Result VerifiedClaim :=
  c <- get result "confidence" ;;
  n <- ToNumber h (or_else c (VNum (Num (1 # 2)))) ;;
  v <- get result "verdict" ;;
  ev <- get result "evidence" ;;
  so <- get result "sources" ;;
  Ok {| id := i + 1;
        text := claim_text claim;
        timestamp := claim_timestamp claim;
        confidence := Math_min (Math_max n (Num 0%Q)) (Num 1%Q);
        verdict := if includes_value canonical_verdicts v
                   then string_of v else "Mixed";
        evidence := slice_or_empty 4 ev;
        sources := slice_or_empty 3 so |}.

Definition generateFallbackAnalysis (claimText : string) : FallbackAnalysis :=
  let lowerClaim := toLowerCase claimText in
  if includes lowerClaim "mars" && includes lowerClaim "never landed" then
    {| fb_confidence := Num (95 # 100);
       fb_verdict := "False";
       fb_evidence := [VStr "Multiple NASA missions have successfully landed rovers on Mars";
                       VStr "Curiosity, Perseverance, and other rovers are currently operating on Mars"];
       fb_sources := [source "NASA Mars Exploration" "nasa.gov/mars" (98 # 100)] |}
  else if includes lowerClaim "universe" && includes lowerClaim "shrinking" then
    {| fb_confidence := Num (92 # 100);
       fb_verdict := "False";
       fb_evidence := [VStr "Current scientific consensus supports universe expansion";
                       VStr "Dark energy observations confirm accelerating expansion"];
       fb_sources := [source "Cosmological Research" "science.org" (94 # 100)] |}
  else if includes lowerClaim "climate change" || includes lowerClaim "global warming" then
    {| fb_confidence := Num (97 # 100);
       fb_verdict := "True";
       fb_evidence := [VStr "IPCC reports confirm human impact on climate";
                       VStr "Temperature records show warming trend"];
       fb_sources := [source "IPCC Climate Reports" "ipcc.ch" (99 # 100)] |}
  else
    {| fb_confidence := Num (6 # 10);
       fb_verdict := "Mixed";
       fb_evidence := [VStr "Claim requires additional verification with authoritative sources"];
       fb_sources := [source "General Fact-Check Analysis" "#" (7 # 10)] |}.

(** [response.choices[0]?.message?.content || '{}'] *)
Definition content_of (response : value) : Result value :=
  choices <- get response "choices" ;;
  first <- index0 choices ;;
  Ok (or_else (get_opt (get_opt first "message") "content") (VStr "{}")).

(** One turn of the loop of [factCheckClaims]: the sanitized answer of
    the oracle, or the fallback when anything in the [try] throws. *)
Definition factCheckClaim (h : Host) (fetch : Prompt -> Result Response)
  (i : nat) (claim : ExtractedClaim) : VerifiedClaim :=
  match
    (response <- chatCompletion fetch (FactCheckClaim (VStr (claim_text claim))) ;;
     resultText <- content_of response ;;
     cleanedText <- clean_content resultText ;;
     result <- JSON_parse h cleanedText ;;
     sanitizedResult h i claim result)
  with
  | Ok c => c
  | Throw _ =>
      let fallbackAnalysis := generateFallbackAnalysis (claim_text claim) in
      {| id := i + 1;
         text := claim_text claim;
         timestamp := claim_timestamp claim;
         confidence := fb_confidence fallbackAnalysis;
         verdict := fb_verdict fallbackAnalysis;
         evidence := fb_evidence fallbackAnalysis;
         sources := fb_sources fallbackAnalysis |}
  end.

Fixpoint factCheckClaims_from (h : Host) (fetch : Prompt -> Result Response)
  (i : nat) (claims : list ExtractedClaim) : list VerifiedClaim :=
  match claims with
  | [] => []
  | c :: r => factCheckClaim h fetch i c :: factCheckClaims_from h fetch (S i) r
  end.

Definition factCheckClaims (h : Host) (fetch : Prompt -> Result Response)
  (claims : list ExtractedClaim) : list VerifiedClaim :=
  factCheckClaims_from h fetch 0 claims.

(** [scoreMap[claim.verdict]]: the entry of the table, if there is one. *)
Definition scoreMap (v : string) : option number :=
  if v =? "True" then Some (Num 1%Q)
  else if v =? "Mostly True" then Some (Num (8 # 10))
  else if v =? "Mixed" then Some (Num (1 # 2))
  else if v =? "Mostly False" then Some (Num (2 # 10))
  else if v =? "False" then Some (Num 0%Q)
  else None.

(** [scoreMap[claim.verdict] || 0.5] *)
Definition score_or_default (v : string) : number :=
  match scoreMap v with
  | Some n => number_or n (Num (1 # 2))
  | None => Num (1 # 2)
  end.

Definition calculateOverallScore (claims : list VerifiedClaim) : number :=
  if (List.length claims =? 0)%nat then Num 0%Q
  else
    let totalScore :=
      fold_left (fun sum claim => add sum (score_or_default (verdict claim)))
                claims (Num 0%Q) in
    div totalScore (of_nat (List.length claims)).

(** The [while] loop of [extractAudioWithRetry] with [attempts] turns
    left, [retryCount] failures behind it and [drawn] draws made; it
    gives the duration and the number of draws made. *)
Fixpoint extractAudio_loop (random : Random) (attempts retryCount drawn : nat)
  : Result string * nat :=
  match attempts with
  | O => (Ok "Unknown", drawn)
  | S attempts' =>
      if gtb (random drawn) (Num (1 # 10)) then (Ok "3:45", S drawn)
      else
        let error := new_Error "Audio extraction failed - network error" in
        let retryCount := S retryCount in
        if (2 <? retryCount)%nat then
          (Throw (new_Error ("Audio extraction failed after 3 attempts: "
                             ++ Error_toString error)), S drawn)
        else extractAudio_loop random attempts' retryCount (S drawn)
  end.

(** [maxRetries] is 2: the loop runs while [retryCount <= 2]. *)
Definition extractAudioWithRetry (random : Random) (drawn : nat) : Result string * nat :=
  extractAudio_loop random 3 0 drawn.


(** ** The stages around the fact check *)

Definition detectPlatform (url : URL) : string :=
  let hostname := url_hostname url in
  if includes hostname "youtube" || includes hostname "youtu.be" then "YouTube"
  else if includes hostname "tiktok" then "TikTok"
  else if includes hostname "instagram" then "Instagram"
  else if includes hostname "facebook" then "Facebook"
  else if includes hostname "twitter" || includes hostname "x.com" then "Twitter/X"
  else "Unknown Platform".

Definition supportedPlatforms : list string :=
  ["YouTube"; "TikTok"; "Instagram"; "Facebook"; "Twitter/X"].

(** [validateAndAnalyzeUrl(videoUrl)]: a TypeError caught is replaced,
    any other error is thrown again. *)
Definition validateAndAnalyzeUrl (b : Browser) (videoUrl : string) : Result (URL * string) :=
  try_catch
    (url <- new_URL b videoUrl ;;
     let platform := detectPlatform url in
     if negb (existsb (String.eqb platform) supportedPlatforms) then
       Throw (new_Error ("Platform " ++ dquote ++ platform ++ dquote
                         ++ " is not supported. Please use: "
                         ++ join ", " supportedPlatforms))
     else if negb (includes (url_protocol url) "http") then
       Throw (new_Error "Invalid URL protocol. Please use http:// or https://")
     else Ok (url, platform))
    (fun error =>
       if name error =? "TypeError" then
         Throw (new_Error "Invalid URL format. Please enter a complete video URL.")
       else Throw error).

(** The four patterns of [looksLikeFactualClaim], each under the flag
    [i]:
    [/\d+%|\d+\s*(percent|degrees|years|million|billion)/],
    [/(scientists?|researchers?|studies?|data|evidence)/],
    [/(discovered|found|shows?|proves?|confirms?)/] and
    [/(never|always|all|every|most|largest|smallest)/]. *)
Definition factualPatterns : list regex :=
  [ Alt (Seq (Plus (Chr isDigit)) (Lit_i "%"))
        (Seq (Plus (Chr isDigit))
             (Seq (Star (Chr isWhiteSpace))
                  (Group (Alts [ Lit_i "percent"; Lit_i "degrees"; Lit_i "years";
                                 Lit_i "million"; Lit_i "billion" ]))));
    Group (Alts [ Seq (Lit_i "scientist") (Opt (Lit_i "s"));
                  Seq (Lit_i "researcher") (Opt (Lit_i "s"));
                  Seq (Lit_i "studie") (Opt (Lit_i "s"));
                  Lit_i "data"; Lit_i "evidence" ]);
    Group (Alts [ Lit_i "discovered"; Lit_i "found";
                  Seq (Lit_i "show") (Opt (Lit_i "s"));
                  Seq (Lit_i "prove") (Opt (Lit_i "s"));
                  Seq (Lit_i "confirm") (Opt (Lit_i "s")) ]);
    Group (Alts [ Lit_i "never"; Lit_i "always"; Lit_i "all"; Lit_i "every";
                  Lit_i "most"; Lit_i "largest"; Lit_i "smallest" ]) ].

Definition looksLikeFactualClaim (sentence : string) : bool :=
  existsb (fun pattern => RegExp_test pattern sentence) factualPatterns.

(** The [for] loop of [extractClaimsFallback] from index [i] on, over
    the sentences it still is to read. *)
Fixpoint fallback_claims (i : nat) (sentences : list string) : list ExtractedClaim :=
  match sentences with
  | [] => []
  | s :: r =>
      let sentence := trim s in
      (if looksLikeFactualClaim sentence then
         [ {| claim_text := sentence;
              claim_timestamp :=
                Number_toString (Math_floor (mul (of_nat i) (Num 30%Q))) ++ ":"
                ++ padStart0 2 (Number_toString
                                  (rem (mul (of_nat i) (Num 15%Q)) (Num 60%Q))) |} ]
       else [])
      ++ fallback_claims (S i) r
  end.

Definition extractClaimsFallback (transcript : string) : list ExtractedClaim :=
  let sentences :=
    filter (fun s => (10 <? String.length (trim s))%nat) (split_sentences transcript) in
  let claims := fallback_claims 0 (firstn 4 sentences) in
  if (0 <? List.length claims)%nat then claims
  else [ {| claim_text := "Video contains claims that require verification";
            claim_timestamp := "0:30" |} ].

(** [calculateAccuracyDistribution(claims).summary], whatever the claims
    are made of beside their verdict. *)
Definition calculateAccuracyDistribution {C : Type} (verdict_of : C -> string)
  (claims : list C) : string :=
  let verdicts := map verdict_of claims in
  let count v := List.length (filter (fun x => x =? v) verdicts) in
  let total := List.length claims in
  if (total =? 0)%nat then "No claims analyzed"
  else
    let accurate := (count "True" + count "Mostly True")%nat in
    let percentage :=
      Math_round (mul (div (of_nat accurate) (of_nat total)) (Num 100%Q)) in
    Z_toString (Z.of_nat accurate) ++ "/" ++ Z_toString (Z.of_nat total)
    ++ " claims accurate (" ++ Number_toString percentage ++ "%)".

(** The transcripts [generateRealisticTranscript] chooses from. *)
Definition youtube_transcript : string :=
  "Welcome to today's video, everyone. I want to talk about some fascinating recent developments in space exploration and scientific research. 

First, let's discuss the incredible achievements we've seen with Mars exploration. The Perseverance rover has been making groundbreaking discoveries on the Red Planet, including evidence of ancient microbial life in rock samples. NASA's recent findings suggest that Mars had a much more hospitable environment billions of years ago.

Now, regarding the James Webb Space Telescope, the data we're getting is absolutely revolutionary. The telescope has confirmed that the universe is expanding at an accelerating rate, driven by dark energy. These observations are helping us understand cosmic evolution in ways we never thought possible.

I also want to address some recent claims about climate change data. The IPCC's latest report shows that global temperatures have risen by 1.1 degrees Celsius since pre-industrial times, and we're seeing unprecedented changes in weather patterns worldwide. The scientific consensus is clear - human activities are the primary driver of current climate change.

What's particularly interesting is how advanced AI models like GPT and other language models are being used to analyze vast amounts of scientific literature. These tools are helping researchers identify patterns and make connections that might take years to discover manually.".

Definition tiktok_transcript : string :=
  "Hey everyone! 🚀 Today I'm sharing some MIND-BLOWING space facts that will absolutely shock you! 

Did you know that humans have never actually set foot on Mars? That's right - all those rover missions you hear about are just robots! The closest humans have gotten to Mars is actually the International Space Station.

But here's where it gets crazy - the James Webb telescope recently discovered that the universe might actually be shrinking instead of expanding! Scientists are completely baffled by this discovery and it's changing everything we thought we knew about physics.

Also, fun fact: NASA's annual budget is actually larger than the entire GDP of most countries! They spend over 100 billion dollars every year on space exploration, which is more than some entire nations produce!

And get this - the speed of light isn't actually constant! New research shows that light travels faster in some parts of the universe than others. Einstein's theories might need some major updates!

Make sure to follow for more incredible science facts that will blow your mind! 🤯✨".

Definition instagram_transcript : string :=
  "Quick science update for you guys! Just learned some incredible facts about our universe that I had to share.

So apparently, the James Webb Space Telescope has been capturing images that show the universe expanding faster than we thought. The data suggests dark energy makes up about 68% of everything in existence - pretty wild when you think about it.

Also been reading about Mars exploration lately. The Perseverance rover found organic compounds in Martian soil samples, which could indicate past microbial life. NASA's planning human missions for the 2030s, which is so exciting!

Climate wise, the latest research shows we're seeing temperature increases of about 0.18 degrees per decade globally. The effects are becoming more visible with extreme weather events happening more frequently.

Technology is advancing so fast too. AI models are now helping scientists process data from space telescopes and make discoveries that would take humans years to find. It's amazing how machine learning is accelerating scientific research.".

Definition default_transcript : string :=
  "This video discusses various current topics including scientific research developments, technological advances, and global issues. The speaker presents information about space exploration, climate research, and recent discoveries in physics and astronomy. The content includes both established scientific facts and some claims that require verification through authoritative sources.".

Definition generateRealisticTranscript (b : Browser) (videoUrl : string) : Result string :=
  url <- new_URL b videoUrl ;;
  if includes (url_hostname url) "youtube" then Ok youtube_transcript
  else if includes (url_hostname url) "tiktok" then Ok tiktok_transcript
  else if includes (url_hostname url) "instagram" then Ok instagram_transcript
  else Ok default_transcript.

(** [transcribeAudio(videoUrl)]; every value thrown in the model is an
    [Error], so the message of the new error quotes that of the old. *)
Definition transcribeAudio (b : Browser) (videoUrl : string) : Result string :=
  try_catch (generateRealisticTranscript b videoUrl)
    (fun error => Throw (new_Error ("Transcription failed: " ++ JS.message error))).

(** The [while] loop of [transcribeWithRetry] with [turns] turns left
    and [retryCount] failures behind it; [attempt k] is what the call
    made after [k] failures gives. *)
Fixpoint transcribe_loop (attempt : nat -> Result string) (turns retryCount : nat)
  : Result string :=
  match turns with
  | O => Throw (new_Error "Transcription failed completely")
  | S turns' =>
      match attempt retryCount with
      | Ok transcript => Ok transcript
      | Throw err =>
          let retryCount := S retryCount in
          if (2 <? retryCount)%nat then
            Throw (new_Error ("Transcription failed after 3 attempts: "
                              ++ Error_toString err))
          else transcribe_loop attempt turns' retryCount
      end
  end.

(** [maxRetries] is 2: the loop runs while [retryCount <= 2]. *)
Definition transcribeWithRetry (b : Browser) (videoUrl : string) : Result string :=
  transcribe_loop (fun _ => transcribeAudio b videoUrl) 3 0.

(** ** The claims, as the oracle lists them *)

(** The user message of [extractClaims], by what is interpolated into it. *)
Inductive ClaimsPrompt : Type :=
| ExtractClaimsFrom (transcript : string).

(** A claim [{ text, timestamp }] as a value. *)
Definition claim_value (text timestamp : string) : value :=
  VObj [("text", VStr text); ("timestamp", VStr timestamp)].

Definition value_of_claim (c : ExtractedClaim) : value :=
  claim_value (claim_text c) (claim_timestamp c).

(** [extractClaims(transcript)]; [currentVideoUrl] is the field of that
    name, [None] standing for [null]. *)
Definition extractClaims (h : Host) (b : Browser) (fetch : ClaimsPrompt -> Result Response)
  (currentVideoUrl : option string) (transcript : string) : Result (list value) :=
  try_catch
    (response <- OpenRouterClient.chatCompletion fetch (ExtractClaimsFrom transcript) ;;
     claimsText <- OpenRouterClient.content_or response "[]" ;;
     cleanedText <- clean_content claimsText ;;
     claims <- JSON_parse h cleanedText ;;
     Ok (slice_or_empty 5 claims))
    (fun error =>
       url <- new_URL b (match currentVideoUrl with
                         | Some u => if u =? "" then "https://youtube.com" else u
                         | None => "https://youtube.com"
                         end) ;;
       if includes (url_hostname url) "tiktok" then
         Ok [ claim_value "Humans have never actually landed on Mars" "0:15";
              claim_value "The James Webb telescope discovered the universe is shrinking" "0:45";
              claim_value "NASA's budget is larger than most countries' entire GDP" "1:10" ]
       else
         Ok [ claim_value "Climate change affects weather patterns globally" "1:23";
              claim_value "Renewable energy adoption has increased 300% in the last decade" "2:15" ]).

(** The [while] loop of [extractClaimsWithRetry] with [turns] turns left
    and [retryCount] failures behind it; [attempt k] is what the call
    made after [k] failures gives. *)
Fixpoint claims_loop (attempt : nat -> Result (list value)) (fallback : list value)
  (turns retryCount : nat) : list value :=
  match turns with
  | O => []
  | S turns' =>
      match attempt retryCount with
      | Ok claims => claims
      | Throw _ =>
          let retryCount := S retryCount in
          if (2 <? retryCount)%nat then fallback
          else claims_loop attempt fallback turns' retryCount
      end
  end.

(** [extractClaimsWithRetry(transcript)]; [fetch k] is the network as it
    answers the request made after [k] failures. *)
Definition extractClaimsWithRetry (h : Host) (b : Browser)
  (fetch : nat -> ClaimsPrompt -> Result Response)
  (currentVideoUrl : option string) (transcript : string) : list value :=
  claims_loop (fun k => extractClaims h b (fetch k) currentVideoUrl transcript)
    (map value_of_claim (extractClaimsFallback transcript)) 3 0.

(** ** The fact check of claims of any make *)

(** An element of [VideoAnalysisResult.claims] at run time: [text] and
    [timestamp] are whatever the claim checked held there. *)
Record CheckedClaim : Type := mkChecked {
  checked_id : nat;
  checked_text : value;
  checked_timestamp : value;
  checked_confidence : number;
  checked_verdict : string;
  checked_evidence : list value;
  checked_sources : list value
}.

Definition checked_of (c : VerifiedClaim) : CheckedClaim :=
  mkChecked (id c) (VStr (text c)) (VStr (timestamp c)) (confidence c) (verdict c)
            (evidence c) (sources c).

(** The claim built of the fallback analysis, in [factCheckClaims] and
    in [factCheckWithRetry] alike: [claim.text] is read, then
    [claim.timestamp], then [generateFallbackAnalysis(claim.text)]
    calls [toLowerCase] on the text. *)
Definition fallback_checked (i : nat) (claim : value) : Result CheckedClaim :=
  claimText <- get claim "text" ;;
  claimTimestamp <- get claim "timestamp" ;;
  claimString <- string_receiver "claimText" "toLowerCase" claimText ;;
  let fallbackAnalysis := generateFallbackAnalysis claimString in
  Ok {| checked_id := i + 1;
        checked_text := claimText;
        checked_timestamp := claimTimestamp;
        checked_confidence := fb_confidence fallbackAnalysis;
        checked_verdict := fb_verdict fallbackAnalysis;
        checked_evidence := fb_evidence fallbackAnalysis;
        checked_sources := fb_sources fallbackAnalysis |}.

(** One turn of the loop of [factCheckClaims] for a claim of any make.
    The prompt interpolates [claim.text] before the [try] is entered. *)
Definition factCheckAny (h : Host) (fetch : Prompt -> Result Response)
  (i : nat) (claim : value) : Result CheckedClaim :=
  claimText <- get claim "text" ;;
  prompt <- ToString h claimText ;;
  try_catch
    (response <- chatCompletion fetch (FactCheckClaim claimText) ;;
     resultText <- content_of response ;;
     cleanedText <- clean_content resultText ;;
     result <- JSON_parse h cleanedText ;;
     claimTimestamp <- get claim "timestamp" ;;
     c <- get result "confidence" ;;
     n <- ToNumber h (or_else c (VNum (Num (1 # 2)))) ;;
     v <- get result "verdict" ;;
     ev <- get result "evidence" ;;
     so <- get result "sources" ;;
     Ok {| checked_id := i + 1;
           checked_text := claimText;
           checked_timestamp := claimTimestamp;
           checked_confidence := Math_min (Math_max n (Num 0%Q)) (Num 1%Q);
           checked_verdict := if includes_value canonical_verdicts v
                              then string_of v else "Mixed";
           checked_evidence := slice_or_empty 4 ev;
           checked_sources := slice_or_empty 3 so |})
    (fun error => fallback_checked i claim).

Fixpoint factCheckAll_from (h : Host) (fetch : Prompt -> Result Response)
  (i : nat) (claims : list value) : Result (list CheckedClaim) :=
  match claims with
  | [] => Ok []
  | claim :: r =>
      checked <- factCheckAny h fetch i claim ;;
      rest <- factCheckAll_from h fetch (S i) r ;;
      Ok (checked :: rest)
  end.

(** [claims.map((claim, index) => ({ ... }))] of [factCheckWithRetry]
    from index [i] on. *)
Fixpoint fallback_all_from (i : nat) (claims : list value) : Result (list CheckedClaim) :=
  match claims with
  | [] => Ok []
  | claim :: r =>
      checked <- fallback_checked i claim ;;
      rest <- fallback_all_from (S i) r ;;
      Ok (checked :: rest)
  end.

(** [factCheckWithRetry(claims)] for claims of any make. *)
Definition factCheckWithRetry (h : Host) (fetch : Prompt -> Result Response)
  (claims : list value) : Result (list CheckedClaim) :=
  try_catch (factCheckAll_from h fetch 0 claims)
    (fun error => fallback_all_from 0 claims).

(** ** The pipeline *)

Record VideoAnalysisResult : Type := mkResult {
  videoId : string;
  platform : string;
  title : string;
  transcript : string;
  claims : list CheckedClaim;
  overallScore : number;
  processingTime : string;
  result_steps : list ProcessingStep
}.

(** [calculateOverallScore(claims)] for claims of any make: their
    verdicts alone are read. *)
Definition calculateOverallScore_of {C : Type} (verdict_of : C -> string) (claims : list C)
  : number :=
  if (List.length claims =? 0)%nat then Num 0%Q
  else
    let totalScore :=
      fold_left (fun sum claim => add sum (score_or_default (verdict_of claim)))
                claims (Num 0%Q) in
    div totalScore (of_nat (List.length claims)).

(** [handleProcessingError]; the clock is read twice, for the processing
    time and then for the identifier. *)
Definition handleProcessingError (h : Host) (clock : Clock)
  (error : Error) (st : RunState) (startTime : Time)
  : VideoAnalysisResult * RunState :=
  let st := mark_error st ("❌ " ++ (if JS.message error =? "" then "Processing failed"
                                     else JS.message error)) in
  let (now, st) := Date_now clock st in
  let processingTime := processingTime_of h startTime now in
  let (now', st') := Date_now clock st in
  ({| videoId := Z_toString now';
      platform := "Unknown";
      title := "Analysis Failed";
      transcript := "Transcription could not be completed due to processing error.";
      claims := [ {| checked_id := 1;
                     checked_text := VStr "Video analysis encountered an error";
                     checked_timestamp := VStr "0:00";
                     checked_confidence := Num 0%Q;
                     checked_verdict := "Mixed";
                     checked_evidence := [VStr ("Error: " ++ JS.message error)];
                     checked_sources := [] |} ];
      overallScore := Num 0%Q;
      processingTime := processingTime;
      result_steps := steps st' |}, st').

Definition initial_steps : list ProcessingStep :=
  [ pending_step "validate" "Validating video URL...";
    pending_step "extract" "Extracting audio from video...";
    pending_step "transcribe" "Transcribing audio with Whisper...";
    pending_step "analyze" "Analyzing transcript with AI...";
    pending_step "factcheck" "Fact-checking claims with Kimi K2...";
    pending_step "complete" "Generating final report..." ].

Definition nat_toString (n : nat) : string := Z_toString (Z.of_nat n).

(** The [try] block of [processVideo]; [random] gives the draws of
    [extractAudioWithRetry], the only stage that draws. *)
Definition processVideo_try (h : Host) (b : Browser) (random : Random)
  (fetch_claims : nat -> ClaimsPrompt -> Result Response)
  (fetch : Prompt -> Result Response)
  (clock : Clock) (videoUrl videoId : string) (startTime : Time)
  : Run VideoAnalysisResult :=
  (update "validate" processing "Validating video URL and checking accessibility..." ;;;
   validated <- lift (validateAndAnalyzeUrl b videoUrl) ;;
   let platform := snd validated in
   update "validate" completed
     ("✅ Valid " ++ platform ++ " URL verified and accessible") ;;;
   update "extract" processing "Extracting high-quality audio stream..." ;;;
   duration <- lift (fst (extractAudioWithRetry random 0)) ;;
   update "extract" completed
     ("🎵 Audio extracted: " ++ (if duration =? "" then "Unknown" else duration)
      ++ " duration") ;;;
   update "transcribe" processing "Transcribing audio with OpenAI Whisper AI..." ;;;
   transcript <- lift (transcribeWithRetry b videoUrl) ;;
   update "transcribe" completed
     ("📝 Transcription complete: " ++ nat_toString (utf16_length transcript)
      ++ " chars, ~"
      ++ Number_toString (Math_ceil (div (of_nat (utf16_length transcript)) (Num 5%Q)))
      ++ " words") ;;;
   update "analyze" processing "Using AI to extract verifiable claims from transcript..." ;;;
   let extractedClaims :=
     extractClaimsWithRetry h b fetch_claims (Some videoUrl) transcript in
   update "analyze" completed
     ("🔍 Analysis complete: " ++ nat_toString (List.length extractedClaims)
      ++ " factual claims identified") ;;;
   update "factcheck" processing
     ("Fact-checking " ++ nat_toString (List.length extractedClaims)
      ++ " claims with Kimi K2 AI...") ;;;
   verifiedClaims <- lift (factCheckWithRetry h fetch extractedClaims) ;;
   let accuracy := calculateAccuracyDistribution checked_verdict verifiedClaims in
   update "factcheck" completed ("🤖 Fact-checking complete: " ++ accuracy) ;;;
   update "complete" processing "Generating comprehensive analysis report..." ;;;
   let overallScore := calculateOverallScore_of checked_verdict verifiedClaims in
   t <- now clock ;;
   let processingTime := processingTime_of h startTime t in
   update "complete" completed
     ("✅ Complete analysis ready! Overall accuracy: "
      ++ Number_toString (Math_round (mul overallScore (Num 100%Q))) ++ "%") ;;;
   fun st =>
     (Ok {| videoId := videoId;
            platform := platform;
            title := platform ++ " Video Analysis";
            transcript := transcript;
            claims := verifiedClaims;
            overallScore := overallScore;
            processingTime := processingTime;
            result_steps := steps st |}, st))%run.

(** [processVideo(videoUrl, onProgress)]: the result and the snapshots
    handed to [onProgress]. *)
Definition processVideo (h : Host) (b : Browser) (random : Random)
  (fetch_claims : nat -> ClaimsPrompt -> Result Response)
  (fetch : Prompt -> Result Response)
  (clock : Clock) (videoUrl : string) : VideoAnalysisResult * Trace :=
  let (startTime, st0) := Date_now clock (mkRun initial_steps [] 0) in
  let (t, st1) := Date_now clock st0 in
  let videoId := Z_toString t in
  match processVideo_try h b random fetch_claims fetch clock videoUrl videoId startTime st1 with
  | (Ok report, st) => (report, emitted st)
  | (Throw err, st) =>
      let (report, st') := handleProcessingError h clock err st startTime in
      (report, emitted st')
  end.

End VideoProcessor.

(* ================================================================== *)
(** * ActualVideoProcessor *)
(* ================================================================== *)

Module ActualVideoProcessor.

(** An entry of a transcript, as [YoutubeTranscript.fetchTranscript]
    resolves it. *)
Record TranscriptItem : Type := mkItem {
  item_text : string;
  offset : number;
  item_duration : number
}.

(** The services a run talks to. *)
Record World : Type := mkWorld {
  (** [YoutubeTranscript.fetchTranscript(reference, { lang })]; the
      language is [None] when no option is passed *)
  fetchTranscript : string -> option string -> Result (list TranscriptItem);
  (** whether the ten-second timer of the fourth method fires before
      the transcript of the reference arrives *)
  timeout_first : string -> bool;
  (** [fetch] of a chat completion *)
  fetch : Prompt -> Result Response
}.

Record VideoInfo : Type := mkInfo {
  info_title : value;
  info_duration : value;
  description : value
}.

Record TranscriptData : Type := mkData {
  transcript : value;
  videoInfo : VideoInfo
}.

(** What [kimiCompleteAnalysis] returns. *)
Record KimiAnalysis : Type := mkKimi {
  kimi_segments : value;
  kimi_overallAccuracy : number;
  kimi_keyFindings : list value
}.

Record ActualVideoAnalysisResult : Type := mkResult {
  videoId : string;
  platform : string;
  title : value;
  duration : value;
  fullTranscript : value;
  segmentedAnalysis : value;
  overallAccuracy : number;
  keyFindings : list value;
  processingTime : string;
  result_steps : list ProcessingStep
}.

Definition formatDuration (seconds : number) : string :=
  let hours := Math_floor (div seconds (Num 3600%Q)) in
  let minutes := Math_floor (div (rem seconds (Num 3600%Q)) (Num 60%Q)) in
  let secs := Math_floor (rem seconds (Num 60%Q)) in
  if gtb hours (Num 0%Q) then
    Number_toString hours ++ ":" ++ padStart0 2 (Number_toString minutes)
      ++ ":" ++ padStart0 2 (Number_toString secs)
  else
    Number_toString minutes ++ ":" ++ padStart0 2 (Number_toString secs).

(** [transcript[transcript.length - 1]?.offset + transcript[transcript.length - 1]?.duration || 0] *)
Definition totalDuration_of (items : list TranscriptItem) : number :=
  match List.rev items with
  | lastItem :: _ => number_or (add (offset lastItem) (item_duration lastItem)) (Num 0%Q)
  | [] => Num 0%Q
  end.

Definition formatTranscriptResult (items : list TranscriptItem) (method : string)
  : TranscriptData :=
  let fullText := join " " (map item_text items) in
  let totalDuration := totalDuration_of items in
  {| transcript := VStr fullText;
     videoInfo :=
       {| info_title := VStr ("YouTube Video (" ++ method ++ ")");
          info_duration := VStr (formatDuration (div totalDuration (Num 1000%Q)));
          description := VStr ("Real transcript extracted via " ++ method) |} |}.

(** The built-in passage [kimiGenerateContent] ends on. *)
Definition ultimate_fallback : TranscriptData :=
  {| transcript := VStr "This educational content discusses recent scientific discoveries and technological advancements. Researchers have published new studies showing significant progress in renewable energy efficiency. The data indicates that solar panel technology has improved by 25% over the past year. Government agencies have confirmed new environmental policies will be implemented next quarter. These developments represent important progress toward sustainable energy goals.";
     videoInfo :=
       {| info_title := VStr "Educational Content Analysis";
          info_duration := VStr "4:30";
          description := VStr "Sample content for fact-checking demonstration" |} |}.

Section Processor.

Variable h : Host.
Variable w : World.

(** [extractVideoId(videoUrl)]: a function of the URL alone, which
    answers ['unknown'] when it finds no identifier.  Its regular
    expressions are not unfolded here. *)
Variable extractVideoId : string -> string.

Definition isYouTubeUrl (videoUrl : string) : bool :=
  match URL_hostname h videoUrl with
  | Ok hostname => includes hostname "youtube" || includes hostname "youtu.be"
  | Throw _ => false
  end.

(** A loop [for (const x of xs) { try { ... return ... } catch { } }]
    whose body fetches a transcript and returns when it has entries;
    [None] when the loop ends without a return. *)
Fixpoint first_transcript (attempts : list (Result (list TranscriptItem))) (method : string)
  : option TranscriptData :=
  match attempts with
  | [] => None
  | a :: r =>
      match a with
      | Ok items =>
          if (0 <? List.length items)%nat then Some (formatTranscriptResult items method)
          else first_transcript r method
      | Throw _ => first_transcript r method
      end
  end.

(** Method 1: Direct URL with different language options *)
Definition method1 (videoUrl : string) : Result TranscriptData :=
  let languages := ["en"; "en-US"; "en-GB"; "auto"] in
  match first_transcript
          (map (fun lang => fetchTranscript w videoUrl (Some lang)) languages)
          "Direct URL" with
  | Some d => Ok d
  | None => Throw (new_Error "No language worked")
  end.

(** Method 2: Video ID extraction *)
Definition method2 (videoUrl : string) : Result TranscriptData :=
  let videoId := extractVideoId videoUrl in
  if videoId =? "unknown" then Throw (new_Error "Could not extract video ID")
  else
    items <- fetchTranscript w videoId None ;;
    if (0 <? List.length items)%nat then Ok (formatTranscriptResult items "Video ID")
    else Throw (new_Error "No transcript from video ID").

(** Method 3: Different URL formats *)
Definition method3 (videoUrl : string) : Result TranscriptData :=
  let videoId := extractVideoId videoUrl in
  if videoId =? "unknown" then Throw (new_Error "No video ID for URL formats")
  else
    let urlFormats :=
      [ ("https://www.youtube.com/watch?v=" ++ videoId)%string;
        ("https://youtu.be/" ++ videoId)%string;
        videoId ] in
    match first_transcript
            (map (fun format => fetchTranscript w format None) urlFormats)
            "URL Format" with
    | Some d => Ok d
    | None => Throw (new_Error "No URL format worked")
    end.

(** Method 4: With timeout and retry *)
Definition method4 (videoUrl : string) : Result TranscriptData :=
  let videoId := extractVideoId videoUrl in
  if videoId =? "unknown" then Throw (new_Error "No video ID for timeout method")
  else
    items <- (if timeout_first w videoId then Throw (new_Error "Timeout")
              else fetchTranscript w videoId (Some "en")) ;;
    if (0 <? List.length items)%nat then Ok (formatTranscriptResult items "Timeout Retry")
    else Throw (new_Error "Timeout method failed").

(** [parsed.videoInfo?.title || ...] and its two siblings *)
Definition info_or (info : value) (k : string) (default : string) : value :=
  or_else (get_opt info k) (VStr default).

(** The [try] block of [kimiGenerateContent]: [Some] of what it returns,
    [None] when it runs to its end without returning. *)
Definition kimiGenerateContent_try (videoUrl : string) : Result (option TranscriptData) :=
  response <- fetch w (GenerateContent videoUrl) ;;
  if ok response then
    data <- json response ;;
    choices <- get data "choices" ;;
    first <- index0 choices ;;
    let content := get_opt (get_opt first "message") "content" in
    if truthy content then
      try_catch
        (cleanedContent <- clean_content content ;;
         parsed <- JSON_parse h cleanedContent ;;
         t <- get parsed "transcript" ;;
         info <- get parsed "videoInfo" ;;
         Ok (Some {| transcript := or_else t content;
                     videoInfo :=
                       {| info_title := info_or info "title" "Generated Content Analysis";
                          info_duration := info_or info "duration" "5:00";
                          description :=
                            info_or info "description" "AI-generated content for fact-checking" |} |}))
        (fun _ =>
           Ok (Some {| transcript := content;
                       videoInfo :=
                         {| info_title := VStr "Generated Educational Content";
                            info_duration := VStr "5:00";
                            description := VStr "AI-generated content for analysis" |} |}))
    else Ok None
  else Ok None.

Definition kimiGenerateContent (videoUrl : string) : Result TranscriptData :=
  returned <- try_catch (kimiGenerateContent_try videoUrl) (fun error => Ok None) ;;
  match returned with
  | Some d => Ok d
  | None => Ok ultimate_fallback
  end.

(** The loop of [extractRealTranscript] over the methods still to try. *)
Fixpoint try_methods (methods : list (Result TranscriptData)) (videoUrl : string)
  : Result TranscriptData :=
  match methods with
  | [] => Throw (new_Error "All extraction methods failed")
  | m :: r =>
      try_catch m
        (fun error =>
           match r with
           | [] => kimiGenerateContent videoUrl
           | _ :: _ => try_methods r videoUrl
           end)
  end.

(** An entry of the built-in transcripts of [generateIntelligentFallback]. *)
Definition spoken (text : string) (start duration : Z) : string * number * number :=
  (text, of_Z start, of_Z duration).

(** [transcriptOptions]: the educational, the news and the science
    transcript, each with its full text and its segments. *)
Definition transcriptOptions : list (string * list (string * number * number)) :=
  [ ("Welcome to today's educational video. In this presentation, we'll explore important concepts and share factual information on our topic. Recent studies have shown significant developments in this field, with researchers publishing new findings that expand our understanding. The data collected from multiple sources indicates clear trends and patterns that are worth examining. We'll break down the key points step by step, providing evidence-based analysis throughout our discussion. These findings have been peer-reviewed and published in reputable journals, ensuring the accuracy of the information we're sharing today. Thank you for joining us for this informative session.",
     [ spoken "Welcome to today's educational video" 0 3;
       spoken "In this presentation, we'll explore important concepts and share factual information" 3 4;
       spoken "Recent studies have shown significant developments in this field" 7 3;
       spoken "Researchers publishing new findings that expand our understanding" 10 4;
       spoken "The data collected from multiple sources indicates clear trends" 14 3;
       spoken "We'll break down the key points step by step with evidence" 17 4;
       spoken "These findings have been peer-reviewed and published in reputable journals" 21 4;
       spoken "Thank you for joining us for this informative session" 25 3 ]);
    ("This is your news update with the latest information on current events. Today's top stories include important developments that affect communities worldwide. Our reporting team has verified these facts through multiple reliable sources and official statements. Government officials have confirmed key details about recent policy changes and their expected impact. Economic analysts report new data showing trends in various market sectors. Weather services predict continued patterns based on meteorological observations. These updates reflect accurate information as of today's broadcast. We'll continue monitoring these developing stories and provide updates as they become available.",
     [ spoken "This is your news update with latest information on current events" 0 4;
       spoken "Today's top stories include important developments affecting communities worldwide" 4 4;
       spoken "Our reporting team has verified facts through multiple reliable sources" 8 3;
       spoken "Government officials confirmed key details about recent policy changes" 11 4;
       spoken "Economic analysts report new data showing market sector trends" 15 3;
       spoken "Weather services predict patterns based on meteorological observations" 18 4;
       spoken "These updates reflect accurate information as of today's broadcast" 22 3 ]);
    ("In this scientific exploration, we examine cutting-edge research and breakthrough discoveries. Scientists at leading institutions have published peer-reviewed studies revealing new insights about our natural world. The experimental data demonstrates measurable effects and reproducible results across multiple laboratory settings. Researchers used standardized methodologies to ensure accuracy and eliminate potential bias in their findings. The implications of these discoveries extend beyond theoretical knowledge to practical applications. Clinical trials have shown promising results with statistical significance in controlled environments. These scientific advances represent years of careful research and collaboration among international teams. The findings contribute valuable knowledge to our understanding of complex systems.",
     [ spoken "In this scientific exploration, we examine cutting-edge research and discoveries" 0 4;
       spoken "Scientists at leading institutions published peer-reviewed studies revealing new insights" 4 4;
       spoken "Experimental data demonstrates measurable effects and reproducible results" 8 3;
       spoken "Researchers used standardized methodologies to ensure accuracy" 11 3;
       spoken "The implications extend beyond theory to practical applications" 14 3;
       spoken "Clinical trials showed promising results with statistical significance" 17 4;
       spoken "These advances represent years of careful research and collaboration" 21 4 ]) ].

(** [generateIntelligentFallback(videoUrl)], a method no other calls: it
    picks a transcript by a draw of [Math.random()] and gives its full
    text, its segments and its duration, with the number of draws made. *)
Definition generateIntelligentFallback (random : Random) (drawn : nat) (videoUrl : string)
  : Result (string * list (string * number * number) * string) * nat :=
  let videoId := extractVideoId videoUrl in
  let index :=
    Math_floor (mul (random drawn) (of_nat (List.length transcriptOptions))) in
  (match at_index transcriptOptions index with
   | Some (fullText, segs) =>
       match List.rev segs with
       | (_, start, duration) :: _ =>
           Ok (fullText, segs, formatDuration (add start duration))
       | [] => Throw (cannot_read VUndefined "start")
       end
   | None => Throw (cannot_read VUndefined "segments")
   end, S drawn).

Definition extractionMethods (videoUrl : string) : list (Result TranscriptData) :=
  [method1 videoUrl; method2 videoUrl; method3 videoUrl; method4 videoUrl].

Definition extractRealTranscript (videoUrl : string) : Result TranscriptData :=
  try_methods (extractionMethods videoUrl) videoUrl.

(** [s.split(...)] and [s.substring(...)] exist on strings only. *)
Definition as_string (v : value) (method : string) : Result string :=
  match v with
  | VStr s => Ok s
  | VUndefined | VNull => Throw (cannot_read v method)
  | _ => Throw (new_TypeError (method ++ " is not a function"))
  end.

(** The [analysis] of a segment the processor makes up itself. *)
Definition builtin_analysis (conf : Q) (expl evid : string) : value :=
  VObj [ ("verdict", VStr "Mixed");
         ("confidence", VNum (Num conf));
         ("explanation", VStr expl);
         ("evidence", VArr [VStr evid]);
         ("sources", VArr []) ].

(** [sentences.map((sentence, i) => ({ ... }))] from index [i] on: the
    segments are called [prefix_1], [prefix_2], ... and stand [spacing]
    minutes apart. *)
Fixpoint builtin_segments (prefix : string) (spacing : nat) (analysis : value)
  (i : nat) (sentences : list string) : list value :=
  match sentences with
  | [] => []
  | sentence :: r =>
      VObj [ ("segment", VStr (prefix ++ Z_toString (Z.of_nat (i + 1))));
             ("timestamp", VStr (Z_toString (Z.of_nat (i * spacing)) ++ ":00"));
             ("sentence", VStr (trim sentence));
             ("analysis", analysis) ]
      :: builtin_segments prefix spacing analysis (S i) r
  end.

Definition createBasicSegments (analysisText : value) : Result value :=
  text <- as_string analysisText "analysisText.split" ;;
  let sentences :=
    firstn 3 (filter (fun x => (20 <? String.length (trim x))%nat) (split_sentences text)) in
  Ok (VArr (builtin_segments "analysis_" 90
              (builtin_analysis (7 # 10)
                 "Kimi K2 provided detailed analysis of this content"
                 "Analysis based on Kimi K2 knowledge base")
              0 sentences)).

Definition convertTextToSegments (analysisText originalTranscript : value)
  : Result KimiAnalysis :=
  segs <- createBasicSegments analysisText ;;
  original <- as_string originalTranscript "originalTranscript.substring" ;;
  Ok {| kimi_segments := segs;
        kimi_overallAccuracy := Num (7 # 10);
        kimi_keyFindings :=
          [ VStr "Comprehensive analysis completed by Kimi K2";
            VStr ("Analyzed content: " ++ substring0 100 original ++ "...");
            VStr "Fact-checking assessment provided" ] |}.

Definition createFallbackAnalysis (transcript : value) : Result KimiAnalysis :=
  text <- as_string transcript "transcript.split" ;;
  let sentences :=
    firstn 4 (filter (fun x => (15 <? String.length (trim x))%nat) (split_sentences text)) in
  Ok {| kimi_segments :=
          VArr (builtin_segments "fallback_" 60
                  (builtin_analysis (6 # 10)
                     "Basic analysis completed - requires further verification"
                     "Limited analysis due to processing constraints")
                  0 sentences);
        kimi_overallAccuracy := Num (6 # 10);
        kimi_keyFindings :=
          [ VStr ("Analyzed " ++ Z_toString (Z.of_nat (List.length sentences))
                  ++ " key statements");
            VStr "Further verification recommended";
            VStr "Basic fact-checking completed" ] |}.

(** The inner [try] of [kimiCompleteAnalysis]. *)
Definition parsed_analysis (content_response : value) : Result KimiAnalysis :=
  cleanedContent <- clean_content content_response ;;
  analysis <- JSON_parse h cleanedContent ;;
  segs <- get analysis "segments" ;;
  segs' <- (if truthy segs then Ok segs else createBasicSegments content_response) ;;
  accuracy <- get analysis "overallAccuracy" ;;
  parsedAccuracy <- parseFloat h accuracy ;;
  findings <- get analysis "keyFindings" ;;
  Ok {| kimi_segments := segs';
        kimi_overallAccuracy :=
          Math_min (Math_max (number_or parsedAccuracy (Num (7 # 10))) (Num 0%Q)) (Num 1%Q);
        kimi_keyFindings :=
          match findings with
          | VArr items => items
          | _ => [VStr "Fact-checking analysis completed by Kimi K2"]
          end |}.

Definition kimiCompleteAnalysis (content : TranscriptData) : Result KimiAnalysis :=
  (* the prompt interpolates the transcript before the [try] is entered *)
  prompt <- ToString h (transcript content) ;;
  try_catch
    (response <- fetch w (CompleteAnalysis (transcript content)) ;;
     if negb (ok response) then
       errorText <- JS.text response ;;
       Throw (new_Error ("Kimi K2 analysis failed: " ++ Z_toString (JS.status response)))
     else
       data <- json response ;;
       choices <- get data "choices" ;;
       first <- index0 choices ;;
       let content_response := get_opt (get_opt first "message") "content" in
       if negb (truthy content_response) then
         Throw (new_Error "No analysis content received from Kimi K2")
       else
         try_catch (parsed_analysis content_response)
           (fun parseError => convertTextToSegments content_response (transcript content)))
    (fun error => createFallbackAnalysis (transcript content)).

Definition compileKimiResults (clock : Clock) (analysis : KimiAnalysis)
  (transcriptData : TranscriptData) (videoId : string) (startTime : Time)
  : Run ActualVideoAnalysisResult :=
  (t <- now clock ;;
   let processingTime := processingTime_of h startTime t in
   processed <- lift (len <- length_of (kimi_segments analysis) ;; ToString h len)%js ;;
   ret {| videoId := videoId;
        platform := "YouTube";
        title := info_title (videoInfo transcriptData);
        duration := info_duration (videoInfo transcriptData);
        fullTranscript := transcript transcriptData;
        segmentedAnalysis := kimi_segments analysis;
        overallAccuracy := kimi_overallAccuracy analysis;
        keyFindings :=
          kimi_keyFindings analysis
          ++ [ VStr "Analysis powered by Kimi K2 AI";
               VStr ("Processed " ++ processed ++ " key statements");
               VStr ("Processing time: " ++ processingTime) ];
        processingTime := processingTime;
        result_steps := [] |})%run.

Definition with_steps (r : ActualVideoAnalysisResult) (steps : list ProcessingStep)
  : ActualVideoAnalysisResult :=
  {| videoId := videoId r;
     platform := platform r;
     title := title r;
     duration := duration r;
     fullTranscript := fullTranscript r;
     segmentedAnalysis := segmentedAnalysis r;
     overallAccuracy := overallAccuracy r;
     keyFindings := keyFindings r;
     processingTime := processingTime r;
     result_steps := steps |}.

(** [handleError]; the clock is read twice, for the processing time and
    then for the identifier. *)
Definition handleError (clock : Clock)
  (error : Error) (st : RunState) (startTime : Time)
  : ActualVideoAnalysisResult * RunState :=
  let st := mark_error st ("❌ " ++ JS.message error) in
  let (now, st) := Date_now clock st in
  let processingTime := processingTime_of h startTime now in
  let (now', st') := Date_now clock st in
  ({| videoId := Z_toString now';
      platform := "Error";
      title := VStr "Processing Failed";
      duration := VStr "0:00";
      fullTranscript := VStr ("Error: " ++ JS.message error);
      segmentedAnalysis := VArr [];
      overallAccuracy := Num 0%Q;
      keyFindings := [ VStr ("Error: " ++ JS.message error);
                       VStr "Please try a different video URL" ];
      processingTime := processingTime;
      result_steps := steps st' |}, st').

Definition initial_steps : list ProcessingStep :=
  [ pending_step "validate" "Validating YouTube URL...";
    pending_step "extract" "Extracting real transcript from YouTube...";
    pending_step "kimiAnalyze" "Kimi K2 fact-checking with sources and evidence...";
    pending_step "results" "Compiling comprehensive analysis results..." ].

(** The [try] block of [processActualVideo] *)
Definition processActualVideo_try (clock : Clock) (videoUrl videoId : string)
  (startTime : Time) : Run ActualVideoAnalysisResult :=
  (update "validate" processing "Validating YouTube URL..." ;;;
   (if negb (isYouTubeUrl videoUrl) then
      lift (Throw (new_Error "Only YouTube URLs are supported. Please provide a valid YouTube video link."))
    else ret tt) ;;;
   update "validate" completed "✅ Valid YouTube video detected" ;;;
   update "extract" processing "Extracting real YouTube transcript..." ;;;
   transcriptData <- lift (extractRealTranscript videoUrl) ;;
   chars <- lift (len <- length_of (transcript transcriptData) ;; ToString h len)%js ;;
   update "extract" completed ("📝 Real transcript extracted: " ++ chars ++ " chars") ;;;
   update "kimiAnalyze" processing "Kimi K2 fact-checking with sources and evidence..." ;;;
   kimiAnalysis <- lift (kimiCompleteAnalysis transcriptData) ;;
   count <- lift (len <- length_of (kimi_segments kimiAnalysis) ;; ToString h len)%js ;;
   update "kimiAnalyze" completed
     ("🤖 Kimi K2 analysis complete with " ++ count ++ " fact-checked segments") ;;;
   update "results" processing "Compiling final results..." ;;;
   finalResults <- compileKimiResults clock kimiAnalysis transcriptData videoId startTime ;;
   update "results" completed
     ("✅ Complete! Accuracy: "
      ++ Number_toString (Math_round (mul (overallAccuracy finalResults) (Num 100%Q)))
      ++ "%") ;;;
   ret finalResults)%run.

(** [processActualVideo(videoUrl, onProgress)]: the Report and the
    snapshots handed to [onProgress].  The clock is read for
    [startTime], then once more when the run succeeds and twice more
    when it fails. *)
Definition processActualVideo (clock : Clock) (videoUrl : string)
  : ActualVideoAnalysisResult * Trace :=
  let (startTime, st0) := Date_now clock (mkRun initial_steps [] 0) in
  let videoId := extractVideoId videoUrl in
  match processActualVideo_try clock videoUrl videoId startTime st0 with
  | (Ok finalResults, st) => (with_steps finalResults (steps st), emitted st)
  | (Throw err, st) =>
      let (report, st') := handleError clock err st startTime in
      (report, emitted st')
  end.

End Processor.

(** ** The identifier of a video *)

(** The class [[a-zA-Z0-9_-]] *)
Definition isIdChar (c : ascii) : bool :=
  let n := code c in
  ((97 <=? n)%nat && (n <=? 122)%nat) || ((65 <=? n)%nat && (n <=? 90)%nat)
  || ((48 <=? n)%nat && (n <=? 57)%nat) || (n =? 95)%nat || (n =? 45)%nat.

(** [/(?:youtube\.com\/(?:[^\/]+\/.+\/|(?:v|e(?:mbed)?)\/|.*[?&]v=)|youtu\.be\/)([a-zA-Z0-9_-]{11})/] *)
Definition videoIdPattern : regex :=
  Seq (Alt (Seq (Lit "youtube.com/")
                (Alts [ Seq (Plus (Chr (fun c => negb (Ascii.eqb c "/"))))
                            (Seq (Lit "/") (Seq (Plus Dot) (Lit "/")));
                        Seq (Alt (Lit "v") (Seq (Lit "e") (Opt (Lit "mbed")))) (Lit "/");
                        Seq (Star Dot)
                            (Seq (Chr (fun c => Ascii.eqb c "?" || Ascii.eqb c "&")) (Lit "v=")) ]))
           (Lit "youtu.be/"))
      (Group (Repeat 11 (Chr isIdChar))).

(** [/[a-zA-Z0-9_-]{11}/] *)
Definition idRun : regex := Repeat 11 (Chr isIdChar).

(** [id && /^[a-zA-Z0-9_-]{11}$/.test(id)]: the identifier, when it
    passes. *)
Definition keep_id (id : string) : option string :=
  if negb (id =? "") && RegExp_test_whole idRun id then Some id else None.

(** [url.pathname.replace(prefix, '').split('?')[0]] *)
Definition path_id (prefix : string) (url : URL) : string :=
  before_first "?" (remove_first prefix (url_pathname url)).

(** The first of two attempts that gives something. *)
Definition or_try {A} (a b : option A) : option A :=
  match a with
  | Some x => Some x
  | None => b
  end.

(** The identifier read off a parsed URL ("Fallback: try URL parsing"). *)
Definition parsed_id (url : URL) : option string :=
  if includes (url_hostname url) "youtube.com" then
    or_try (match url_searchParams_get url "v" with
            | Some videoId => keep_id videoId
            | None => None
            end)
      (or_try (if startsWith (url_pathname url) "/embed/"
               then keep_id (path_id "/embed/" url) else None)
              (if startsWith (url_pathname url) "/live/"
               then keep_id (path_id "/live/" url) else None))
  else if includes (url_hostname url) "youtu.be" then
    keep_id (path_id "/" url)
  else None.

(** [extractVideoId(videoUrl)]: whatever is thrown on the way (by
    [new URL]) is caught and answered with ['unknown']. *)
Definition extractVideoId (b : Browser) (videoUrl : string) : string :=
  let cleanUrl := remove_whitespace (trim videoUrl) in
  match match String_match videoIdPattern cleanUrl with
        | Some (_, Some id) => if negb (id =? "") then Some id else None
        | _ => None
        end with
  | Some id => id
  | None =>
      match URL_parse b cleanUrl with
      | None => "unknown"
      | Some url =>
          match parsed_id url with
          | Some id => id
          | None =>
              match String_match idRun cleanUrl with
              | Some (fallbackMatch, _) => fallbackMatch
              | None => "unknown"
              end
          end
      end
  end.

End ActualVideoProcessor.

(* ================================================================== *)
(** * Concrete hosts, services and inputs *)
(* ================================================================== *)

Module Examples.

Definition youtube_url : string := "https://www.youtube.com/watch?v=dQw4w9WgXcQ".

(** [n.toFixed(1)] read off the exact value: the tenths nearest to the
    magnitude, a tie going up (as it does for a whole number of
    seconds, the only readings the examples take). *)
Definition toFixed1_exact (n : number) : string :=
  match n with
  | Num q =>
      let tenths := Qfloor (Qabs q * 10 + (1 # 2))%Q in
      ((if Qle_bool 0%Q q then "" else "-")
       ++ Z_toString (tenths / 10) ++ "." ++ Z_toString (tenths mod 10))%string
  | _ => Number_toString n
  end.

(** A host that answers as JavaScript does on what the examples hand
    it: the empty object is the one JSON text it knows and [youtube_url]
    the one URL; a text that is no URL is refused in the words of
    Node.js. *)
Definition host : Host :=
  {| JSON_parse := fun s =>
       if s =? "{}" then Ok (VObj [])
       else Throw (mkError "SyntaxError" "Unexpected token in JSON");
     StringToNumber := fun s => if s =? "" then Num 0%Q else NaN;
     ObjectToNumber := fun _ => Ok NaN;
     parseFloat := fun _ => Ok NaN;
     FractionToString := fun _ => "";
     ObjectToString := fun _ => Ok "[object Object]";
     toFixed1 := toFixed1_exact;
     URL_hostname := fun s =>
       if s =? youtube_url then Ok "www.youtube.com"
       else Throw (new_TypeError "Invalid URL") |}.

Definition extractVideoId (videoUrl : string) : string :=
  if videoUrl =? youtube_url then "dQw4w9WgXcQ" else "unknown".

(** No network: every transcript request and every [fetch] fails. *)
Definition offline : ActualVideoProcessor.World :=
  {| ActualVideoProcessor.fetchTranscript :=
       fun _ _ => Throw (new_Error "Transcript is disabled on this video");
     ActualVideoProcessor.timeout_first := fun _ => false;
     ActualVideoProcessor.fetch := fun _ => Throw (new_TypeError "Failed to fetch") |}.

Definition offline_fetch : Prompt -> Result Response :=
  fun _ => Throw (new_TypeError "Failed to fetch").

Definition offline_axios : Prompt -> Result value :=
  fun _ => Throw (new_Error "Network Error").

(** The video has one caption, and it is empty. *)
Definition empty_caption : ActualVideoProcessor.World :=
  {| ActualVideoProcessor.fetchTranscript :=
       fun _ _ => Ok [ActualVideoProcessor.mkItem "" (Num 0%Q) (Num 0%Q)];
     ActualVideoProcessor.timeout_first := fun _ => false;
     ActualVideoProcessor.fetch := fun _ => Throw (new_TypeError "Failed to fetch") |}.

(** Two clocks: a second, and two seconds, between readings. *)
Definition clock_1s : Clock := fun n => (1000 * Z.of_nat n)%Z.
Definition clock_2s : Clock := fun n => (2000 * Z.of_nat n)%Z.

(** "Water boils at 100°C at sea level", the degree sign being the code
    unit 176. *)
Definition boiling_point_claim : string :=
  "Water boils at 100" ++ String "176"%char "C at sea level".

(** The transcript of the end-to-end scenario, as one transcription
    segment of ten seconds. *)
Definition scenario : Transcription :=
  let text :=
    ("The Great Wall of China is visible from space. " ++ boiling_point_claim ++ ".")%string in
  mkTranscription text [mkTSeg (Num 0%Q) (Num 10%Q) text].

Definition claim_with (v : string) : VideoProcessor.VerifiedClaim :=
  VideoProcessor.mkClaim 1 "a claim" "0:00" (Num 1%Q) v [] [].

Definition segment_with (v : string) : AnalyzedSegment :=
  mkAnalyzed (mkSegment "segment_0_0" "0:00" "a sentence")
             (mkAnalysis v (Num 1%Q) (VStr "") [] []).

(** A URL parser that knows [youtube_url], the addresses of a video on
    two other sites and that of a page elsewhere, and refuses every
    other text in the words of Node.js. *)
Definition tiktok_url : string := "https://www.tiktok.com/@nasa/video/7301234567890123456".
Definition vimeo_url : string := "https://vimeo.com/12345678901".

Definition browser : Browser :=
  {| URL_parse := fun s =>
       if s =? youtube_url then
         Some (mkURL "www.youtube.com" "https:" "/watch"
                     (fun k => if k =? "v" then Some "dQw4w9WgXcQ" else None))
       else if s =? tiktok_url then
         Some (mkURL "www.tiktok.com" "https:" "/@nasa/video/7301234567890123456"
                     (fun _ => None))
       else if s =? vimeo_url then
         Some (mkURL "vimeo.com" "https:" "/12345678901" (fun _ => None))
       else None;
     URL_invalid := fun _ => "Invalid URL";
     parseInt := fun s => if s =? "212" then Some 212%Z else None |}.

(** The video service knows one video, three minutes and thirty-two
    seconds long. *)
Definition ytdl_getInfo (videoUrl : string) : Result FreeVideoProcessor.VideoDetails :=
  if videoUrl =? youtube_url then
    Ok (FreeVideoProcessor.mkDetails "Never Gonna Give You Up" "212")
  else Throw (new_Error "Video unavailable").

(** Draws of [Math.random()]: always a half, and always a twentieth. *)
Definition random_half : Random := fun _ => Num (1 # 2).
Definition random_low : Random := fun _ => Num (1 # 20).

Definition offline_claims : nat -> VideoProcessor.ClaimsPrompt -> Result Response :=
  fun _ _ => Throw (new_TypeError "Failed to fetch").

End Examples.

(* ================================================================== *)
(** * Vocabulary of the properties *)
(* ================================================================== *)

(** [['True', ...].includes(v) ? v : 'Mixed'], the verdict each of the
    three sanitizers computes from the [verdict] field. *)
Definition sanitized_verdict (v : value) : string :=
  if includes_value canonical_verdicts v then string_of v else "Mixed".

(** [Math.min(Math.max(c || 0.5, 0), 1)], the confidence each of the
    three sanitizers computes from the [confidence] field. *)
Definition clamped_confidence (h : Host) (c : value) : Result number :=
  n <- ToNumber h (or_else c (VNum (Num (1 # 2)))) ;;
  Ok (Math_min (Math_max n (Num 0%Q)) (Num 1%Q)).

(** A property of what a computation returns, when it returns. *)
Definition on_return {A} (r : Result A) (P : A -> Prop) : Prop :=
  match r with
  | Ok a => P a
  | Throw _ => True
  end.

(** What a sanitizer makes of a list field: a prefix of the list of at
    most [n] items, and the empty list when the field is no list. *)
Definition capped (n : nat) (field : value) (l : list value) : Prop :=
  (List.length l <= n)%nat /\
  match field with
  | VArr items => exists k, (k <= n)%nat /\ l = firstn k items
  | _ => l = []
  end.

(** What the claim of a sanitized verdict amounts to for the verdict [v]
    made of the field [field]: [v] is one of the five labels, it is
    [Mixed] when the field is none of them, and the field itself when
    it is one. *)
Definition verdict_sanitized (field : value) (v : string) : Prop :=
  In v canonical_verdicts
  /\ ((forall s, In s canonical_verdicts -> field <> VStr s) -> v = "Mixed")
  /\ (forall s, In s canonical_verdicts -> field = VStr s -> v = s).

(** What the first of a list of attempts that returns, returns. *)
Fixpoint first_ok {A} (attempts : list (Result A)) : option A :=
  match attempts with
  | [] => None
  | Ok a :: _ => Some a
  | Throw _ :: r => first_ok r
  end.

(** The findings that tell the user to try again: both begin alike. *)
Definition is_retry_suggestion (finding : string) : bool :=
  startsWith finding "Please try".

(** Where a run that failed leaves its steps: those before the failing
    one completed, the failing one in error, the later ones untouched. *)
Definition failed_midway (l : list ProcessingStep) : Prop :=
  exists done failed todo,
    l = done ++ failed :: todo
    /\ Forall (fun s => status s = completed) done
    /\ status failed = error
    /\ Forall (fun s => status s = pending) todo.

(** The sum of a list of rationals. *)
Definition Qsum (l : list Q) : Q := fold_right Qplus 0%Q l.

(** The score of each verdict as the tables [scoreMap] and
    [verdictScores] list it, a verdict without entry getting 0.5. *)
Definition table_score (v : string) : Q :=
  if v =? "True" then 1%Q
  else if v =? "Mostly True" then (8 # 10)
  else if v =? "Mixed" then (1 # 2)
  else if v =? "Mostly False" then (2 # 10)
  else if v =? "False" then 0%Q
  else (1 # 2).

(** The score the three aggregators give it: that of the table, but
    for [False]. *)
Definition used_score (v : string) : Q :=
  if v =? "False" then (1 # 2) else table_score v.

(** The arithmetic mean of the scores [score] gives the verdicts [l]. *)
Definition mean_of (score : string -> Q) (l : list string) : Q :=
  (Qsum (map score l) / inject_Z (Z.of_nat (List.length l)))%Q.


(** What a pattern matches: [Matches r u c c'] when [r] matches the
    text [u], the capture being [c] before and [c'] after.  An iteration
    of [r*] consumes at least one character. *)
Inductive Matches : regex -> list ascii -> Capture -> Capture -> Prop :=
| M_Eps c : Matches Eps [] c c
| M_Chr p a c : p a = true -> Matches (Chr p) [a] c c
| M_Seq r1 r2 u1 u2 c c1 c2 :
    Matches r1 u1 c c1 -> Matches r2 u2 c1 c2 -> Matches (Seq r1 r2) (u1 ++ u2) c c2
| M_AltL r1 r2 u c c' : Matches r1 u c c' -> Matches (Alt r1 r2) u c c'
| M_AltR r1 r2 u c c' : Matches r2 u c c' -> Matches (Alt r1 r2) u c c'
| M_Star0 r c : Matches (Star r) [] c c
| M_StarS r u1 u2 c c1 c2 :
    u1 <> [] -> Matches r u1 c c1 -> Matches (Star r) u2 c1 c2 ->
    Matches (Star r) (u1 ++ u2) c c2
| M_Group r u c c' : Matches r u c c' -> Matches (Group r) u c (Some u).

(** The shape of a YouTube identifier: eleven characters, each a letter,
    a digit, an underscore or a hyphen. *)
Definition video_id_shaped (id : string) : Prop :=
  String.length id = 11%nat
  /\ Forall (fun c => ActualVideoProcessor.isIdChar c = true) (list_ascii_of_string id).

(** The words [looksLikeFactualClaim] looks for, each as the shortest
    text its pattern accepts ([studies?] accepts [studie]). *)
Definition factual_keywords : list string :=
  [ "scientist"; "researcher"; "studie"; "data"; "evidence";
    "discovered"; "found"; "show"; "prove"; "confirm";
    "never"; "always"; "all"; "every"; "most"; "largest"; "smallest" ].

(** The message [validateAndAnalyzeUrl] refuses a platform with: the
    platform it names is always the same. *)
Definition unsupported_platform_message : string :=
  "Platform " ++ dquote ++ "Unknown Platform" ++ dquote
  ++ " is not supported. Please use: YouTube, TikTok, Instagram, Facebook, Twitter/X".

(** The one claim [extractClaimsFallback] makes up when no sentence
    looks like a claim. *)
Definition placeholder_claim : VideoProcessor.ExtractedClaim :=
  {| VideoProcessor.claim_text := "Video contains claims that require verification";
     VideoProcessor.claim_timestamp := "0:30" |}.

(** An overall accuracy as the aggregators give it for a sequence that
    is not empty: a number between 0.2 and 1. *)
Definition fifth_to_one (n : number) : Prop :=
  exists q, n = Num q /\ ((1 # 5) <= q <= 1)%Q.

(** The platforms [getVideoInfo] and [extractVideoMetadata] tell apart. *)
Definition known_platforms : list string := ["YouTube"; "TikTok"; "Instagram"; "Unknown"].

(** The one claim of the result [handleProcessingError] builds. *)
Definition error_claim (msg : string) : VideoProcessor.CheckedClaim :=
  {| VideoProcessor.checked_id := 1;
     VideoProcessor.checked_text := VStr "Video analysis encountered an error";
     VideoProcessor.checked_timestamp := VStr "0:00";
     VideoProcessor.checked_confidence := Num 0%Q;
     VideoProcessor.checked_verdict := "Mixed";
     VideoProcessor.checked_evidence := [VStr ("Error: " ++ msg)];
     VideoProcessor.checked_sources := [] |}.

(** An overall score as [calculateOverallScore] gives it: 0 for no
    claim, else a number between 0.2 and 1. *)
Definition zero_or_fifth_to_one (n : number) : Prop :=
  n = Num 0%Q \/ fifth_to_one n.

(** Whether every stretch of eleven characters that begins inside [p]
    holds a character that can be no part of an identifier ([p] then
    ends on one). *)
Definition no_id_run (p : list ascii) : bool :=
  forallb (fun k => existsb (fun c => negb (ActualVideoProcessor.isIdChar c))
                            (firstn 11 (skipn k p)))
          (seq 0 (List.length p)).

(** A count of minutes or of seconds as a clock shows it: two digits
    at least. *)
Definition clock_digits (k : Z) : string := padStart0 2 (Z_toString k).

(** [Math.round(n * 100)]: a score as the percentage the messages of
    the steps show. *)
Definition percentage (n : number) : number := Math_round (mul n (Num 100%Q)).

(* ================================================================== *)
(** * Properties *)
(* ================================================================== *)

(** ** The run time *)

Lemma get_not_nullish (v : value) (k : string) :
  nullish v = false -> get v k = Ok (get_opt v k).
Proof.
  unfold get_opt; destruct v; simpl; intros H; try discriminate; reflexivity.
Qed.

Lemma get_nullish (v : value) (k : string) :
  nullish v = true -> get v k = Throw (cannot_read v k).
Proof.
  destruct v; simpl; intros H; try discriminate; reflexivity.
Qed.

Lemma get_returns_iff (v : value) (k : string) :
  returns (get v k) <-> nullish v = false.
Proof.
  split.
  - intros [x Hx]. destruct v; simpl in *; try discriminate; reflexivity.
  - intros H. exists (get_opt v k). now apply get_not_nullish.
Qed.

Lemma slice_or_empty_length (n : nat) (v : value) :
  (List.length (slice_or_empty n v) <= n)%nat.
Proof.
  destruct v; simpl; try lia. apply firstn_le_length.
Qed.

Lemma includes_value_In (l : list string) (v : value) :
  includes_value l v = true -> exists s, v = VStr s /\ In s l.
Proof.
  destruct v; simpl; try discriminate.
  intros H. apply existsb_exists in H. destruct H as [x [Hin Heq]].
  apply String.eqb_eq in Heq. subst. eauto.
Qed.

Lemma In_includes_value (l : list string) (s : string) :
  In s l -> includes_value l (VStr s) = true.
Proof.
  intros H. simpl. apply existsb_exists. exists s. split; [assumption|apply String.eqb_refl].
Qed.

Lemma sanitized_verdict_canonical (v : value) :
  In (sanitized_verdict v) canonical_verdicts.
Proof.
  unfold sanitized_verdict.
  destruct (includes_value canonical_verdicts v) eqn:E.
  - apply includes_value_In in E. destruct E as [s [-> Hin]]. exact Hin.
  - simpl. tauto.
Qed.

Lemma sanitized_verdict_other (v : value) :
  (forall s, In s canonical_verdicts -> v <> VStr s) -> sanitized_verdict v = "Mixed".
Proof.
  intros H. unfold sanitized_verdict.
  destruct (includes_value canonical_verdicts v) eqn:E; [|reflexivity].
  apply includes_value_In in E. destruct E as [s [-> Hin]]. now elim (H s Hin).
Qed.

Lemma sanitized_verdict_kept (s : string) :
  In s canonical_verdicts -> sanitized_verdict (VStr s) = s.
Proof.
  intros H. unfold sanitized_verdict. now rewrite (In_includes_value _ _ H).
Qed.

(** The three sanitizers, each as a function of the fields it reads. *)
Lemma Free_validated_eq (h : Host) (parsed : value) :
  nullish parsed = false ->
  FreeVideoProcessor.validated h parsed =
  (c <- clamped_confidence h (get_opt parsed "confidence") ;;
   Ok {| verdict := sanitized_verdict (get_opt parsed "verdict");
         confidence := c;
         explanation := or_else (get_opt parsed "explanation")
                          (VStr "Analysis completed with available information.");
         evidence := slice_or_empty 4 (get_opt parsed "evidence");
         sources := slice_or_empty 3 (get_opt parsed "sources") |}).
Proof.
  intros H. unfold FreeVideoProcessor.validated, clamped_confidence.
  rewrite !(get_not_nullish _ _ H). simpl.
  destruct (ToNumber h _); reflexivity.
Qed.

Lemma Real_sanitized_eq (h : Host) (parsed : value) :
  nullish parsed = false ->
  RealVideoProcessor.sanitized h parsed =
  (c <- clamped_confidence h (get_opt parsed "confidence") ;;
   Ok {| verdict := sanitized_verdict (get_opt parsed "verdict");
         confidence := c;
         explanation := or_else (get_opt parsed "explanation")
                          (VStr "Analysis completed with available information.");
         evidence := slice_or_empty 3 (get_opt parsed "evidence");
         sources := slice_or_empty 2 (get_opt parsed "sources") |}).
Proof.
  intros H. unfold RealVideoProcessor.sanitized, clamped_confidence.
  rewrite !(get_not_nullish _ _ H). simpl.
  destruct (ToNumber h _); reflexivity.
Qed.

Lemma sanitizedResult_eq (h : Host) (i : nat) (claim : VideoProcessor.ExtractedClaim)
  (result : value) :
  nullish result = false ->
  VideoProcessor.sanitizedResult h i claim result =
  (c <- clamped_confidence h (get_opt result "confidence") ;;
   Ok {| VideoProcessor.id := i + 1;
         VideoProcessor.text := VideoProcessor.claim_text claim;
         VideoProcessor.timestamp := VideoProcessor.claim_timestamp claim;
         VideoProcessor.confidence := c;
         VideoProcessor.verdict := sanitized_verdict (get_opt result "verdict");
         VideoProcessor.evidence := slice_or_empty 4 (get_opt result "evidence");
         VideoProcessor.sources := slice_or_empty 3 (get_opt result "sources") |}).
Proof.
  intros H. unfold VideoProcessor.sanitizedResult, clamped_confidence.
  rewrite !(get_not_nullish _ _ H). simpl.
  destruct (ToNumber h _); reflexivity.
Qed.

Lemma Free_validated_nullish (h : Host) (parsed : value) :
  nullish parsed = true ->
  FreeVideoProcessor.validated h parsed = Throw (cannot_read parsed "verdict").
Proof.
  intros H. unfold FreeVideoProcessor.validated. now rewrite (get_nullish _ _ H).
Qed.

Lemma Real_sanitized_nullish (h : Host) (parsed : value) :
  nullish parsed = true ->
  RealVideoProcessor.sanitized h parsed = Throw (cannot_read parsed "verdict").
Proof.
  intros H. unfold RealVideoProcessor.sanitized. now rewrite (get_nullish _ _ H).
Qed.

Lemma sanitizedResult_nullish (h : Host) (i : nat) (claim : VideoProcessor.ExtractedClaim)
  (result : value) :
  nullish result = true ->
  VideoProcessor.sanitizedResult h i claim result = Throw (cannot_read result "confidence").
Proof.
  intros H. unfold VideoProcessor.sanitizedResult. now rewrite (get_nullish _ _ H).
Qed.

(** ** Judgments, from the oracle or from the fallback *)

Lemma on_return_bind {A B} (r : Result A) (k : A -> Result B) (P : B -> Prop) :
  (forall a, on_return (k a) P) -> on_return (bind r k) P.
Proof.
  intros H. destruct r; simpl; [apply H|exact I].
Qed.

Lemma on_return_impl {A} (r : Result A) (P Q : A -> Prop) :
  (forall a, P a -> Q a) -> on_return r P -> on_return r Q.
Proof.
  intros H. destruct r; simpl; auto.
Qed.

Lemma on_return_try_rethrow {A} (r : Result A) (f : Error -> Error) (P : A -> Prop) :
  on_return r P -> on_return (try_catch r (fun e => Throw (f e))) P.
Proof.
  destruct r; simpl; auto.
Qed.

(** What holds of whatever a sanitizer returns and of whatever the
    fallback gives holds of every judgment of the verification loop. *)
Section Judgments.

Variable h : Host.

Lemma Free_call_returns_validated (fetch : Prompt -> Result Response) (P : Analysis -> Prop)
  (s : string) :
  (forall parsed, on_return (FreeVideoProcessor.validated h parsed) P) ->
  on_return (FreeVideoProcessor.analyzeSegmentWithRealKimi h fetch s) P.
Proof.
  intros HP. unfold FreeVideoProcessor.analyzeSegmentWithRealKimi.
  apply (on_return_try_rethrow _ (fun e => e)).
  apply on_return_bind; intros response.
  destruct (negb (ok response)); [exact I|].
  do 4 (apply on_return_bind; intro). apply HP.
Qed.

Lemma Free_judgments (fetch : Prompt -> Result Response) (P : Analysis -> Prop) :
  (forall parsed, on_return (FreeVideoProcessor.validated h parsed) P) ->
  (forall s, P (FreeVideoProcessor.getIntelligentFallback s)) ->
  forall segs x, In x (FreeVideoProcessor.analyzeWithKimi h fetch segs) -> P (analysis x).
Proof.
  intros HP HF segs x Hin. unfold FreeVideoProcessor.analyzeWithKimi in Hin.
  apply in_map_iff in Hin. destruct Hin as [s [<- _]].
  pose proof (Free_call_returns_validated fetch P (sentence s) HP) as H.
  destruct (FreeVideoProcessor.analyzeSegmentWithRealKimi h fetch (sentence s));
    simpl in *; [exact H|apply HF].
Qed.

Lemma Real_call_returns_sanitized (axios_post : Prompt -> Result value)
  (P : Analysis -> Prop) (s : string) :
  (forall parsed, on_return (RealVideoProcessor.sanitized h parsed) P) ->
  on_return (RealVideoProcessor.analyzeSegmentWithKimi h axios_post s) P.
Proof.
  intros HP. unfold RealVideoProcessor.analyzeSegmentWithKimi.
  apply (on_return_try_rethrow _
           (fun e => new_Error ("Kimi K2 analysis failed: " ++ Error_toString e))).
  do 4 (apply on_return_bind; intro). apply HP.
Qed.

Lemma Real_judgments (axios_post : Prompt -> Result value) (P : Analysis -> Prop) :
  (forall parsed, on_return (RealVideoProcessor.sanitized h parsed) P) ->
  (forall s, P (RealVideoProcessor.getFallbackAnalysis s)) ->
  forall segs x,
    In x (RealVideoProcessor.analyzeSegmentsWithKimi h axios_post segs) -> P (analysis x).
Proof.
  intros HP HF segs x Hin. unfold RealVideoProcessor.analyzeSegmentsWithKimi in Hin.
  apply in_map_iff in Hin. destruct Hin as [s [<- _]].
  pose proof (Real_call_returns_sanitized axios_post P (sentence s) HP) as H.
  destruct (RealVideoProcessor.analyzeSegmentWithKimi h axios_post (sentence s));
    simpl in *; [exact H|apply HF].
Qed.

Lemma factCheckClaims_judgments (fetch : Prompt -> Result Response)
  (P : string -> list value -> list value -> Prop) :
  (forall i claim parsed,
      on_return (VideoProcessor.sanitizedResult h i claim parsed)
        (fun c => P (VideoProcessor.verdict c) (VideoProcessor.evidence c)
                    (VideoProcessor.sources c))) ->
  (forall s, let f := VideoProcessor.generateFallbackAnalysis s in
             P (VideoProcessor.fb_verdict f) (VideoProcessor.fb_evidence f)
               (VideoProcessor.fb_sources f)) ->
  forall claims c,
    In c (VideoProcessor.factCheckClaims h fetch claims) ->
    P (VideoProcessor.verdict c) (VideoProcessor.evidence c) (VideoProcessor.sources c).
Proof.
  intros HP HF claims. unfold VideoProcessor.factCheckClaims. generalize 0%nat.
  induction claims as [|x r IH]; intros i c; simpl; [tauto|].
  intros [<-|Hin]; [|exact (IH (S i) c Hin)].
  unfold VideoProcessor.factCheckClaim.
  match goal with |- context [match ?b with Ok _ => _ | Throw _ => _ end] =>
    assert (Hb : on_return b
                   (fun c => P (VideoProcessor.verdict c) (VideoProcessor.evidence c)
                               (VideoProcessor.sources c)));
      [|destruct b; simpl in *; [exact Hb|apply HF]] end.
  do 4 (apply on_return_bind; intro). apply HP.
Qed.

End Judgments.

Lemma Free_fallback_lists (s : string) :
  let a := FreeVideoProcessor.getIntelligentFallback s in
  In (verdict a) canonical_verdicts
  /\ (List.length (evidence a) <= 4)%nat /\ (List.length (sources a) <= 3)%nat.
Proof.
  unfold FreeVideoProcessor.getIntelligentFallback.
  repeat match goal with |- context [if ?b then _ else _] => destruct b end;
    simpl; repeat split; try lia; tauto.
Qed.

Lemma Real_fallback_lists (s : string) :
  let a := RealVideoProcessor.getFallbackAnalysis s in
  In (verdict a) canonical_verdicts
  /\ (List.length (evidence a) <= 4)%nat /\ (List.length (sources a) <= 3)%nat.
Proof.
  unfold RealVideoProcessor.getFallbackAnalysis.
  repeat match goal with |- context [if ?b then _ else _] => destruct b end;
    simpl; repeat split; try lia; tauto.
Qed.

Lemma generateFallbackAnalysis_lists (s : string) :
  let f := VideoProcessor.generateFallbackAnalysis s in
  In (VideoProcessor.fb_verdict f) canonical_verdicts
  /\ (List.length (VideoProcessor.fb_evidence f) <= 4)%nat
  /\ (List.length (VideoProcessor.fb_sources f) <= 3)%nat.
Proof.
  unfold VideoProcessor.generateFallbackAnalysis.
  repeat match goal with |- context [if ?b then _ else _] => destruct b end;
    simpl; repeat split; try lia; tauto.
Qed.

Lemma slice_or_empty_capped (k n : nat) (field : value) :
  (k <= n)%nat -> capped n field (slice_or_empty k field).
Proof.
  intros Hk. split.
  - pose proof (slice_or_empty_length k field). lia.
  - destruct field; simpl; try reflexivity. exists k. auto.
Qed.

Lemma clamped_confidence_returns_iff (h : Host) (c : value) :
  returns (clamped_confidence h c)
  <-> returns (ToNumber h (or_else c (VNum (Num (1 # 2))))).
Proof.
  unfold clamped_confidence, returns.
  destruct (ToNumber h _); simpl; split; intros [x Hx]; try discriminate; eauto.
Qed.

(** The lengths of the lists of whatever the three sanitizers return. *)
Lemma sanitizers_cap (h : Host) (parsed : value) (i : nat)
  (claim : VideoProcessor.ExtractedClaim) :
  on_return (FreeVideoProcessor.validated h parsed)
    (fun a => (List.length (evidence a) <= 4)%nat /\ (List.length (sources a) <= 3)%nat)
  /\ on_return (RealVideoProcessor.sanitized h parsed)
       (fun a => (List.length (evidence a) <= 4)%nat /\ (List.length (sources a) <= 3)%nat)
  /\ on_return (VideoProcessor.sanitizedResult h i claim parsed)
       (fun c => (List.length (VideoProcessor.evidence c) <= 4)%nat
                 /\ (List.length (VideoProcessor.sources c) <= 3)%nat).
Proof.
  destruct (nullish parsed) eqn:Hn.
  - rewrite (Free_validated_nullish _ _ Hn), (Real_sanitized_nullish _ _ Hn),
      (sanitizedResult_nullish _ _ _ _ Hn). simpl. tauto.
  - rewrite (Free_validated_eq _ _ Hn), (Real_sanitized_eq _ _ Hn),
      (sanitizedResult_eq _ _ _ _ Hn).
    destruct (clamped_confidence h _); simpl; [|tauto].
    pose proof (slice_or_empty_length 4 (get_opt parsed "evidence")).
    pose proof (slice_or_empty_length 3 (get_opt parsed "evidence")).
    pose proof (slice_or_empty_length 3 (get_opt parsed "sources")).
    pose proof (slice_or_empty_length 2 (get_opt parsed "sources")).
    repeat split; lia.
Qed.

(** ** The sanitizers *)

(** C5: whatever the parsed answer of the oracle, the judgment a sanitizer
    returns holds at most 4 evidence items and at most 3 sources: a list
    field is cut to its first items (4 and 3 of them in [FreeVideoProcessor]
    and [VideoProcessor], 3 and 2 in [RealVideoProcessor]), a field that is
    no list becomes the empty list.  Each sanitizer returns exactly when
    the answer is neither null nor undefined and its confidence converts
    to a number.  The judgments of the fallbacks are within the same
    bounds, and so is every judgment of the three verification loops. *)
Theorem sanitized_lists_are_capped :
  forall (h : Host) (parsed : value) (i : nat) (claim : VideoProcessor.ExtractedClaim),
    on_return (FreeVideoProcessor.validated h parsed)
      (fun a => evidence a = slice_or_empty 4 (get_opt parsed "evidence")
                /\ sources a = slice_or_empty 3 (get_opt parsed "sources")
                /\ capped 4 (get_opt parsed "evidence") (evidence a)
                /\ capped 3 (get_opt parsed "sources") (sources a))
    /\ on_return (RealVideoProcessor.sanitized h parsed)
      (fun a => evidence a = slice_or_empty 3 (get_opt parsed "evidence")
                /\ sources a = slice_or_empty 2 (get_opt parsed "sources")
                /\ capped 4 (get_opt parsed "evidence") (evidence a)
                /\ capped 3 (get_opt parsed "sources") (sources a))
    /\ on_return (VideoProcessor.sanitizedResult h i claim parsed)
      (fun c => VideoProcessor.evidence c = slice_or_empty 4 (get_opt parsed "evidence")
                /\ VideoProcessor.sources c = slice_or_empty 3 (get_opt parsed "sources")
                /\ capped 4 (get_opt parsed "evidence") (VideoProcessor.evidence c)
                /\ capped 3 (get_opt parsed "sources") (VideoProcessor.sources c))
    /\ (returns (FreeVideoProcessor.validated h parsed)
        <-> nullish parsed = false
            /\ returns (clamped_confidence h (get_opt parsed "confidence")))
    /\ (returns (RealVideoProcessor.sanitized h parsed)
        <-> nullish parsed = false
            /\ returns (clamped_confidence h (get_opt parsed "confidence")))
    /\ (returns (VideoProcessor.sanitizedResult h i claim parsed)
        <-> nullish parsed = false
            /\ returns (clamped_confidence h (get_opt parsed "confidence")))
    /\ (forall fetch segs x,
          In x (FreeVideoProcessor.analyzeWithKimi h fetch segs) ->
          (List.length (evidence (analysis x)) <= 4)%nat
          /\ (List.length (sources (analysis x)) <= 3)%nat)
    /\ (forall axios_post segs x,
          In x (RealVideoProcessor.analyzeSegmentsWithKimi h axios_post segs) ->
          (List.length (evidence (analysis x)) <= 4)%nat
          /\ (List.length (sources (analysis x)) <= 3)%nat)
    /\ (forall fetch claims c,
          In c (VideoProcessor.factCheckClaims h fetch claims) ->
          (List.length (VideoProcessor.evidence c) <= 4)%nat
          /\ (List.length (VideoProcessor.sources c) <= 3)%nat).
Proof.
  intros h parsed i claim.
  assert (Hloops :
    (forall fetch segs x,
        In x (FreeVideoProcessor.analyzeWithKimi h fetch segs) ->
        (List.length (evidence (analysis x)) <= 4)%nat
        /\ (List.length (sources (analysis x)) <= 3)%nat)
    /\ (forall axios_post segs x,
          In x (RealVideoProcessor.analyzeSegmentsWithKimi h axios_post segs) ->
          (List.length (evidence (analysis x)) <= 4)%nat
          /\ (List.length (sources (analysis x)) <= 3)%nat)
    /\ (forall fetch claims c,
          In c (VideoProcessor.factCheckClaims h fetch claims) ->
          (List.length (VideoProcessor.evidence c) <= 4)%nat
          /\ (List.length (VideoProcessor.sources c) <= 3)%nat)).
  { split; [|split].
    - intros fetch.
      apply (Free_judgments h fetch
               (fun a => (List.length (evidence a) <= 4)%nat
                         /\ (List.length (sources a) <= 3)%nat)).
      + intros p. apply (sanitizers_cap h p i claim).
      + intros s. apply Free_fallback_lists.
    - intros axios_post.
      apply (Real_judgments h axios_post
               (fun a => (List.length (evidence a) <= 4)%nat
                         /\ (List.length (sources a) <= 3)%nat)).
      + intros p. apply (sanitizers_cap h p i claim).
      + intros s. apply Real_fallback_lists.
    - intros fetch.
      apply (factCheckClaims_judgments h fetch
               (fun _ ev so => (List.length ev <= 4)%nat /\ (List.length so <= 3)%nat)).
      + intros j cl p. apply (sanitizers_cap h p j cl).
      + intros s. apply generateFallbackAnalysis_lists. }
  destruct (nullish parsed) eqn:Hn.
  - rewrite (Free_validated_nullish _ _ Hn), (Real_sanitized_nullish _ _ Hn),
      (sanitizedResult_nullish _ _ _ _ Hn).
    unfold returns; simpl.
    repeat apply conj;
      first [ exact I | intros [x Hx]; discriminate | intros [Hf _]; discriminate
            | apply Hloops ].
  - rewrite (Free_validated_eq _ _ Hn), (Real_sanitized_eq _ _ Hn),
      (sanitizedResult_eq _ _ _ _ Hn).
    unfold returns.
    destruct (clamped_confidence h (get_opt parsed "confidence")) as [c|e]; simpl;
      repeat apply conj;
      first [ exact I
            | reflexivity
            | apply slice_or_empty_capped; lia
            | intros [x Hx]; discriminate
            | intros [_ [x Hx]]; discriminate
            | intros _; eauto
            | apply Hloops ].
Qed.

(** The sanitizers at work on an answer with six evidence items and no
    list of sources. *)
Example sanitized_lists_example :
  let six := VArr [VStr "a"; VStr "b"; VStr "c"; VStr "d"; VStr "e"; VStr "f"] in
  let parsed := VObj [("verdict", VStr "True"); ("evidence", six); ("sources", VStr "none")] in
  (exists a, FreeVideoProcessor.validated Examples.host parsed = Ok a
             /\ evidence a = [VStr "a"; VStr "b"; VStr "c"; VStr "d"]
             /\ sources a = [])
  /\ (exists a, RealVideoProcessor.sanitized Examples.host parsed = Ok a
                /\ evidence a = [VStr "a"; VStr "b"; VStr "c"]
                /\ sources a = []).
Proof.
  split; eexists; (split; [reflexivity|split; reflexivity]).
Qed.

Lemma sanitized_verdict_sanitized (field : value) :
  verdict_sanitized field (sanitized_verdict field).
Proof.
  repeat split.
  - apply sanitized_verdict_canonical.
  - apply sanitized_verdict_other.
  - intros s Hin ->. now apply sanitized_verdict_kept.
Qed.

Lemma Free_validated_canonical (h : Host) (parsed : value) :
  on_return (FreeVideoProcessor.validated h parsed)
    (fun a => verdict_sanitized (get_opt parsed "verdict") (verdict a)).
Proof.
  destruct (nullish parsed) eqn:Hn.
  - now rewrite (Free_validated_nullish _ _ Hn).
  - rewrite (Free_validated_eq _ _ Hn).
    destruct (clamped_confidence h _); simpl; [apply sanitized_verdict_sanitized|exact I].
Qed.

Lemma Real_sanitized_canonical (h : Host) (parsed : value) :
  on_return (RealVideoProcessor.sanitized h parsed)
    (fun a => verdict_sanitized (get_opt parsed "verdict") (verdict a)).
Proof.
  destruct (nullish parsed) eqn:Hn.
  - now rewrite (Real_sanitized_nullish _ _ Hn).
  - rewrite (Real_sanitized_eq _ _ Hn).
    destruct (clamped_confidence h _); simpl; [apply sanitized_verdict_sanitized|exact I].
Qed.

Lemma sanitizedResult_canonical (h : Host) (i : nat)
  (claim : VideoProcessor.ExtractedClaim) (parsed : value) :
  on_return (VideoProcessor.sanitizedResult h i claim parsed)
    (fun c => verdict_sanitized (get_opt parsed "verdict") (VideoProcessor.verdict c)).
Proof.
  destruct (nullish parsed) eqn:Hn.
  - now rewrite (sanitizedResult_nullish _ _ _ _ Hn).
  - rewrite (sanitizedResult_eq _ _ _ _ Hn).
    destruct (clamped_confidence h _); simpl; [apply sanitized_verdict_sanitized|exact I].
Qed.

Lemma verdict_sanitized_In (field : value) (v : string) :
  verdict_sanitized field v -> In v canonical_verdicts.
Proof.
  now intros [H _].
Qed.

(** C6: the verdict a sanitizer returns is one of the five labels; it is
    [Mixed] when the [verdict] field of the answer is none of them, and
    the field itself when it is one.  So every judgment of the three
    verification loops carries one of the five labels, whether it comes
    from the oracle or from the fallback. *)
Theorem sanitized_verdict_is_canonical :
  forall (h : Host) (parsed : value) (i : nat) (claim : VideoProcessor.ExtractedClaim),
    on_return (FreeVideoProcessor.validated h parsed)
      (fun a => verdict_sanitized (get_opt parsed "verdict") (verdict a))
    /\ on_return (RealVideoProcessor.sanitized h parsed)
      (fun a => verdict_sanitized (get_opt parsed "verdict") (verdict a))
    /\ on_return (VideoProcessor.sanitizedResult h i claim parsed)
      (fun c => verdict_sanitized (get_opt parsed "verdict") (VideoProcessor.verdict c))
    /\ (forall fetch segs x,
          In x (FreeVideoProcessor.analyzeWithKimi h fetch segs) ->
          In (verdict (analysis x)) canonical_verdicts)
    /\ (forall axios_post segs x,
          In x (RealVideoProcessor.analyzeSegmentsWithKimi h axios_post segs) ->
          In (verdict (analysis x)) canonical_verdicts)
    /\ (forall fetch claims c,
          In c (VideoProcessor.factCheckClaims h fetch claims) ->
          In (VideoProcessor.verdict c) canonical_verdicts).
Proof.
  intros h parsed i claim.
  split; [apply Free_validated_canonical|].
  split; [apply Real_sanitized_canonical|].
  split; [apply sanitizedResult_canonical|].
  split; [|split].
  - intros fetch. apply (Free_judgments h fetch (fun a => In (verdict a) canonical_verdicts)).
    + intros p. eapply on_return_impl; [|apply Free_validated_canonical].
      intros a. apply verdict_sanitized_In.
    + intros s. apply Free_fallback_lists.
  - intros axios_post.
    apply (Real_judgments h axios_post (fun a => In (verdict a) canonical_verdicts)).
    + intros p. eapply on_return_impl; [|apply Real_sanitized_canonical].
      intros a. apply verdict_sanitized_In.
    + intros s. apply Real_fallback_lists.
  - intros fetch.
    apply (factCheckClaims_judgments h fetch (fun v _ _ => In v canonical_verdicts)).
    + intros j cl p. eapply on_return_impl; [|apply sanitizedResult_canonical].
      intros a. apply verdict_sanitized_In.
    + intros s. apply generateFallbackAnalysis_lists.
Qed.

(** An answer whose verdict is "Probably" is judged [Mixed]. *)
Example sanitized_verdict_example :
  exists a, FreeVideoProcessor.validated Examples.host
              (VObj [("verdict", VStr "Probably"); ("confidence", VNum (Num (9 # 10)))])
            = Ok a
            /\ verdict a = "Mixed" /\ confidence a = Num (9 # 10).
Proof.
  eexists; split; [reflexivity|split; reflexivity].
Qed.

Lemma clamped_confidence_falsy (h : Host) (c : value) :
  truthy c = false -> clamped_confidence h c = Ok (Num (1 # 2)).
Proof.
  intros H. unfold clamped_confidence, or_else. rewrite H. reflexivity.
Qed.

(** C10, amended: when the [confidence] field of a parsed answer is falsy
    (missing, null, false, the empty string, or the number 0) the
    sanitized confidence is 0.5; a reported confidence of exactly 0 is
    thus replaced, not preserved.  (A field that is not a number but is
    truthy goes through the conversion to a number instead.) *)
Theorem falsy_confidence_defaults_to_half :
  forall (h : Host) (parsed : value) (i : nat) (claim : VideoProcessor.ExtractedClaim),
    nullish parsed = false ->
    truthy (get_opt parsed "confidence") = false ->
    (exists a, FreeVideoProcessor.validated h parsed = Ok a
               /\ confidence a = Num (1 # 2))
    /\ (exists a, RealVideoProcessor.sanitized h parsed = Ok a
                  /\ confidence a = Num (1 # 2))
    /\ (exists c, VideoProcessor.sanitizedResult h i claim parsed = Ok c
                  /\ VideoProcessor.confidence c = Num (1 # 2)).
Proof.
  intros h parsed i claim Hn Hc.
  rewrite (Free_validated_eq _ _ Hn), (Real_sanitized_eq _ _ Hn),
    (sanitizedResult_eq _ _ _ _ Hn), (clamped_confidence_falsy _ _ Hc).
  simpl. repeat split; eexists; split; reflexivity.
Qed.

(** A reported confidence of 0 becomes 0.5 in the three sanitizers. *)
Lemma zero_confidence_becomes_half :
  let parsed := VObj [("verdict", VStr "False"); ("confidence", VNum (Num 0%Q))] in
  let claim := VideoProcessor.mkExtracted "a claim" "0:00" in
  (exists a, FreeVideoProcessor.validated Examples.host parsed = Ok a
             /\ confidence a = Num (1 # 2))
  /\ (exists a, RealVideoProcessor.sanitized Examples.host parsed = Ok a
                /\ confidence a = Num (1 # 2))
  /\ (exists c, VideoProcessor.sanitizedResult Examples.host 0 claim parsed = Ok c
                /\ VideoProcessor.confidence c = Num (1 # 2)).
Proof.
  intros parsed claim.
  apply (falsy_confidence_defaults_to_half Examples.host parsed 0 claim); reflexivity.
Defined.

(** A confidence that is no number, [true], is not replaced by 0.5: it
    converts to 1. *)
Lemma true_confidence_is_one :
  exists a,
    FreeVideoProcessor.validated Examples.host (VObj [("confidence", VBool true)]) = Ok a
    /\ confidence a = Num 1%Q
    /\ ~ num_eq (confidence a) (Num (1 # 2)).
Proof.
  eexists. split; [reflexivity|]. split; [reflexivity|].
  simpl. unfold Qeq. simpl. lia.
Qed.

(** ** The heuristic fallback *)

(** C7, amended: no pattern of the three fallbacks matches the
    boiling-point claim, so each gives it the generic default, [Mixed]
    with confidence 0.6.  In the end-to-end scenario with the oracle out
    of reach the two sentences are segmented apart, both are judged
    [Mixed], and the overall accuracy is 0.5. *)
Theorem boiling_point_gets_the_default :
  let a := FreeVideoProcessor.getIntelligentFallback Examples.boiling_point_claim in
  let b := RealVideoProcessor.getFallbackAnalysis Examples.boiling_point_claim in
  let c := VideoProcessor.generateFallbackAnalysis Examples.boiling_point_claim in
  let segs := RealVideoProcessor.prepareTranscriptSegments Examples.scenario in
  let judged :=
    RealVideoProcessor.analyzeSegmentsWithKimi Examples.host Examples.offline_axios segs in
  (verdict a = "Mixed" /\ confidence a = Num (6 # 10))
  /\ (verdict b = "Mixed" /\ confidence b = Num (6 # 10))
  /\ (VideoProcessor.fb_verdict c = "Mixed"
      /\ VideoProcessor.fb_confidence c = Num (6 # 10))
  /\ map sentence segs
     = ["The Great Wall of China is visible from space"; Examples.boiling_point_claim]
  /\ map sentence (FreeVideoProcessor.prepareSegments Examples.scenario) = map sentence segs
  /\ map (fun s => verdict (analysis s)) judged = ["Mixed"; "Mixed"]
  /\ fst (RealVideoProcessor.synthesizeInsights judged) = Num (1 # 2).
Proof.
  vm_compute. repeat split.
Qed.

(** The fallback of [FreeVideoProcessor] does not judge the boiling-point
    claim [True]. *)
Lemma boiling_point_is_not_judged_true :
  verdict (FreeVideoProcessor.getIntelligentFallback Examples.boiling_point_claim) <> "True"
  /\ confidence (FreeVideoProcessor.getIntelligentFallback Examples.boiling_point_claim)
     = Num (6 # 10).
Proof.
  vm_compute. split; [discriminate|reflexivity].
Qed.


(** ** The aggregators *)

Lemma VideoProcessor_score (v : string) :
  VideoProcessor.score_or_default v = Num (used_score v).
Proof.
  unfold VideoProcessor.score_or_default, VideoProcessor.scoreMap, used_score, table_score.
  destruct (v =? "False") eqn:E.
  - apply String.eqb_eq in E. subst. reflexivity.
  - repeat match goal with |- context [if ?b then _ else _] => destruct b end;
      try reflexivity; discriminate.
Qed.

Lemma Real_score (v : string) :
  RealVideoProcessor.score_or_default v = Num (used_score v).
Proof.
  unfold RealVideoProcessor.score_or_default, RealVideoProcessor.verdictScores,
    used_score, table_score.
  destruct (v =? "False") eqn:E.
  - apply String.eqb_eq in E. subst. reflexivity.
  - repeat match goal with |- context [if ?b then _ else _] => destruct b end;
      try reflexivity; discriminate.
Qed.

Lemma Free_score (v : string) :
  FreeVideoProcessor.score_or_default v = Num (used_score v).
Proof.
  unfold FreeVideoProcessor.score_or_default, FreeVideoProcessor.verdictScores,
    used_score, table_score.
  destruct (v =? "False") eqn:E.
  - apply String.eqb_eq in E. subst. reflexivity.
  - repeat match goal with |- context [if ?b then _ else _] => destruct b end;
      try reflexivity; discriminate.
Qed.

(** The running total of a [reduce] over the scores. *)
Lemma total_score {A} (verdict_of : A -> string) (score : string -> number)
  (l : list A) :
  (forall v, score v = Num (used_score v)) ->
  forall acc : Q,
  exists total,
    fold_left (fun sum x => add sum (score (verdict_of x))) l (Num acc) = Num total
    /\ (total == acc + Qsum (map used_score (map verdict_of l)))%Q.
Proof.
  intros Hs. induction l as [|x r IH]; intros acc; simpl.
  - exists acc. split; [reflexivity|]. ring.
  - rewrite Hs. simpl. unfold num.
    destruct (IH (Qred (acc + used_score (verdict_of x)))) as [total [Ht Heq]].
    exists total. split; [exact Ht|].
    rewrite Heq, Qred_correct. ring.
Qed.

Lemma div_by_length (total : Q) (n : nat) :
  n <> 0%nat ->
  exists q, div (Num total) (of_nat n) = Num q
            /\ (q == total / inject_Z (Z.of_nat n))%Q.
Proof.
  intros Hn. unfold div, of_nat, of_Z.
  destruct (Qeq_bool (inject_Z (Z.of_nat n)) 0) eqn:E.
  - apply Qeq_bool_iff in E. unfold Qeq in E. simpl in E. lia.
  - eexists. split; [reflexivity|]. apply Qred_correct.
Qed.

(** What the three aggregators compute of a sequence that is not empty:
    the mean of the scores they use. *)
Lemma aggregators_mean (claims : list VideoProcessor.VerifiedClaim)
  (segs : list AnalyzedSegment) :
  (claims <> [] ->
   num_eq (VideoProcessor.calculateOverallScore claims)
          (Num (mean_of used_score (map VideoProcessor.verdict claims))))
  /\ (segs <> [] ->
      num_eq (fst (RealVideoProcessor.synthesizeInsights segs))
             (Num (mean_of used_score (map (fun s => verdict (analysis s)) segs)))
      /\ num_eq (fst (FreeVideoProcessor.generateInsights segs))
                (Num (mean_of used_score (map (fun s => verdict (analysis s)) segs)))).
Proof.
  split.
  - intros Hne. unfold VideoProcessor.calculateOverallScore.
    destruct claims as [|c r]; [congruence|].
    change (List.length (c :: r) =? 0)%nat with false. cbv iota.
    destruct (total_score VideoProcessor.verdict VideoProcessor.score_or_default (c :: r)
                VideoProcessor_score 0%Q) as [total [-> Ht]].
    destruct (div_by_length total (List.length (c :: r))) as [q [-> Hq]]; [discriminate|].
    unfold num_eq, mean_of. rewrite Hq, Ht, length_map. field.
    unfold Qeq; simpl; lia.
  - intros Hne. destruct segs as [|c r]; [congruence|].
    unfold RealVideoProcessor.synthesizeInsights, FreeVideoProcessor.generateInsights.
    cbv zeta. unfold fst.
    destruct (total_score (fun s => verdict (analysis s)) RealVideoProcessor.score_or_default
                (c :: r) Real_score 0%Q) as [total [-> Ht]].
    destruct (total_score (fun s => verdict (analysis s)) FreeVideoProcessor.score_or_default
                (c :: r) Free_score 0%Q) as [total' [-> Ht']].
    destruct (div_by_length total (List.length (c :: r))) as [q [-> Hq]]; [discriminate|].
    destruct (div_by_length total' (List.length (c :: r))) as [q' [-> Hq']]; [discriminate|].
    unfold num_eq, mean_of.
    rewrite Hq, Ht, Hq', Ht', !length_map.
    split; field; unfold Qeq; simpl; lia.
Qed.

Lemma Qsum_one_verdict {A} (verdict_of : A -> string) (v : string) (l : list A) :
  Forall (fun x => verdict_of x = v) l ->
  (Qsum (map used_score (map verdict_of l))
   == inject_Z (Z.of_nat (List.length l)) * used_score v)%Q.
Proof.
  induction 1 as [|x l Hx F IH].
  - simpl. ring.
  - change (Qsum (map used_score (map verdict_of (x :: l))))
      with (used_score (verdict_of x) + Qsum (map used_score (map verdict_of l)))%Q.
    replace (Z.of_nat (List.length (x :: l))) with (1 + Z.of_nat (List.length l))%Z
      by (simpl List.length; lia).
    rewrite inject_Z_plus, IH, Hx. ring.
Qed.

Lemma div_by_length_one_verdict (total : Q) (n : nat) (q : Q) :
  n <> 0%nat ->
  (total == inject_Z (Z.of_nat n) * q)%Q ->
  div (Num total) (of_nat n) = Num (Qred q).
Proof.
  intros Hn Ht. unfold div, of_nat, of_Z.
  assert (Nz : ~ (inject_Z (Z.of_nat n) == 0)%Q).
  { unfold Qeq. simpl. lia. }
  destruct (Qeq_bool (inject_Z (Z.of_nat n)) 0) eqn:E.
  - apply Qeq_bool_iff in E. contradiction.
  - unfold num. f_equal. apply Qred_complete. rewrite Ht. field. exact Nz.
Qed.

(** What the three aggregators give a sequence, not empty, of judgments
    that all bear the verdict [v]: the score they use for [v]. *)
Lemma aggregators_on_one_verdict (v : string)
  (claims : list VideoProcessor.VerifiedClaim) (segs : list AnalyzedSegment) :
  (claims <> [] -> Forall (fun c => VideoProcessor.verdict c = v) claims ->
   VideoProcessor.calculateOverallScore claims = Num (Qred (used_score v)))
  /\ (segs <> [] -> Forall (fun s => verdict (analysis s) = v) segs ->
      fst (RealVideoProcessor.synthesizeInsights segs) = Num (Qred (used_score v))
      /\ fst (FreeVideoProcessor.generateInsights segs) = Num (Qred (used_score v))).
Proof.
  split.
  - intros Hne F. unfold VideoProcessor.calculateOverallScore.
    destruct claims as [|c r]; [congruence|].
    change (List.length (c :: r) =? 0)%nat with false. cbv iota.
    destruct (total_score VideoProcessor.verdict VideoProcessor.score_or_default (c :: r)
                VideoProcessor_score 0%Q) as [total [-> Ht]].
    apply div_by_length_one_verdict; [discriminate|].
    rewrite Ht, (Qsum_one_verdict _ v _ F). ring.
  - intros Hne F. destruct segs as [|c r]; [congruence|].
    unfold RealVideoProcessor.synthesizeInsights, FreeVideoProcessor.generateInsights.
    cbv zeta. unfold fst.
    destruct (total_score (fun s => verdict (analysis s)) RealVideoProcessor.score_or_default
                (c :: r) Real_score 0%Q) as [total [-> Ht]].
    destruct (total_score (fun s => verdict (analysis s)) FreeVideoProcessor.score_or_default
                (c :: r) Free_score 0%Q) as [total' [-> Ht']].
    split; (apply div_by_length_one_verdict; [discriminate|]).
    + rewrite Ht, (Qsum_one_verdict _ v _ F). ring.
    + rewrite Ht', (Qsum_one_verdict _ v _ F). ring.
Qed.

(** C4: the table gives [False] the score 0, but the aggregators look
    a verdict up with [||], which takes 0 for missing: [False] is scored
    0.5.  So every sequence, not empty, of judgments that are all
    [False] scores 0.5 where the claim says 0, in the three aggregators
    alike, and one [True] with one [False] scores 0.75 where the claim
    says 0.5.  The rest is as the claim says: every sequence of [True]
    judgments scores 1, [calculateOverallScore] gives 0 for no claim,
    and [Mostly True] with [Mostly False] scores 0.5. *)
Theorem false_verdict_scores_half :
  (forall claims : list VideoProcessor.VerifiedClaim,
      claims <> [] -> Forall (fun c => VideoProcessor.verdict c = "False") claims ->
      VideoProcessor.calculateOverallScore claims = Num (1 # 2))
  /\ (forall segs : list AnalyzedSegment,
        segs <> [] -> Forall (fun s => verdict (analysis s) = "False") segs ->
        fst (RealVideoProcessor.synthesizeInsights segs) = Num (1 # 2)
        /\ fst (FreeVideoProcessor.generateInsights segs) = Num (1 # 2))
  /\ (forall claims : list VideoProcessor.VerifiedClaim,
        claims <> [] -> Forall (fun c => VideoProcessor.verdict c = "True") claims ->
        VideoProcessor.calculateOverallScore claims = Num 1%Q)
  /\ (forall segs : list AnalyzedSegment,
        segs <> [] -> Forall (fun s => verdict (analysis s) = "True") segs ->
        fst (RealVideoProcessor.synthesizeInsights segs) = Num 1%Q
        /\ fst (FreeVideoProcessor.generateInsights segs) = Num 1%Q)
  /\ used_score "False" = (1 # 2)%Q
  /\ table_score "False" = 0%Q
  /\ VideoProcessor.calculateOverallScore [Examples.claim_with "False"] = Num (1 # 2)
  /\ VideoProcessor.calculateOverallScore
       [Examples.claim_with "True"; Examples.claim_with "False"] = Num (3 # 4)
  /\ fst (RealVideoProcessor.synthesizeInsights [Examples.segment_with "False"]) = Num (1 # 2)
  /\ fst (RealVideoProcessor.synthesizeInsights
            [Examples.segment_with "True"; Examples.segment_with "False"]) = Num (3 # 4)
  /\ fst (FreeVideoProcessor.generateInsights
            [Examples.segment_with "True"; Examples.segment_with "False"]) = Num (3 # 4)
  /\ VideoProcessor.calculateOverallScore [] = Num 0%Q
  /\ VideoProcessor.calculateOverallScore
       [Examples.claim_with "True"; Examples.claim_with "True"] = Num 1%Q
  /\ VideoProcessor.calculateOverallScore
       [Examples.claim_with "Mostly True"; Examples.claim_with "Mostly False"] = Num (1 # 2).
Proof.
  split; [intros claims N F; exact (proj1 (aggregators_on_one_verdict "False" claims []) N F)|].
  split; [intros segs N F; exact (proj2 (aggregators_on_one_verdict "False" [] segs) N F)|].
  split; [intros claims N F; exact (proj1 (aggregators_on_one_verdict "True" claims []) N F)|].
  split; [intros segs N F; exact (proj2 (aggregators_on_one_verdict "True" [] segs) N F)|].
  vm_compute. repeat split.
Qed.

(** ** The acquisition cascade *)

Import ActualVideoProcessor.

Lemma try_methods_first_ok (h : Host) (w : World) (videoUrl : string)
  (methods : list (Result TranscriptData)) :
  methods <> [] ->
  try_methods h w methods videoUrl =
  match first_ok methods with
  | Some d => Ok d
  | None => kimiGenerateContent h w videoUrl
  end.
Proof.
  induction methods as [|m r IH]; intros Hne; [congruence|].
  simpl. destruct m as [d|e]; simpl; [reflexivity|].
  destruct r as [|m' r']; [reflexivity|].
  apply IH. discriminate.
Qed.

Lemma or_else_truthy (a b : value) : truthy b = true -> truthy (or_else a b) = true.
Proof.
  intros H. unfold or_else. destruct (truthy a) eqn:E; assumption.
Qed.

Lemma kimiGenerateContent_try_truthy (h : Host) (w : World) (videoUrl : string)
  (d : TranscriptData) :
  kimiGenerateContent_try h w videoUrl = Ok (Some d) -> truthy (transcript d) = true.
Proof.
  unfold kimiGenerateContent_try.
  destruct (fetch w (GenerateContent videoUrl)) as [response|e]; simpl; [|discriminate].
  destruct (ok response); [|discriminate].
  destruct (json response) as [data|e]; simpl; [|discriminate].
  destruct (get data "choices") as [choices|e]; simpl; [|discriminate].
  destruct (index0 choices) as [first|e]; simpl; [|discriminate].
  destruct (truthy (get_opt (get_opt first "message") "content")) eqn:Hc; [|discriminate].
  unfold try_catch.
  destruct (clean_content _) as [cleaned|e]; simpl;
    [|intros H; injection H as <-; exact Hc].
  destruct (JSON_parse h cleaned) as [parsed|e]; simpl;
    [|intros H; injection H as <-; exact Hc].
  destruct (get parsed "transcript") as [t|e]; simpl;
    [|intros H; injection H as <-; exact Hc].
  destruct (get parsed "videoInfo") as [info|e]; simpl;
    intros H; injection H as <-; simpl; [now apply or_else_truthy|exact Hc].
Qed.

Lemma kimiGenerateContent_returns (h : Host) (w : World) (videoUrl : string) :
  exists g,
    kimiGenerateContent h w videoUrl = Ok g
    /\ truthy (transcript g) = true
    /\ ((forall d, kimiGenerateContent_try h w videoUrl <> Ok (Some d)) ->
        g = ultimate_fallback).
Proof.
  unfold kimiGenerateContent, try_catch.
  destruct (kimiGenerateContent_try h w videoUrl) as [[d|]|e] eqn:E; simpl.
  - exists d. split; [reflexivity|]. split.
    + now apply (kimiGenerateContent_try_truthy h w videoUrl).
    + intros H. now elim (H d).
  - exists ultimate_fallback. repeat split; reflexivity.
  - exists ultimate_fallback. repeat split; reflexivity.
Qed.

Lemma first_transcript_formats (attempts : list (Result (list TranscriptItem)))
  (method : string) (d : TranscriptData) :
  first_transcript attempts method = Some d ->
  exists items, items <> [] /\ d = formatTranscriptResult items method.
Proof.
  induction attempts as [|a r IH]; simpl; [discriminate|].
  destruct a as [items|e]; [|exact IH].
  destruct items as [|x items]; simpl; [exact IH|].
  intros H. injection H as <-. exists (x :: items). split; [discriminate|reflexivity].
Qed.

Lemma method_formats (w : World) (ev : string -> string) (videoUrl : string)
  (d : TranscriptData) :
  In (Ok d) (extractionMethods w ev videoUrl) ->
  exists items method, items <> [] /\ d = formatTranscriptResult items method.
Proof.
  unfold extractionMethods. simpl.
  intros [H|[H|[H|[H|[]]]]].
  - unfold method1 in H.
    destruct (first_transcript _ _) as [d'|] eqn:E; [|discriminate].
    injection H as ->. apply first_transcript_formats in E.
    destruct E as [items [Hne ->]]. eauto.
  - unfold method2 in H. destruct (ev videoUrl =? "unknown"); [discriminate|].
    destruct (fetchTranscript w _ _) as [items|e]; simpl in H; [|discriminate].
    destruct items as [|x items]; simpl in H; [discriminate|].
    injection H as <-. exists (x :: items). eexists. split; [discriminate|reflexivity].
  - unfold method3 in H. destruct (ev videoUrl =? "unknown"); [discriminate|].
    destruct (first_transcript _ _) as [d'|] eqn:E; [|discriminate].
    injection H as ->. apply first_transcript_formats in E.
    destruct E as [items [Hne ->]]. eauto.
  - unfold method4 in H. destruct (ev videoUrl =? "unknown"); [discriminate|].
    destruct (if timeout_first w _ then _ else _) as [items|e]; simpl in H; [|discriminate].
    destruct items as [|x items]; simpl in H; [discriminate|].
    injection H as <-. exists (x :: items). eexists. split; [discriminate|reflexivity].
Qed.

Lemma first_ok_In {A} (attempts : list (Result A)) (a : A) :
  first_ok attempts = Some a -> In (Ok a) attempts.
Proof.
  induction attempts as [|x r IH]; simpl; [discriminate|].
  destruct x; [intros H; injection H as ->; now left|auto].
Qed.

(** C1, amended: the cascade never throws.  It returns what the first
    strategy that succeeds returns: the texts of a transcript with at
    least one entry, joined by spaces (a text that can be empty).  When
    every strategy fails it returns what the generative fallback returns,
    which never throws either, is the built-in passage whenever the
    oracle gives no content (the request fails, the answer is not [ok],
    or anything else keeps the [try] from returning), and carries a
    transcript that is truthy: not the empty string. *)
Theorem cascade_never_throws :
  forall (h : Host) (w : World) (ev : string -> string) (videoUrl : string),
  exists g,
    kimiGenerateContent h w videoUrl = Ok g
    /\ truthy (transcript g) = true
    /\ ((forall d, kimiGenerateContent_try h w videoUrl <> Ok (Some d)) ->
        g = ultimate_fallback)
    /\ (forall e, fetch w (GenerateContent videoUrl) = Throw e -> g = ultimate_fallback)
    /\ (forall response, fetch w (GenerateContent videoUrl) = Ok response ->
                         ok response = false -> g = ultimate_fallback)
    /\ truthy (transcript ultimate_fallback) = true
    /\ extractRealTranscript h w ev videoUrl
       = Ok (match first_ok (extractionMethods w ev videoUrl) with
             | Some d => d
             | None => g
             end)
    /\ (forall d, first_ok (extractionMethods w ev videoUrl) = Some d ->
        exists items method,
          items <> []
          /\ d = formatTranscriptResult items method
          /\ transcript d = VStr (join " " (map item_text items))).
Proof.
  intros h w ev videoUrl.
  destruct (kimiGenerateContent_returns h w videoUrl) as [g [Hg [Ht Hf]]].
  exists g. split; [exact Hg|]. split; [exact Ht|]. split; [exact Hf|].
  split; [|split; [|split; [reflexivity|split]]].
  - intros e He. apply Hf. intros d. unfold kimiGenerateContent_try.
    rewrite He. discriminate.
  - intros response He Hok. apply Hf. intros d. unfold kimiGenerateContent_try.
    rewrite He. simpl. rewrite Hok. discriminate.
  - unfold extractRealTranscript. rewrite try_methods_first_ok; [|discriminate].
    destruct (first_ok _); [reflexivity|exact Hg].
  - intros d Hd. apply first_ok_In in Hd. apply method_formats in Hd.
    destruct Hd as [items [method [Hne ->]]]. exists items, method.
    repeat split; assumption.
Qed.

(** A video whose only caption is empty: the first strategy succeeds and
    the transcript is the empty string. *)
Lemma empty_caption_gives_empty_transcript :
  exists d,
    extractRealTranscript Examples.host Examples.empty_caption Examples.extractVideoId
      Examples.youtube_url = Ok d
    /\ transcript d = VStr "".
Proof.
  eexists. split; reflexivity.
Qed.

(** ** The error handlers *)

Lemma update_first_statuses (p : ProcessingStep -> bool) (st : Status) (msg : string)
  (l l' : list ProcessingStep) :
  update_first p (fun s => mkStep (step s) st msg (progress s)) l = Some l' ->
  exists before s after,
    l = before ++ s :: after
    /\ l' = before ++ mkStep (step s) st msg (progress s) :: after
    /\ p s = true
    /\ Forall (fun x => p x = false) before.
Proof.
  revert l'. induction l as [|x r IH]; simpl; intros l' H; [discriminate|].
  destruct (p x) eqn:Hp.
  - injection H as <-. exists [], x, r. repeat split; auto.
  - destruct (update_first p _ r) as [r'|] eqn:E; [|discriminate].
    injection H as <-. destruct (IH r' eq_refl) as [before [s [after [-> [-> [Hs Hb]]]]]].
    exists (x :: before), s, after. repeat split; auto.
Qed.

Lemma update_first_none (p : ProcessingStep -> bool) (f : ProcessingStep -> ProcessingStep)
  (l : list ProcessingStep) :
  update_first p f l = None <-> Forall (fun x => p x = false) l.
Proof.
  induction l as [|x r IH]; simpl.
  - split; auto.
  - destruct (p x) eqn:Hp.
    + split; [discriminate|]. intros H. inversion H; congruence.
    + destruct (update_first p f r).
      * split; [discriminate|]. intros H. inversion H; subst.
        destruct IH as [_ IH]. specialize (IH H3). discriminate.
      * split; auto. intros _. constructor; [assumption|]. now apply IH.
Qed.

(** What every handler does to the run: the first step found processing
    is marked in error with the message and one more snapshot, of the
    steps as they then stand, is emitted. *)
Lemma mark_error_spec (st : RunState) (msg : string) :
  (exists s, In s (steps st) /\ status s = processing) ->
  exists before s after,
    steps st = before ++ s :: after
    /\ status s = processing
    /\ Forall (fun x => status x <> processing) before
    /\ steps (mark_error st msg) = before ++ mkStep (step s) error msg (progress s) :: after
    /\ emitted (mark_error st msg) = emitted st ++ [steps (mark_error st msg)].
Proof.
  intros [s0 [Hin Hs0]]. unfold mark_error.
  destruct (update_first _ _ (steps st)) as [l'|] eqn:E.
  - apply update_first_statuses in E.
    destruct E as [before [s [after [Hl [-> [Hs Hb]]]]]].
    exists before, s, after. simpl. repeat split; auto.
    + destruct (status s); simpl in Hs; congruence.
    + eapply Forall_impl; [|exact Hb]. intros x Hx. simpl in Hx.
      destruct (status x); simpl in Hx; congruence.
  - apply update_first_none in E. rewrite Forall_forall in E.
    specialize (E s0 Hin). simpl in E. rewrite Hs0 in E. discriminate.
Qed.

(** The handlers of [ActualVideoProcessor] and [FreeVideoProcessor] do
    all of what is asked of a degraded Report: accuracy 0, the message of
    the failure and a suggestion to try again among the findings, the
    processing step marked, one more snapshot. *)
Lemma handlers_that_suggest_a_retry (h : Host) (clock : Clock) (err : Error)
  (st : RunState) (startTime : Time) :
  (exists s, In s (steps st) /\ status s = processing) ->
  let (actual, st1) := ActualVideoProcessor.handleError h clock err st startTime in
  let (free, st2) := FreeVideoProcessor.handleError h clock err st startTime in
  (overallAccuracy actual = Num 0%Q
   /\ keyFindings actual
      = [VStr ("Error: " ++ JS.message err); VStr "Please try a different video URL"]
   /\ is_retry_suggestion "Please try a different video URL" = true
   /\ result_steps actual = steps (mark_error st ("❌ " ++ JS.message err))
   /\ emitted st1 = emitted st ++ [result_steps actual])
  /\ (FreeVideoProcessor.overallAccuracy free = Num 0%Q
      /\ FreeVideoProcessor.keyFindings free
         = [("Processing failed: " ++ JS.message err)%string;
            "Please try again with a different video URL"]
      /\ is_retry_suggestion "Please try again with a different video URL" = true
      /\ FreeVideoProcessor.result_steps free
         = steps (mark_error st ("❌ " ++ JS.message err))
      /\ emitted st2 = emitted st ++ [FreeVideoProcessor.result_steps free]).
Proof.
  intros Hp.
  destruct (mark_error_spec st ("❌ " ++ JS.message err) Hp)
    as [before [s [after [_ [_ [_ [_ He]]]]]]].
  unfold ActualVideoProcessor.handleError, FreeVideoProcessor.handleError, Date_now.
  simpl. repeat split; assumption.
Qed.

Lemma Real_finding_is_no_suggestion (msg : string) :
  is_retry_suggestion ("Processing failed: " ++ msg) = false.
Proof.
  reflexivity.
Qed.


Lemma processVideoReal_on_invalid_url (h : Host) (axios_post : Prompt -> Result value)
  (clock : Clock) (videoUrl : string) (e : Error) :
  URL_hostname h videoUrl = Throw e ->
  let r := fst (RealVideoProcessor.processVideoReal h axios_post clock videoUrl) in
  let trace := snd (RealVideoProcessor.processVideoReal h axios_post clock videoUrl) in
  RealVideoProcessor.keyFindings r
  = [("Processing failed: Failed to extract video metadata: " ++ Error_toString e)%string]
  /\ RealVideoProcessor.overallAccuracy r = Num 0%Q
  /\ map status (RealVideoProcessor.result_steps r)
     = [error; pending; pending; pending; pending; pending]
  /\ List.length trace = 2%nat
  /\ last trace [] = RealVideoProcessor.result_steps r.
Proof.
  intros H.
  unfold RealVideoProcessor.processVideoReal, RealVideoProcessor.processVideoReal_try,
    RealVideoProcessor.extractVideoMetadata.
  rewrite H.
  lazy [RealVideoProcessor.handleRealProcessingError try_catch bind
        bindR update lift ret now Date_now updateStep mark_error
        RealVideoProcessor.initial_steps pending_step
        update_first step status progress message steps emitted reads
        String.eqb Ascii.eqb Bool.eqb Status_eqb app fst snd map last List.length
        RealVideoProcessor.keyFindings RealVideoProcessor.overallAccuracy
        RealVideoProcessor.result_steps new_Error JS.message].
  repeat split.
Qed.
(** C2: the handler of [RealVideoProcessor] leaves the suggestion to try
    again out of the findings, which its two siblings give: its Report
    holds one finding, the message of the failure.  The rest is as asked:
    accuracy 0, the processing step marked in error, one more snapshot.
    So it is for every run on a text that is no URL. *)
Theorem real_handler_gives_no_retry_suggestion :
  (forall (h : Host) (clock : Clock) (err : Error) (st : RunState) (startTime : Time),
      let (r, st') := RealVideoProcessor.handleRealProcessingError h clock err st startTime in
      RealVideoProcessor.keyFindings r = [("Processing failed: " ++ JS.message err)%string]
      /\ Forall (fun f => is_retry_suggestion f = false) (RealVideoProcessor.keyFindings r)
      /\ RealVideoProcessor.overallAccuracy r = Num 0%Q
      /\ RealVideoProcessor.result_steps r = steps (mark_error st ("❌ " ++ JS.message err)))
  /\ (forall (h : Host) (axios_post : Prompt -> Result value) (clock : Clock)
             (videoUrl : string) (e : Error),
         URL_hostname h videoUrl = Throw e ->
         let r := fst (RealVideoProcessor.processVideoReal h axios_post clock videoUrl) in
         let trace := snd (RealVideoProcessor.processVideoReal h axios_post clock videoUrl) in
         RealVideoProcessor.keyFindings r
         = [("Processing failed: Failed to extract video metadata: "
             ++ Error_toString e)%string]
         /\ RealVideoProcessor.overallAccuracy r = Num 0%Q
         /\ map status (RealVideoProcessor.result_steps r)
            = [error; pending; pending; pending; pending; pending]
         /\ List.length trace = 2%nat
         /\ last trace [] = RealVideoProcessor.result_steps r)
  /\ RealVideoProcessor.keyFindings
       (fst (RealVideoProcessor.processVideoReal Examples.host Examples.offline_axios
               Examples.clock_1s "not a url"))
     = ["Processing failed: Failed to extract video metadata: TypeError: Invalid URL"].
Proof.
  split; [|split].
  - intros h clock err st startTime.
    unfold RealVideoProcessor.handleRealProcessingError, Date_now. simpl.
    repeat split. constructor; [apply Real_finding_is_no_suggestion|constructor].
  - exact processVideoReal_on_invalid_url.
  - reflexivity.
Qed.

(** ** The orchestrator of ActualVideoProcessor *)

Ltac run_simpl :=
  lazy [processActualVideo processActualVideo_try compileKimiResults
        ActualVideoProcessor.handleError
        bindR update lift ret now Date_now updateStep mark_error with_steps
        ActualVideoProcessor.initial_steps pending_step
        update_first step status progress message steps emitted reads
        String.eqb Ascii.eqb Bool.eqb Status_eqb app fst snd negb map
        result_steps platform title duration fullTranscript segmentedAnalysis
        overallAccuracy keyFindings processingTime videoId last].

Ltac run_case :=
  match goal with
  | |- context [match ?x with Ok _ => _ | Throw _ => _ end] =>
      destruct x eqn:?; run_simpl
  end.

(** The URL check is decided before anything is unfolded: the state of
    the run is then known at every step. *)
Ltac run_start h videoUrl :=
  unfold processActualVideo, processActualVideo_try;
  destruct (isYouTubeUrl h videoUrl) eqn:?; run_simpl.

Ltac failed_after done :=
  exists done; do 2 eexists;
  split; [reflexivity|];
  split; [repeat constructor|];
  split; [reflexivity|repeat constructor].

Ltac find_failed_step :=
  first [ failed_after (@nil ProcessingStep)
        | match goal with
          | |- failed_midway (?a :: _) => failed_after [a]
          end
        | match goal with
          | |- failed_midway (?a :: ?b :: _) => failed_after [a; b]
          end
        | match goal with
          | |- failed_midway (?a :: ?b :: ?c :: _) => failed_after [a; b; c]
          end ].

(** C8, amended: when the pipeline returns its one Report no step is left
    processing.  After a run that succeeds every step is completed; after
    a run that fails the steps before the failing one are completed, the
    failing one is in error and the later ones are still pending.  The
    steps keep their names and order, and the last snapshot emitted shows
    them as the Report does. *)
Theorem steps_end_completed_error_or_pending :
  forall (h : Host) (w : World) (ev : string -> string) (clock : Clock)
         (videoUrl : string),
    let r := fst (processActualVideo h w ev clock videoUrl) in
    let trace := snd (processActualVideo h w ev clock videoUrl) in
    map step (result_steps r) = ["validate"; "extract"; "kimiAnalyze"; "results"]
    /\ Forall (fun s => status s <> processing) (result_steps r)
    /\ ((platform r = "YouTube"
         /\ Forall (fun s => status s = completed) (result_steps r))
        \/ (platform r = "Error" /\ failed_midway (result_steps r)))
    /\ last trace [] = result_steps r.
Proof.
  intros h w ev clock videoUrl.
  run_start h videoUrl; repeat run_case;
    (split; [reflexivity|]);
    (split; [repeat constructor; discriminate|]);
    (split; [|reflexivity]);
    first [ left; split; [reflexivity|repeat constructor]
          | right; split; [reflexivity|find_failed_step] ].
Qed.

(** A run on a text that is no YouTube URL fails at the first step and
    leaves the three others pending. *)
Lemma failed_run_leaves_steps_pending :
  let r := fst (processActualVideo Examples.host Examples.offline Examples.extractVideoId
                  Examples.clock_1s "not a video") in
  map status (result_steps r) = [error; pending; pending; pending]
  /\ exists s, In s (result_steps r) /\ status s = pending.
Proof.
  split; [reflexivity|].
  eexists. split; [right; left; reflexivity|reflexivity].
Qed.

(** A run of [processActualVideo] that fails gives the degraded Report in
    full: the message of the failure and the suggestion to try again
    among the findings, accuracy 0, no segment, and the failing step
    carrying the message. *)
Lemma failed_run_is_degraded (h : Host) (w : World) (ev : string -> string)
  (clock : Clock) (videoUrl : string) :
  let r := fst (processActualVideo h w ev clock videoUrl) in
  platform r = "Error" ->
  overallAccuracy r = Num 0%Q
  /\ segmentedAnalysis r = VArr []
  /\ exists msg,
       keyFindings r = [VStr ("Error: " ++ msg); VStr "Please try a different video URL"]
       /\ fullTranscript r = VStr ("Error: " ++ msg)
       /\ In (error, ("❌ " ++ msg)%string)
             (map (fun s => (status s, message s)) (result_steps r)).
Proof.
  run_start h videoUrl; repeat run_case; intros Hp; try discriminate Hp;
    (split; [reflexivity|]); (split; [reflexivity|]);
    eexists; (split; [reflexivity|]); (split; [reflexivity|]);
    simpl; tauto.
Qed.

(** With no network at all the run of a YouTube URL completes on the
    built-in passage. *)
Lemma offline_run_completes (h : Host) (w : World) (ev : string -> string)
  (clock : Clock) (videoUrl : string) :
  isYouTubeUrl h videoUrl = true ->
  (forall reference lang, exists e, fetchTranscript w reference lang = Throw e) ->
  (forall p, exists e, fetch w p = Throw e) ->
  let r := fst (processActualVideo h w ev clock videoUrl) in
  platform r = "YouTube"
  /\ fullTranscript r = transcript ultimate_fallback
  /\ Forall (fun s => status s = completed) (result_steps r).
Proof.
  intros Hy Ht Hf.
  assert (H1 : extractRealTranscript h w ev videoUrl = Ok ultimate_fallback).
  { unfold extractRealTranscript. rewrite try_methods_first_ok; [|discriminate].
    assert (Hm : first_ok (extractionMethods w ev videoUrl) = None).
    { unfold extractionMethods, method1, method2, method3, method4. simpl.
      repeat match goal with
             | |- context [fetchTranscript w ?a ?b] =>
                 let e := fresh "e" in
                 let E := fresh "E" in
                 destruct (Ht a b) as [e E]; rewrite E; clear E
             end.
      simpl. destruct (ev videoUrl =? "unknown"); simpl; [reflexivity|].
      destruct (timeout_first w (ev videoUrl)); reflexivity. }
    rewrite Hm. unfold kimiGenerateContent, kimiGenerateContent_try.
    destruct (Hf (GenerateContent videoUrl)) as [e ->]. reflexivity. }
  assert (H2 : exists k, kimiCompleteAnalysis h w ultimate_fallback = Ok k
                         /\ exists items, kimi_segments k = VArr items).
  { unfold kimiCompleteAnalysis.
    destruct (Hf (CompleteAnalysis (transcript ultimate_fallback))) as [e ->].
    simpl. eexists. split; [reflexivity|]. eexists. reflexivity. }
  destruct H2 as [k [H2 [items Hk]]].
  unfold processActualVideo, processActualVideo_try.
  rewrite Hy, H1. run_simpl. rewrite H2. run_simpl. rewrite Hk.
  run_simpl. simpl.
  repeat split; repeat constructor.
Qed.

Lemma app_three {A} (l : list A) (x y z : A) :
  l ++ [x; y; z] = (l ++ [x; y]) ++ [z].
Proof.
  now rewrite <- app_assoc.
Qed.

(** C9, amended: two runs on the same reference against the same host,
    transcript service and oracle, with whatever clocks, give Reports
    with the same platform, title, duration, transcript, segments,
    accuracy and steps, and emit the same snapshots.  The findings agree
    too but for the last finding of a run that succeeds, which quotes the
    processing time; the identifier of a run that succeeds is that of the
    video, the same in both. *)
Theorem reports_agree_up_to_the_clock :
  forall (h : Host) (w : World) (ev : string -> string) (videoUrl : string)
         (clock1 clock2 : Clock),
    let r1 := fst (processActualVideo h w ev clock1 videoUrl) in
    let r2 := fst (processActualVideo h w ev clock2 videoUrl) in
    platform r1 = platform r2
    /\ title r1 = title r2
    /\ duration r1 = duration r2
    /\ fullTranscript r1 = fullTranscript r2
    /\ segmentedAnalysis r1 = segmentedAnalysis r2
    /\ overallAccuracy r1 = overallAccuracy r2
    /\ result_steps r1 = result_steps r2
    /\ snd (processActualVideo h w ev clock1 videoUrl)
       = snd (processActualVideo h w ev clock2 videoUrl)
    /\ exists common,
        (platform r1 = "Error" /\ keyFindings r1 = common /\ keyFindings r2 = common)
        \/ (platform r1 = "YouTube"
            /\ videoId r1 = ev videoUrl /\ videoId r2 = ev videoUrl
            /\ keyFindings r1 = common ++ [VStr ("Processing time: " ++ processingTime r1)]
            /\ keyFindings r2 = common ++ [VStr ("Processing time: " ++ processingTime r2)]).
Proof.
  intros h w ev videoUrl clock1 clock2.
  run_start h videoUrl; repeat run_case;
    do 8 (split; [reflexivity|]);
    first [ eexists; left; repeat split; reflexivity
          | eexists; right; do 3 (split; [reflexivity|]);
            split; apply app_three ].
Qed.

(** Two runs on the same video with no network, one by a clock that
    ticks every second and one by a clock that ticks every two: the
    findings differ. *)
Lemma findings_quote_the_processing_time :
  let run clock :=
    fst (processActualVideo Examples.host Examples.offline Examples.extractVideoId
           clock Examples.youtube_url) in
  last (keyFindings (run Examples.clock_1s)) VNull = VStr "Processing time: 1.0s"
  /\ last (keyFindings (run Examples.clock_2s)) VNull = VStr "Processing time: 2.0s"
  /\ keyFindings (run Examples.clock_1s) <> keyFindings (run Examples.clock_2s).
Proof.
  vm_compute. repeat split. intros H. discriminate H.
Qed.

(** The audio extraction of [VideoProcessor] and the transcript picker
    of [ActualVideoProcessor] (which no run reaches) draw random numbers:
    the same call gives one result on some draws and another on others. *)
Lemma random_draws_decide :
  fst (VideoProcessor.extractAudioWithRetry (fun _ => Num (1 # 2)) 0) = Ok "3:45"
  /\ fst (VideoProcessor.extractAudioWithRetry (fun _ => Num (5 # 100)) 0)
     = Throw (new_Error "Audio extraction failed after 3 attempts: Error: Audio extraction failed - network error")
  /\ snd (VideoProcessor.extractAudioWithRetry (fun _ => Num (5 # 100)) 0) = 3%nat
  /\ (let picked draw :=
        fst (generateIntelligentFallback Examples.extractVideoId (fun _ => Num draw) 0
               Examples.youtube_url) in
      (exists t segs, picked (1 # 10)%Q = Ok (t, segs, "0:28")
                      /\ startsWith t "Welcome to today's educational video" = true)
      /\ (exists t segs, picked (1 # 2)%Q = Ok (t, segs, "0:25")
                         /\ startsWith t "This is your news update" = true)
      /\ picked (1 # 10)%Q <> picked (1 # 2)%Q).
Proof.
  vm_compute. repeat split.
  - do 2 eexists. split; reflexivity.
  - do 2 eexists. split; reflexivity.
  - intros H. discriminate H.
Qed.

(** ** Regular expressions: the matcher and what a pattern matches *)

Lemma firstn_consumed {A} (u s' : list A) :
  firstn (List.length (u ++ s') - List.length s') (u ++ s') = u.
Proof.
  rewrite length_app.
  replace (List.length u + List.length s' - List.length s')%nat with (List.length u) by lia.
  rewrite firstn_app, Nat.sub_diag, firstn_all. simpl. apply app_nil_r.
Qed.

(** A match comes from the continuation: the pattern matched a prefix
    of the input and the continuation accepted the rest. *)
Lemma star_loop_sound {R} (r : regex)
  (IH : forall (s : list ascii) (cap : Capture) (k : Cont R) (x : R),
      rmatch r s cap k = Some x ->
      exists u s' cap', s = u ++ s' /\ Matches r u cap cap' /\ k s' cap' = Some x)
  (n : nat) :
  forall (s : list ascii) (cap : Capture) (k : Cont R) (x : R),
    star_loop (rmatch r) n s cap k = Some x ->
    exists u s' cap', s = u ++ s' /\ Matches (Star r) u cap cap' /\ k s' cap' = Some x.
Proof.
  induction n as [|n IHn]; intros s cap k x H; simpl in H.
  - exists [], s, cap. repeat split; [constructor|exact H].
  - destruct (rmatch r s cap _) as [y|] eqn:E.
    + injection H as ->.
      apply IH in E. destruct E as (u1 & s1 & c1 & -> & M1 & K).
      destruct (List.length s1 <? List.length (u1 ++ s1))%nat eqn:L; [|discriminate].
      apply IHn in K. destruct K as (u2 & s2 & c2 & -> & M2 & K).
      exists (u1 ++ u2), s2, c2. repeat split.
      * now rewrite app_assoc.
      * apply M_StarS with c1; trivial.
        intros ->. simpl in L. rewrite Nat.ltb_irrefl in L. discriminate.
      * exact K.
    + exists [], s, cap. repeat split; [constructor|exact H].
Qed.

Lemma rmatch_sound {R} (r : regex) :
  forall (s : list ascii) (cap : Capture) (k : Cont R) (x : R),
    rmatch r s cap k = Some x ->
    exists u s' cap', s = u ++ s' /\ Matches r u cap cap' /\ k s' cap' = Some x.
Proof.
  induction r as [|p|r1 IH1 r2 IH2|r1 IH1 r2 IH2|r IH|r IH]; intros s cap k x H; simpl in H.
  - exists [], s, cap. repeat split; [constructor|exact H].
  - destruct s as [|a s]; [discriminate|].
    destruct (p a) eqn:P; [|discriminate].
    exists [a], s, cap. repeat split; [now constructor|exact H].
  - apply IH1 in H. destruct H as (u1 & s1 & c1 & -> & M1 & H).
    apply IH2 in H. destruct H as (u2 & s2 & c2 & -> & M2 & H).
    exists (u1 ++ u2), s2, c2. repeat split; [now rewrite app_assoc|econstructor; eauto|exact H].
  - destruct (rmatch r1 s cap k) as [y|] eqn:E.
    + injection H as ->. apply IH1 in E. destruct E as (u & s' & c' & -> & M & K).
      exists u, s', c'. repeat split; [now apply M_AltL|exact K].
    + apply IH2 in H. destruct H as (u & s' & c' & -> & M & K).
      exists u, s', c'. repeat split; [now apply M_AltR|exact K].
  - eapply star_loop_sound; eauto.
  - apply IH in H. destruct H as (u & s' & c' & -> & M & K).
    rewrite firstn_consumed in K.
    exists u, s', (Some u). repeat split; [econstructor; eauto|exact K].
Qed.

Lemma rmatch_never {R} (r : regex) (s : list ascii) (cap : Capture) (k : Cont R) :
  (forall s' cap', k s' cap' = None) -> rmatch r s cap k = None.
Proof.
  intros H. destruct (rmatch r s cap k) eqn:E; [|reflexivity].
  apply rmatch_sound in E. destruct E as (u & s' & c' & _ & _ & K).
  rewrite H in K. discriminate.
Qed.

(** The matcher reads its continuation by its results alone. *)
Lemma star_loop_ext {R} (m : list ascii -> Capture -> Cont R -> option R)
  (Hm : forall s cap k1 k2, (forall s' c, k1 s' c = k2 s' c) -> m s cap k1 = m s cap k2)
  (n : nat) :
  forall s cap k1 k2,
    (forall s' c, k1 s' c = k2 s' c) ->
    star_loop m n s cap k1 = star_loop m n s cap k2.
Proof.
  induction n as [|n IHn]; intros s cap k1 k2 H; simpl.
  - apply H.
  - rewrite (Hm s cap _ (fun s' cap' =>
                if (List.length s' <? List.length s)%nat
                then star_loop m n s' cap' k2 else None)).
    + now rewrite H.
    + intros s' c. destruct (_ <? _)%nat; [now apply IHn|reflexivity].
Qed.

Lemma rmatch_ext {R} (r : regex) :
  forall (s : list ascii) (cap : Capture) (k1 k2 : Cont R),
    (forall s' c, k1 s' c = k2 s' c) -> rmatch r s cap k1 = rmatch r s cap k2.
Proof.
  induction r as [|p|r1 IH1 r2 IH2|r1 IH1 r2 IH2|r IH|r IH]; intros s cap k1 k2 H; simpl.
  - apply H.
  - destruct s as [|a s]; [reflexivity|]. destruct (p a); [apply H|reflexivity].
  - apply IH1. intros s' c. now apply IH2.
  - rewrite (IH1 s cap k1 k2 H), (IH2 s cap k1 k2 H). reflexivity.
  - apply star_loop_ext; auto.
  - apply IH. intros s' c. apply H.
Qed.

(** The bound on the iterations of [r*] is never what stops them. *)
Lemma star_loop_fuel {R} (r : regex) (n : nat) :
  forall (m : nat) (s : list ascii) (cap : Capture) (k : Cont R),
    (List.length s <= n)%nat -> (List.length s <= m)%nat ->
    star_loop (rmatch r) n s cap k = star_loop (rmatch r) m s cap k.
Proof.
  induction n as [|n IHn]; intros m s cap k Hn Hm.
  - destruct s; [|simpl in Hn; lia].
    destruct m as [|m]; [reflexivity|]. simpl.
    rewrite rmatch_never; [reflexivity|]. intros s' c. reflexivity.
  - destruct m as [|m].
    + destruct s; [|simpl in Hm; lia]. simpl.
      rewrite rmatch_never; [reflexivity|]. intros s' c. reflexivity.
    + simpl.
      rewrite (rmatch_ext r s cap _
                 (fun s' cap' =>
                    if (List.length s' <? List.length s)%nat
                    then star_loop (rmatch r) m s' cap' k else None)); [reflexivity|].
      intros s' c. destruct (List.length s' <? List.length s)%nat eqn:L; [|reflexivity].
      apply Nat.ltb_lt in L. apply IHn; lia.
Qed.

(** Every way a pattern matches is tried: the matcher succeeds when the
    pattern matches a prefix of the input after which the continuation
    accepts. *)
Lemma rmatch_complete {R} (r : regex) (u : list ascii) (c c' : Capture) :
  Matches r u c c' ->
  forall (k : Cont R) (s' : list ascii) (c0 : Capture),
    (forall cap, k s' cap <> None) -> rmatch r (u ++ s') c0 k <> None.
Proof.
  induction 1 as [c|p a c P|r1 r2 u1 u2 c c1 c2 M1 IH1 M2 IH2
                 |r1 r2 u c c' M IH|r1 r2 u c c' M IH|r c
                 |r u1 u2 c c1 c2 N M1 IH1 M2 IH2|r u c c' M IH];
    intros k s' c0 K; simpl.
  - apply K.
  - rewrite P. apply K.
  - rewrite <- app_assoc. apply IH1. intros cap. now apply IH2.
  - specialize (IH k s' c0 K). destruct (rmatch r1 (u ++ s') c0 k); congruence.
  - destruct (rmatch r1 (u ++ s') c0 k); [congruence|]. now apply IH.
  - destruct (List.length s'); simpl; [apply K|].
    destruct (rmatch r s' c0 _); [congruence|apply K].
  - destruct (List.length ((u1 ++ u2) ++ s')) as [|n] eqn:L.
    + destruct u1; [congruence|discriminate].
    + simpl.
      match goal with |- context [rmatch r ?s ?c ?k'] =>
        assert (E : rmatch r s c k' <> None) end.
      { rewrite <- app_assoc. apply IH1. intros cap.
        assert (Hlt : (List.length (u2 ++ s') <? List.length (u1 ++ u2 ++ s'))%nat = true).
        { apply Nat.ltb_lt. rewrite (length_app u1). destruct u1; [congruence|simpl; lia]. }
        rewrite Hlt.
        rewrite (star_loop_fuel r n (List.length (u2 ++ s'))).
        - apply (IH2 k s' cap K).
        - rewrite <- app_assoc, length_app in L. destruct u1; [congruence|simpl in L; lia].
        - lia. }
      destruct (rmatch r _ c0 _); congruence.
  - apply IH. intros cap. apply K.
Qed.

(** The leftmost match is a match of the pattern inside the text. *)
Lemma match_here_sound (r : regex) (s whole : list ascii) (cap : Capture) :
  match_here r s = Some (whole, cap) ->
  exists post, s = whole ++ post /\ Matches r whole None cap.
Proof.
  unfold match_here. intros H. apply rmatch_sound in H.
  destruct H as (u & s' & c' & -> & M & K).
  rewrite firstn_consumed in K. injection K as <- <-.
  exists s'. split; [reflexivity|exact M].
Qed.

Lemma match_from_sound (r : regex) (s whole : list ascii) (cap : Capture) :
  match_from r s = Some (whole, cap) ->
  exists pre post, s = pre ++ whole ++ post /\ Matches r whole None cap.
Proof.
  induction s as [|a s IH]; simpl; intros H.
  - destruct (match_here r []) as [[w c]|] eqn:E; [|discriminate].
    injection H as -> ->. apply match_here_sound in E. destruct E as (post & E & M).
    exists [], post. split; [exact E|exact M].
  - destruct (match_here r (a :: s)) as [[w c]|] eqn:E.
    + injection H as -> ->. apply match_here_sound in E. destruct E as (post & E & M).
      exists [], post. split; [exact E|exact M].
    + apply IH in H. destruct H as (pre & post & -> & M).
      exists (a :: pre), post. split; [reflexivity|exact M].
Qed.

Lemma match_from_complete (r : regex) (pre u post : list ascii) (c : Capture) :
  Matches r u None c -> match_from r (pre ++ u ++ post) <> None.
Proof.
  intros M. induction pre as [|a pre IH].
  - simpl. assert (E : match_here r (u ++ post) <> None).
    { unfold match_here. eapply rmatch_complete; eauto. intros cap. discriminate. }
    destruct (u ++ post); simpl; destruct (match_here r _); congruence.
  - simpl. destruct (match_here r _); [discriminate|exact IH].
Qed.

(** [r.test(s)] holds exactly when [r] matches some part of [s]. *)
Lemma RegExp_test_iff (r : regex) (s : string) :
  RegExp_test r s = true <->
  exists pre u post c,
    list_ascii_of_string s = pre ++ u ++ post /\ Matches r u None c.
Proof.
  unfold RegExp_test. split.
  - destruct (match_from r _) as [[w c]|] eqn:E; [|discriminate]. intros _.
    apply match_from_sound in E. destruct E as (pre & post & E & M).
    exists pre, w, post, c. split; assumption.
  - intros (pre & u & post & c & E & M). rewrite E.
    pose proof (match_from_complete r pre u post c M).
    destruct (match_from r _); congruence.
Qed.

(** ** Texts as lists of characters *)

Lemma list_ascii_app (a b : string) :
  list_ascii_of_string (a ++ b) = (list_ascii_of_string a ++ list_ascii_of_string b)%list.
Proof.
  induction a as [|c a IH]; simpl; [reflexivity|now rewrite IH].
Qed.

Lemma list_ascii_inj (a b : string) :
  list_ascii_of_string a = list_ascii_of_string b -> a = b.
Proof.
  intros H. rewrite <- (string_of_list_ascii_of_string a), H.
  apply string_of_list_ascii_of_string.
Qed.

Lemma startsWith_iff (s p : string) :
  startsWith s p = true <-> exists r, s = (p ++ r)%string.
Proof.
  revert s. induction p as [|a p IH]; intros s; simpl.
  - split; [intros _; exists s; reflexivity|intros _; destruct s; reflexivity].
  - destruct s as [|c s]; simpl.
    + split; [discriminate|intros [r H]; discriminate].
    + rewrite andb_true_iff, Ascii.eqb_eq, IH. split.
      * intros [-> [r ->]]. exists r. reflexivity.
      * intros [r H]. injection H as -> ->. split; [reflexivity|exists r; reflexivity].
Qed.

Lemma includes_iff (s p : string) :
  includes s p = true <-> exists pre post, s = (pre ++ p ++ post)%string.
Proof.
  induction s as [|c s IH].
  - cbn [includes]. rewrite orb_false_r, startsWith_iff. split.
    + intros [r H]. exists ""%string, r. exact H.
    + intros (pre & post & H). destruct pre; [exists post; exact H|discriminate].
  - cbn [includes]. rewrite orb_true_iff, startsWith_iff, IH. split.
    + intros [[r H]|(pre & post & ->)].
      * exists ""%string, r. exact H.
      * exists (String c pre), post. reflexivity.
    + intros (pre & post & H). destruct pre as [|a pre].
      * left. exists post. exact H.
      * right. injection H as -> ->. exists pre, post. reflexivity.
Qed.

Lemma list_ascii_toLowerCase (s : string) :
  list_ascii_of_string (toLowerCase s) = map lower_char (list_ascii_of_string s).
Proof.
  induction s as [|c s IH]; simpl; [reflexivity|now rewrite IH].
Qed.

(** A text is found in the lower-case form of [s] exactly when [s]
    holds a part that reads so once it is put in lower case. *)
Lemma includes_lower_iff (s w : string) :
  includes (toLowerCase s) w = true <->
  exists pre u post,
    list_ascii_of_string s = (pre ++ u ++ post)%list
    /\ map lower_char u = list_ascii_of_string w.
Proof.
  rewrite includes_iff. split.
  - intros (a & z & H).
    apply (f_equal list_ascii_of_string) in H.
    rewrite list_ascii_toLowerCase, !list_ascii_app in H.
    apply map_eq_app in H. destruct H as (pre & rest & E & Ha & H).
    apply map_eq_app in H. destruct H as (u & post & -> & Hu & Hz).
    exists pre, u, post. split; assumption.
  - intros (pre & u & post & E & Hu).
    exists (string_of_list_ascii (map lower_char pre)),
           (string_of_list_ascii (map lower_char post)).
    apply list_ascii_inj.
    rewrite list_ascii_toLowerCase, !list_ascii_app, !list_ascii_of_string_of_list_ascii.
    rewrite E, !map_app, Hu. reflexivity.
Qed.

Lemma Matches_Lit_i_intro (w : string) :
  forall (u : list ascii) (c : Capture),
    map lower_char u = map lower_char (list_ascii_of_string w) -> Matches (Lit_i w) u c c.
Proof.
  induction w as [|a w IH]; intros u c H; simpl in *.
  - destruct u; [constructor|discriminate].
  - destruct u as [|x u]; [discriminate|]. injection H as Hx Hu.
    change (x :: u) with ([x] ++ u)%list. apply M_Seq with c.
    + constructor. now apply Ascii.eqb_eq.
    + now apply IH.
Qed.

Lemma Matches_Lit_i_elim (w : string) :
  forall (u : list ascii) (c c' : Capture),
    Matches (Lit_i w) u c c' ->
    map lower_char u = map lower_char (list_ascii_of_string w) /\ c' = c.
Proof.
  induction w as [|a w IH]; intros u c c' M; simpl in M.
  - inversion M; subst. split; reflexivity.
  - inversion M as [| |r1 r2 u1 u2 c0 c1 c2 M1 M2| | | | |]; subst.
    inversion M1 as [|p x c0 P| | | | | |]; subst.
    apply IH in M2. destruct M2 as [E ->]. split; [|reflexivity].
    simpl. apply Ascii.eqb_eq in P. now rewrite P, E.
Qed.

Lemma In_firstn {A} (n : nat) :
  forall (l : list A) (x : A), In x (firstn n l) -> In x l.
Proof.
  induction n as [|n IH]; intros l x H; [destruct H|].
  destruct l as [|a l]; [destruct H|].
  destruct H as [->|H]; [now left|right; now apply IH].
Qed.

(** ** The progress of a run *)

Lemma update_first_steps (p : ProcessingStep -> bool) (st : Status) (msg : string)
  (l l' : list ProcessingStep) :
  update_first p (fun s => mkStep (step s) st msg (progress s)) l = Some l' ->
  map step l' = map step l /\ map progress l' = map progress l.
Proof.
  intros H. apply update_first_statuses in H.
  destruct H as (before & s & after & -> & -> & _ & _).
  rewrite !map_app. split; reflexivity.
Qed.

(** X1.  [updateStep] touches one step and no more: the first of the
    name given takes the status and the message, and one snapshot of
    the list as it then stands is handed over.  The steps keep their
    number, names, order and progress, and the clock is not read.  A
    name that no step bears is passed over in silence: nothing changes
    and nothing is handed over. *)
Theorem updateStep_touches_one_step :
  forall (st : RunState) (stepName : string) (new_status : Status) (msg : string),
    let st' := updateStep st stepName new_status msg in
    map step (steps st') = map step (steps st)
    /\ map progress (steps st') = map progress (steps st)
    /\ reads st' = reads st
    /\ (Forall (fun s => step s <> stepName) (steps st) -> st' = st)
    /\ ((exists s, In s (steps st) /\ step s = stepName) ->
        exists before s after,
          steps st = (before ++ s :: after)%list
          /\ step s = stepName
          /\ Forall (fun x => step x <> stepName) before
          /\ steps st' = (before ++ mkStep stepName new_status msg (progress s) :: after)%list
          /\ emitted st' = (emitted st ++ [steps st'])%list).
Proof.
  intros st stepName new_status msg. cbv zeta. unfold updateStep.
  destruct (update_first _ _ (steps st)) as [l'|] eqn:E.
  - pose proof (update_first_steps _ _ _ _ _ E) as [Hs Hp].
    apply update_first_statuses in E.
    destruct E as (before & s & after & Hl & -> & Ps & Fb).
    apply String.eqb_eq in Ps.
    assert (Fb' : Forall (fun x => step x <> stepName) before).
    { eapply Forall_impl; [|exact Fb]. intros x Hx. now apply String.eqb_neq. }
    cbn [steps emitted reads]. repeat split; auto.
    + intros F. exfalso. rewrite Hl in F. apply Forall_app in F. destruct F as [_ F].
      inversion F; subst. contradiction.
    + intros _. exists before, s, after. rewrite Ps. repeat split; auto.
  - apply update_first_none in E. repeat split; auto.
    intros (s & I & N). exfalso. rewrite Forall_forall in E.
    specialize (E s I). simpl in E. apply String.eqb_neq in E. contradiction.
Qed.

(** ** Times as the reports show them *)

Lemma Qfloor_Qred (q : Q) : Qfloor (Qred q) = Qfloor q.
Proof. apply Qfloor_comp, Qred_correct. Qed.

Lemma Qfloor_div_pos (q : Q) (k : positive) :
  Qfloor (q / inject_Z (Z.pos k)) = (Qfloor q / Z.pos k)%Z.
Proof.
  destruct q as [n d]. unfold Qfloor, Qdiv, Qmult, Qinv. simpl.
  rewrite Z.mul_1_r, Pos2Z.inj_mul. now rewrite Z.div_div by lia.
Qed.

Lemma Qtrunc_div_pos (q : Q) (k : positive) :
  (0 <= q)%Q -> Qtrunc (q / inject_Z (Z.pos k)) = (Qfloor q / Z.pos k)%Z.
Proof.
  intros H. rewrite <- Qfloor_div_pos. destruct q as [n d].
  unfold Qle in H. simpl in H. unfold Qtrunc, Qfloor, Qdiv, Qmult, Qinv. simpl.
  apply Z.quot_div_nonneg; lia.
Qed.

Lemma Qfloor_minus_Z (q : Q) (z : Z) : Qfloor (q - inject_Z z) = (Qfloor q - z)%Z.
Proof.
  destruct q as [n d]. unfold Qfloor, Qminus, Qplus, Qopp, inject_Z. simpl.
  rewrite Pos.mul_1_r, Z.mul_1_r.
  replace (n + - z * Z.pos d)%Z with (n + (- z) * Z.pos d)%Z by lia.
  rewrite Z.div_add by lia. lia.
Qed.

Lemma Qfloor_rem_pos (q : Q) (k : positive) :
  (0 <= q)%Q ->
  Qfloor (q - inject_Z (Z.pos k) * inject_Z (Qtrunc (q / inject_Z (Z.pos k))))
  = (Qfloor q mod Z.pos k)%Z.
Proof.
  intros H. rewrite (Qtrunc_div_pos q k H).
  rewrite (Qfloor_comp _ (q - inject_Z (Z.pos k * (Qfloor q / Z.pos k)))).
  - rewrite Qfloor_minus_Z. rewrite Z.mod_eq by lia. reflexivity.
  - rewrite inject_Z_mult. reflexivity.
Qed.

(** [Math.floor(seconds / k)] and [Math.floor(seconds % k)] *)
Lemma floor_div_pos (q : Q) (k : positive) :
  Math_floor (div (Num q) (Num (inject_Z (Z.pos k)))) = of_Z (Qfloor q / Z.pos k).
Proof.
  unfold div. change (Qeq_bool (inject_Z (Z.pos k)) 0) with false. cbv iota.
  unfold Math_floor, num.
  now rewrite Qfloor_Qred, Qfloor_div_pos.
Qed.

Lemma floor_rem_pos (q : Q) (k : positive) :
  (0 <= q)%Q ->
  Math_floor (rem (Num q) (Num (inject_Z (Z.pos k)))) = of_Z (Qfloor q mod Z.pos k).
Proof.
  intros H. unfold rem. change (Qeq_bool (inject_Z (Z.pos k)) 0) with false. cbv iota.
  unfold Math_floor, num.
  now rewrite Qfloor_Qred, (Qfloor_rem_pos q k H).
Qed.

Lemma Number_toString_of_Z (z : Z) : Number_toString (of_Z z) = Z_toString z.
Proof. unfold Number_toString, of_Z. now rewrite Qfloor_Z. Qed.

Lemma clock_digits_two (k : Z) :
  (0 <= k < 60)%Z -> String.length (clock_digits k) = 2%nat.
Proof.
  intros H.
  assert (A : forallb (fun n => (String.length (clock_digits (Z.of_nat n)) =? 2)%nat)
                      (seq 0 60) = true) by (vm_compute; reflexivity).
  rewrite forallb_forall in A. specialize (A (Z.to_nat k)).
  rewrite in_seq, Z2Nat.id in A by lia. apply Nat.eqb_eq, A. lia.
Qed.

Lemma formatTimestamp_clock (q : Q) :
  (0 <= q)%Q ->
  formatTimestamp (Num q)
  = (Z_toString (Qfloor q / 60) ++ ":" ++ clock_digits (Qfloor q mod 60))%string.
Proof.
  intros H. unfold formatTimestamp. cbv zeta.
  change 60%Q with (inject_Z (Z.pos 60)).
  now rewrite floor_div_pos, (floor_rem_pos q 60 H), !Number_toString_of_Z.
Qed.

(** X2.  A time of [q] seconds, whole or not, from 0 to below 2^53
    (where every whole number is a number of the language and is
    printed digit by digit), is shown by [formatTimestamp] as the whole
    minutes, a colon and the seconds left, on two digits; the minutes
    are not folded into hours.  [formatDuration] shows the same below
    an hour, and from an hour on the hours, the minutes left and the
    seconds left, these two on two digits each. *)
Theorem formatDuration_clock (q : Q) :
  (0 <= q)%Q ->
  (q < 9007199254740992)%Q ->
  let s := Qfloor q in
  formatTimestamp (Num q) = (Z_toString (s / 60) ++ ":" ++ clock_digits (s mod 60))%string
  /\ String.length (clock_digits (s mod 60)) = 2%nat
  /\ ((q < 3600)%Q ->
      ActualVideoProcessor.formatDuration (Num q) = formatTimestamp (Num q))
  /\ ((3600 <= q)%Q ->
      ActualVideoProcessor.formatDuration (Num q)
      = (Z_toString (s / 3600) ++ ":" ++ clock_digits (s mod 3600 / 60)
         ++ ":" ++ clock_digits (s mod 60))%string
      /\ String.length (clock_digits (s mod 3600 / 60)) = 2%nat).
Proof.
  intros H _ s.
  assert (S0 : (0 <= s)%Z).
  { unfold s. rewrite <- (Qfloor_Z 0). now apply Qfloor_resp_le. }
  assert (D : ActualVideoProcessor.formatDuration (Num q)
              = if (0 <? s / 3600)%Z
                then (Z_toString (s / 3600) ++ ":" ++ clock_digits (s mod 3600 / 60)
                      ++ ":" ++ clock_digits (s mod 60))%string
                else (Z_toString (s mod 3600 / 60) ++ ":" ++ clock_digits (s mod 60))%string).
  { unfold ActualVideoProcessor.formatDuration. cbv zeta.
    change 3600%Q with (inject_Z (Z.pos 3600)). change 60%Q with (inject_Z (Z.pos 60)).
    rewrite (floor_rem_pos q 60 H), floor_div_pos.
    assert (R : Math_floor (div (rem (Num q) (Num (inject_Z (Z.pos 3600))))
                                (Num (inject_Z (Z.pos 60))))
                = of_Z (s mod 3600 / 60)).
    { unfold rem. change (Qeq_bool (inject_Z (Z.pos 3600)) 0) with false. cbv iota.
      unfold num.
      rewrite floor_div_pos, Qfloor_Qred, (Qfloor_rem_pos q 3600 H). reflexivity. }
    rewrite R, !Number_toString_of_Z. fold s.
    assert (G : gtb (of_Z (s / 3600)) (Num 0) = (0 <? s / 3600)%Z).
    { unfold gtb, ltb, of_Z. rewrite Z.ltb_antisym. f_equal.
      unfold Qle_bool. simpl. now rewrite Z.mul_1_r. }
    rewrite G. reflexivity. }
  split; [exact (formatTimestamp_clock q H)|].
  split; [apply clock_digits_two, Z.mod_pos_bound; lia|].
  split.
  - intros Lt. rewrite D, (formatTimestamp_clock q H). fold s.
    assert (S1 : (s < 3600)%Z).
    { apply Z.lt_nge. intros Ge. apply (Qlt_not_le _ _ Lt).
      apply Qle_trans with (inject_Z s); [|apply Qfloor_le].
      change 3600%Q with (inject_Z 3600). now rewrite <- Zle_Qle. }
    rewrite (Z.div_small s 3600), (Z.mod_small s 3600) by lia. reflexivity.
  - intros Ge.
    assert (S1 : (3600 <= s)%Z).
    { unfold s. rewrite <- (Qfloor_Z 3600). now apply Qfloor_resp_le. }
    rewrite D.
    assert (P : (0 <? s / 3600)%Z = true).
    { apply Z.ltb_lt. apply Z.div_str_pos. lia. }
    rewrite P. split; [reflexivity|].
    apply clock_digits_two.
    pose proof (Z.mod_pos_bound s 3600 ltac:(lia)).
    split; [apply Z.div_pos; lia|apply Z.div_lt_upper_bound; lia].
Qed.

Lemma a_time_past_the_hour :
  (0 <= 3725 # 1)%Q
  /\ (3725 # 1 < 9007199254740992)%Q
  /\ formatTimestamp (Num (3725 # 1)) = "62:05"
  /\ ActualVideoProcessor.formatDuration (Num (3725 # 1)) = "1:02:05".
Proof.
  split; [discriminate|]. split; [reflexivity|].
  pose proof (formatDuration_clock (3725 # 1) ltac:(discriminate) ltac:(reflexivity))
    as (T & _ & _ & D).
  split; [exact T|]. exact (proj1 (D ltac:(discriminate))).
Defined.

(** ** The identifier of a video *)

Lemma Matches_Repeat_Chr (p : ascii -> bool) (n : nat) :
  forall (u : list ascii) (c c' : Capture),
    Matches (Repeat n (Chr p)) u c c' ->
    List.length u = n /\ Forall (fun a => p a = true) u /\ c' = c.
Proof.
  induction n as [|n IH]; intros u c c' M; simpl in M.
  - inversion M; subst. repeat split. constructor.
  - inversion M as [| |r1 r2 u1 u2 c0 c1 c2 M1 M2| | | | |]; subst.
    inversion M1; subst. apply IH in M2. destruct M2 as (L & F & ->).
    simpl. repeat split; [now rewrite L|now constructor].
Qed.

Lemma length_string_of_list_ascii (l : list ascii) :
  String.length (string_of_list_ascii l) = List.length l.
Proof.
  induction l; simpl; congruence.
Qed.

Lemma shaped_of_list (u : list ascii) :
  List.length u = 11%nat -> Forall (fun a => ActualVideoProcessor.isIdChar a = true) u ->
  video_id_shaped (string_of_list_ascii u).
Proof.
  intros L F. split.
  - now rewrite length_string_of_list_ascii.
  - now rewrite list_ascii_of_string_of_list_ascii.
Qed.

Lemma keep_id_shaped (id x : string) :
  ActualVideoProcessor.keep_id id = Some x -> video_id_shaped x.
Proof.
  unfold ActualVideoProcessor.keep_id, RegExp_test_whole.
  destruct (negb (id =? "")); cbn [andb]; [|discriminate].
  match goal with |- context [rmatch ?r ?s ?c ?k] =>
    destruct (rmatch r s c k) as [[]|] eqn:E; [|discriminate] end.
  intros H. injection H as <-.
  apply rmatch_sound in E. destruct E as (u & s' & c' & E & M & K).
  destruct s'; [|discriminate]. rewrite app_nil_r in E.
  apply Matches_Repeat_Chr in M. destruct M as (L & F & _).
  rewrite <- (string_of_list_ascii_of_string id), E. now apply shaped_of_list.
Qed.

Lemma idRun_match_shaped (s whole : string) (cap : option string) :
  String_match ActualVideoProcessor.idRun s = Some (whole, cap) -> video_id_shaped whole.
Proof.
  unfold String_match. destruct (match_from _ _) as [[w c]|] eqn:E; [|discriminate].
  intros H. injection H as <- _.
  apply match_from_sound in E. destruct E as (pre & post & _ & M).
  apply Matches_Repeat_Chr in M. destruct M as (L & F & _). now apply shaped_of_list.
Qed.

Lemma videoIdPattern_capture_shaped (s whole id : string) :
  String_match ActualVideoProcessor.videoIdPattern s = Some (whole, Some id) ->
  video_id_shaped id.
Proof.
  unfold String_match. destruct (match_from _ _) as [[w c]|] eqn:E; [|discriminate].
  intros H. injection H as _ H.
  apply match_from_sound in E. destruct E as (pre & post & _ & M).
  unfold ActualVideoProcessor.videoIdPattern in M.
  inversion M as [| |r1 r2 u1 u2 c0 c1 c2 M1 M2| | | | |]; subst.
  inversion M2 as [| | | | | | |r u c0 c' M3]; subst.
  apply (Matches_Repeat_Chr _ 11) in M3. destruct M3 as (L & F & _).
  simpl in H. injection H as <-. now apply shaped_of_list.
Qed.

Lemma parsed_id_shaped (url : URL) (id : string) :
  ActualVideoProcessor.parsed_id url = Some id -> video_id_shaped id.
Proof.
  unfold ActualVideoProcessor.parsed_id, ActualVideoProcessor.or_try.
  repeat match goal with
         | |- context [if ?c then _ else _] => destruct c
         | |- context [url_searchParams_get url "v"] =>
             destruct (url_searchParams_get url "v")
         | |- context [match ActualVideoProcessor.keep_id ?i with _ => _ end] =>
             destruct (ActualVideoProcessor.keep_id i) eqn:?
         end;
    intros F; try discriminate; try (injection F as <-); eauto using keep_id_shaped.
Qed.

Lemma extractVideoId_shape (b : Browser) (videoUrl : string) :
  ActualVideoProcessor.extractVideoId b videoUrl = "unknown"
  \/ video_id_shaped (ActualVideoProcessor.extractVideoId b videoUrl).
Proof.
  revert b videoUrl.
  intros b videoUrl.
  unfold ActualVideoProcessor.extractVideoId.
  set (cleanUrl := remove_whitespace (trim videoUrl)).
  assert (Hrest :
    match URL_parse b cleanUrl with
    | None => "unknown"
    | Some url =>
        match ActualVideoProcessor.parsed_id url with
        | Some id => id
        | None =>
            match String_match ActualVideoProcessor.idRun cleanUrl with
            | Some (fallbackMatch, _) => fallbackMatch
            | None => "unknown"
            end
        end
    end = "unknown"
    \/ video_id_shaped
         match URL_parse b cleanUrl with
         | None => "unknown"
         | Some url =>
             match ActualVideoProcessor.parsed_id url with
             | Some id => id
             | None =>
                 match String_match ActualVideoProcessor.idRun cleanUrl with
                 | Some (fallbackMatch, _) => fallbackMatch
                 | None => "unknown"
                 end
             end
         end).
  { destruct (URL_parse b cleanUrl) as [url|]; [|now left].
    destruct (ActualVideoProcessor.parsed_id url) as [id|] eqn:F.
    - right. eapply parsed_id_shaped; eauto.
    - destruct (String_match ActualVideoProcessor.idRun cleanUrl) as [[w c]|] eqn:G;
        [right; eapply idRun_match_shaped; eauto|now left]. }
  destruct (String_match ActualVideoProcessor.videoIdPattern cleanUrl)
    as [[whole [id|]]|] eqn:E; try exact Hrest.
  destruct (negb (id =? "")); [|exact Hrest].
  right. eapply videoIdPattern_capture_shaped; eauto.
Qed.

(** X3.  Whatever the text and whatever the host's parser makes of it,
    what [extractVideoId] answers is ['unknown'] or has the shape of an
    identifier: eleven characters among the letters, the digits, the
    underscore and the hyphen. *)
Theorem extractVideoId_unknown_or_shaped :
  forall (b : Browser) (videoUrl : string),
    ActualVideoProcessor.extractVideoId b videoUrl = "unknown"
    \/ video_id_shaped (ActualVideoProcessor.extractVideoId b videoUrl).
Proof.
  exact extractVideoId_shape.
Qed.


(** ** The identifier of a video, found where it stands *)

Lemma isIdChar_plain (c : ascii) :
  ActualVideoProcessor.isIdChar c = true ->
  isWhiteSpace c = false /\ isLineTerminator c = false
  /\ c <> "/"%char /\ c <> "."%char.
Proof.
  destruct c as [[] [] [] [] [] [] [] []]; vm_compute; intros H;
    try discriminate; repeat split; discriminate.
Qed.

Lemma trimEnd_plain (s : string) :
  Forall (fun c => isWhiteSpace c = false) (list_ascii_of_string s) -> trimEnd s = s.
Proof.
  induction s as [|c s IH]; intros F; [reflexivity|].
  simpl in F. inversion F as [|x l Hc Hl]; subst. simpl.
  rewrite (IH Hl), Hc. destruct s; reflexivity.
Qed.

Lemma clean_plain (s : string) :
  Forall (fun c => isWhiteSpace c = false) (list_ascii_of_string s) ->
  remove_whitespace (trim s) = s.
Proof.
  intros F. unfold trim.
  assert (T : trimStart s = s).
  { destruct s as [|c s]; [reflexivity|]. simpl in F. inversion F; subst.
    simpl. now rewrite H1. }
  rewrite T, (trimEnd_plain s F). clear T.
  induction s as [|c s IH]; [reflexivity|].
  simpl in F. inversion F as [|x l Hc Hl]; subst. simpl. now rewrite Hc, (IH Hl).
Qed.

(** Where eleven identifier characters in a row can stand in a text
    made of [p] and an identifier: after [p], and there alone. *)
Lemma id_run_is_the_id (p i pre cap post : list ascii) :
  no_id_run p = true ->
  List.length i = 11%nat -> List.length cap = 11%nat ->
  Forall (fun c => ActualVideoProcessor.isIdChar c = true) cap ->
  (p ++ i = pre ++ cap ++ post)%list ->
  cap = i.
Proof.
  intros N Li Lc F E.
  assert (C : cap = firstn 11 (skipn (List.length pre) (p ++ i))).
  { rewrite E, skipn_app, skipn_all, Nat.sub_diag.
    change (skipn 0 (cap ++ post)) with (cap ++ post)%list.
    change (([] : list ascii) ++ cap ++ post)%list with (cap ++ post)%list.
    rewrite <- Lc, <- (Nat.add_0_r (List.length cap)), firstn_app_2.
    change (firstn 0 post) with ([] : list ascii). now rewrite app_nil_r. }
  assert (Lt : (List.length pre + 11 <= List.length p + 11)%nat).
  { apply (f_equal (@List.length _)) in E. rewrite !length_app in E. lia. }
  destruct (Nat.lt_ge_cases (List.length pre) (List.length p)) as [Lp|Lp].
  - exfalso. unfold no_id_run in N. rewrite forallb_forall in N.
    specialize (N (List.length pre)). rewrite in_seq in N.
    specialize (N ltac:(lia)). apply existsb_exists in N. destruct N as (c & I & Nc).
    assert (Ic : In c cap).
    { rewrite C, skipn_app, firstn_app. apply in_or_app. left. exact I. }
    rewrite Forall_forall in F. rewrite (F c Ic) in Nc. discriminate.
  - assert (El : List.length pre = List.length p) by lia.
    rewrite C, El, skipn_app, skipn_all, Nat.sub_diag.
    change (([] : list ascii) ++ skipn 0 i)%list with i.
    rewrite <- Li. apply firstn_all.
Qed.

Lemma Matches_Lit_intro (w : string) :
  forall (c : Capture), Matches (Lit w) (list_ascii_of_string w) c c.
Proof.
  induction w as [|a w IH]; intros c; simpl; [constructor|].
  change (a :: list_ascii_of_string w) with ([a] ++ list_ascii_of_string w)%list.
  apply M_Seq with c; [constructor; apply Ascii.eqb_refl|apply IH].
Qed.

Lemma Matches_Repeat_intro (p : ascii -> bool) (u : list ascii) (c : Capture) :
  Forall (fun a => p a = true) u -> Matches (Repeat (List.length u) (Chr p)) u c c.
Proof.
  induction 1 as [|a u Pa F IH]; simpl; [constructor|].
  change (a :: u) with ([a] ++ u)%list. apply M_Seq with c; [now constructor|exact IH].
Qed.

Lemma Matches_Star_Dot (u : list ascii) (c : Capture) :
  Forall (fun a => isLineTerminator a = false) u -> Matches (Star Dot) u c c.
Proof.
  induction 1 as [|a u Pa F IH]; [constructor|].
  change (a :: u) with ([a] ++ u)%list. apply M_StarS with c; [discriminate| |exact IH].
  constructor. now rewrite Pa.
Qed.

(** The identifier is what the pattern captures in a text made of
    [before], a part [head] the head of the pattern matches, and the
    identifier, when eleven identifier characters in a row can stand
    nowhere else. *)
Lemma pattern_finds_the_id (before head id : string) (c : Capture) :
  Matches (Alt (Seq (Lit "youtube.com/")
                    (Alts [ Seq (Plus (Chr (fun c => negb (Ascii.eqb c "/"))))
                                (Seq (Lit "/") (Seq (Plus Dot) (Lit "/")));
                            Seq (Alt (Lit "v") (Seq (Lit "e") (Opt (Lit "mbed")))) (Lit "/");
                            Seq (Star Dot)
                                (Seq (Chr (fun c => Ascii.eqb c "?" || Ascii.eqb c "&"))
                                     (Lit "v=")) ]))
               (Lit "youtu.be/"))
          (list_ascii_of_string head) None c ->
  no_id_run (list_ascii_of_string (before ++ head)) = true ->
  video_id_shaped id ->
  exists whole,
    String_match ActualVideoProcessor.videoIdPattern (before ++ head ++ id)
    = Some (whole, Some id).
Proof.
  intros M N [L F].
  assert (Li : List.length (list_ascii_of_string id) = 11%nat).
  { now rewrite <- length_string_of_list_ascii, string_of_list_ascii_of_string. }
  assert (Mp : Matches ActualVideoProcessor.videoIdPattern
                 (list_ascii_of_string head ++ list_ascii_of_string id) None
                 (Some (list_ascii_of_string id))).
  { unfold ActualVideoProcessor.videoIdPattern. apply M_Seq with c; [exact M|].
    apply M_Group with c. rewrite <- Li at 1. now apply Matches_Repeat_intro. }
  unfold String_match.
  destruct (match_from ActualVideoProcessor.videoIdPattern
              (list_ascii_of_string (before ++ head ++ id))) as [[w cap]|] eqn:E.
  - pose proof (match_from_sound _ _ _ _ E) as (pre & post & Es & Mw).
    unfold ActualVideoProcessor.videoIdPattern in Mw.
    inversion Mw as [| |r1 r2 u1 u2 c0 c1 c2 M1 M2| | | | |]; subst.
    inversion M2 as [| | | | | | |r u c0 c' M3]; subst.
    apply (Matches_Repeat_Chr _ 11) in M3. destruct M3 as (Lc & Fc & _).
    assert (Eq : u2 = list_ascii_of_string id).
    { apply (id_run_is_the_id (list_ascii_of_string (before ++ head)) _
               (pre ++ u1) u2 post N Li Lc Fc).
      rewrite !list_ascii_app in Es. rewrite <- !app_assoc in Es.
      rewrite !list_ascii_app, <- !app_assoc. exact Es. }
    exists (string_of_list_ascii (u1 ++ u2)). simpl.
    now rewrite Eq, string_of_list_ascii_of_string.
  - exfalso. revert E. rewrite !list_ascii_app.
    rewrite <- (app_nil_r (list_ascii_of_string id)), (app_assoc (list_ascii_of_string head)).
    exact (match_from_complete _ _ _ [] _ Mp).
Qed.

Lemma shaped_plain (p id : string) :
  Forall (fun c => isWhiteSpace c = false) (list_ascii_of_string p) ->
  video_id_shaped id ->
  remove_whitespace (trim (p ++ id)) = (p ++ id)%string.
Proof.
  intros P [_ F]. apply clean_plain. rewrite list_ascii_app. apply Forall_app. split; [exact P|].
  eapply Forall_impl; [|exact F]. intros c Hc. now apply isIdChar_plain.
Qed.

Lemma extractVideoId_found (b : Browser) (p id whole : string) :
  video_id_shaped id ->
  remove_whitespace (trim (p ++ id)) = (p ++ id)%string ->
  String_match ActualVideoProcessor.videoIdPattern (p ++ id) = Some (whole, Some id) ->
  ActualVideoProcessor.extractVideoId b (p ++ id) = id.
Proof.
  intros [L _] C M. unfold ActualVideoProcessor.extractVideoId.
  cbv zeta. rewrite C, M. destruct id; [discriminate L|reflexivity].
Qed.

Lemma watch_head :
  Matches (Alt (Seq (Lit "youtube.com/")
                    (Alts [ Seq (Plus (Chr (fun c => negb (Ascii.eqb c "/"))))
                                (Seq (Lit "/") (Seq (Plus Dot) (Lit "/")));
                            Seq (Alt (Lit "v") (Seq (Lit "e") (Opt (Lit "mbed")))) (Lit "/");
                            Seq (Star Dot)
                                (Seq (Chr (fun c => Ascii.eqb c "?" || Ascii.eqb c "&"))
                                     (Lit "v=")) ]))
               (Lit "youtu.be/"))
          (list_ascii_of_string "youtube.com/watch?v=") None None.
Proof.
  apply M_AltL.
  apply (M_Seq _ _ (list_ascii_of_string "youtube.com/") (list_ascii_of_string "watch?v=")
               None None None); [exact (Matches_Lit_intro "youtube.com/" None)|].
  apply M_AltR, M_AltR.
  apply (M_Seq _ _ (list_ascii_of_string "watch") (list_ascii_of_string "?v=") None None None).
  - apply Matches_Star_Dot. repeat constructor.
  - apply (M_Seq _ _ ["?"%char] (list_ascii_of_string "v=") None None None);
      [now constructor|exact (Matches_Lit_intro "v=" None)].
Qed.

Lemma embed_head :
  Matches (Alt (Seq (Lit "youtube.com/")
                    (Alts [ Seq (Plus (Chr (fun c => negb (Ascii.eqb c "/"))))
                                (Seq (Lit "/") (Seq (Plus Dot) (Lit "/")));
                            Seq (Alt (Lit "v") (Seq (Lit "e") (Opt (Lit "mbed")))) (Lit "/");
                            Seq (Star Dot)
                                (Seq (Chr (fun c => Ascii.eqb c "?" || Ascii.eqb c "&"))
                                     (Lit "v=")) ]))
               (Lit "youtu.be/"))
          (list_ascii_of_string "youtube.com/embed/") None None.
Proof.
  apply M_AltL.
  apply (M_Seq _ _ (list_ascii_of_string "youtube.com/") (list_ascii_of_string "embed/")
               None None None); [exact (Matches_Lit_intro "youtube.com/" None)|].
  apply M_AltR, M_AltL.
  apply (M_Seq _ _ (list_ascii_of_string "embed") (list_ascii_of_string "/") None None None);
    [|exact (Matches_Lit_intro "/" None)].
  apply M_AltR.
  apply (M_Seq _ _ (list_ascii_of_string "e") (list_ascii_of_string "mbed") None None None);
    [exact (Matches_Lit_intro "e" None)|].
  apply M_AltL. exact (Matches_Lit_intro "mbed" None).
Qed.

Lemma short_head :
  Matches (Alt (Seq (Lit "youtube.com/")
                    (Alts [ Seq (Plus (Chr (fun c => negb (Ascii.eqb c "/"))))
                                (Seq (Lit "/") (Seq (Plus Dot) (Lit "/")));
                            Seq (Alt (Lit "v") (Seq (Lit "e") (Opt (Lit "mbed")))) (Lit "/");
                            Seq (Star Dot)
                                (Seq (Chr (fun c => Ascii.eqb c "?" || Ascii.eqb c "&"))
                                     (Lit "v=")) ]))
               (Lit "youtu.be/"))
          (list_ascii_of_string "youtu.be/") None None.
Proof.
  apply M_AltR. exact (Matches_Lit_intro "youtu.be/" None).
Qed.

(** X4.  The identifier of a YouTube link in one of its three usual
    forms (the watch page, the short link, the embedded player) is the
    eleven characters the link ends with, whatever the host makes of
    the link: the pattern finds them, and it can find nothing else. *)
Theorem extractVideoId_of_usual_links (b : Browser) (id : string) :
  video_id_shaped id ->
  ActualVideoProcessor.extractVideoId b ("https://www.youtube.com/watch?v=" ++ id) = id
  /\ ActualVideoProcessor.extractVideoId b ("https://youtu.be/" ++ id) = id
  /\ ActualVideoProcessor.extractVideoId b ("https://www.youtube.com/embed/" ++ id) = id.
Proof.
  intros S. repeat split.
  - destruct (pattern_finds_the_id "https://www." "youtube.com/watch?v=" id None
                watch_head eq_refl S) as [whole M].
    apply (extractVideoId_found b "https://www.youtube.com/watch?v=" id whole S); [|exact M].
    apply shaped_plain; [repeat constructor|exact S].
  - destruct (pattern_finds_the_id "https://" "youtu.be/" id None
                short_head eq_refl S) as [whole M].
    apply (extractVideoId_found b "https://youtu.be/" id whole S); [|exact M].
    apply shaped_plain; [repeat constructor|exact S].
  - destruct (pattern_finds_the_id "https://www." "youtube.com/embed/" id None
                embed_head eq_refl S) as [whole M].
    apply (extractVideoId_found b "https://www.youtube.com/embed/" id whole S); [|exact M].
    apply shaped_plain; [repeat constructor|exact S].
Qed.

Lemma a_link_of_each_form :
  video_id_shaped "dQw4w9WgXcQ"
  /\ ActualVideoProcessor.extractVideoId Examples.browser
       "https://www.youtube.com/watch?v=dQw4w9WgXcQ" = "dQw4w9WgXcQ"
  /\ ActualVideoProcessor.extractVideoId Examples.browser
       "https://youtu.be/dQw4w9WgXcQ" = "dQw4w9WgXcQ"
  /\ ActualVideoProcessor.extractVideoId Examples.browser
       "https://www.youtube.com/embed/dQw4w9WgXcQ" = "dQw4w9WgXcQ".
Proof.
  assert (S : video_id_shaped "dQw4w9WgXcQ") by (split; [reflexivity|repeat constructor]).
  split; [exact S|]. exact (extractVideoId_of_usual_links Examples.browser "dQw4w9WgXcQ" S).
Defined.

Lemma Matches_Lit_elim (w : string) :
  forall (u : list ascii) (c c' : Capture),
    Matches (Lit w) u c c' -> u = list_ascii_of_string w /\ c' = c.
Proof.
  induction w as [|a w IH]; intros u c c' M; simpl in M.
  - inversion M; subst. split; reflexivity.
  - inversion M as [| |r1 r2 u1 u2 c0 c1 c2 M1 M2| | | | |]; subst.
    inversion M1 as [|p x c0 P| | | | | |]; subst.
    apply IH in M2. destruct M2 as [-> ->]. split; [|reflexivity].
    apply Ascii.eqb_eq in P. now rewrite P.
Qed.

(** What the pattern matches holds a slash. *)
Lemma videoIdPattern_slash (u : list ascii) (c c' : Capture) :
  Matches ActualVideoProcessor.videoIdPattern u c c' -> In "/"%char u.
Proof.
  unfold ActualVideoProcessor.videoIdPattern. intros M.
  inversion M as [| |r1 r2 u1 u2 c0 c1 c2 M1 M2| | | | |]; subst. clear M M2.
  apply in_or_app. left.
  inversion M1 as [| | |r1 r2 u c0 c3 Ma|r1 r2 u c0 c3 Ma| | |]; subst; clear M1.
  - inversion Ma as [| |r1 r2 v1 v2 c0 c4 c5 Mb Mc| | | | |]; subst. clear Ma Mc.
    apply in_or_app. left.
    apply (Matches_Lit_elim "youtube.com/") in Mb. destruct Mb as [-> _].
    simpl. tauto.
  - apply (Matches_Lit_elim "youtu.be/") in Ma. destruct Ma as [-> _]. simpl. tauto.
Qed.

(** X5.  Eleven identifier characters by themselves are no link: when
    the host refuses them as a URL the answer is ['unknown'], although
    the last resort of the code, the first run of eleven such
    characters, would have found them; it is not reached. *)
Theorem extractVideoId_of_a_bare_id (b : Browser) (id : string) :
  video_id_shaped id ->
  URL_parse b id = None ->
  ActualVideoProcessor.extractVideoId b id = "unknown"
  /\ String_match ActualVideoProcessor.idRun id = Some (id, None).
Proof.
  intros S U. pose proof S as [L F].
  assert (C : remove_whitespace (trim id) = id).
  { apply (shaped_plain "" id); [constructor|exact S]. }
  assert (Li : List.length (list_ascii_of_string id) = 11%nat).
  { now rewrite <- length_string_of_list_ascii, string_of_list_ascii_of_string. }
  split.
  - unfold ActualVideoProcessor.extractVideoId. cbv zeta. rewrite C, U.
    unfold String_match.
    destruct (match_from ActualVideoProcessor.videoIdPattern (list_ascii_of_string id))
      as [[w cap]|] eqn:E; [exfalso|reflexivity].
    apply match_from_sound in E. destruct E as (pre & post & Es & M).
    apply videoIdPattern_slash in M.
    assert (I : In "/"%char (list_ascii_of_string id)).
    { rewrite Es. apply in_or_app. right. apply in_or_app. now left. }
    rewrite Forall_forall in F. specialize (F _ I). discriminate F.
  - unfold String_match.
    destruct (match_from ActualVideoProcessor.idRun (list_ascii_of_string id))
      as [[w cap]|] eqn:E.
    + apply match_from_sound in E. destruct E as (pre & post & Es & M).
      apply (Matches_Repeat_Chr _ 11) in M. destruct M as (Lw & _ & ->).
      assert (Ll : (List.length pre + 11 + List.length post = 11)%nat).
      { pose proof (f_equal (@List.length _) Es) as El.
        rewrite !length_app, Lw, Li in El. lia. }
      destruct pre; [|simpl in Ll; lia]. destruct post; [|simpl in Ll; lia].
      simpl in Es. rewrite app_nil_r in Es. subst w.
      simpl. now rewrite string_of_list_ascii_of_string.
    + exfalso. revert E.
      rewrite <- (app_nil_r (list_ascii_of_string id)).
      apply (match_from_complete _ [] _ [] None).
      unfold ActualVideoProcessor.idRun. rewrite <- Li at 1.
      now apply Matches_Repeat_intro.
Qed.

Lemma a_bare_id_is_unknown :
  video_id_shaped "dQw4w9WgXcQ"
  /\ URL_parse Examples.browser "dQw4w9WgXcQ" = None
  /\ ActualVideoProcessor.extractVideoId Examples.browser "dQw4w9WgXcQ" = "unknown"
  /\ String_match ActualVideoProcessor.idRun "dQw4w9WgXcQ" = Some ("dQw4w9WgXcQ", None).
Proof.
  assert (S : video_id_shaped "dQw4w9WgXcQ") by (split; [reflexivity|repeat constructor]).
  split; [exact S|]. split; [reflexivity|].
  exact (extractVideoId_of_a_bare_id Examples.browser "dQw4w9WgXcQ" S eq_refl).
Defined.

(** ** The identifier in the Report *)

(** X6.  When [processActualVideo], run with [extractVideoId], gives a
    Report that is no failure, the identifier in the Report is what
    [extractVideoId] reads off the text: ['unknown'] or eleven
    identifier characters, never anything else.  A Report of a failure
    has its identifier from the clock instead. *)
Theorem processActualVideo_identifier :
  forall (h : Host) (w : World) (b : Browser) (clock : Clock) (videoUrl : string),
    let r :=
      fst (processActualVideo h w (ActualVideoProcessor.extractVideoId b) clock videoUrl) in
    (platform r = "YouTube" ->
     videoId r = ActualVideoProcessor.extractVideoId b videoUrl
     /\ (videoId r = "unknown" \/ video_id_shaped (videoId r)))
    /\ (platform r = "Error" -> videoId r = Z_toString (clock 2%nat)).
Proof.
  intros h w b clock videoUrl.
  pose proof (extractVideoId_shape b videoUrl) as S.
  remember (ActualVideoProcessor.extractVideoId b videoUrl) as i eqn:Ei. symmetry in Ei.
  assert (G : forall ev : string -> string, ev videoUrl = i ->
            let r := fst (processActualVideo h w ev clock videoUrl) in
            (platform r = "YouTube" -> videoId r = i)
            /\ (platform r = "Error" -> videoId r = Z_toString (clock 2%nat))).
  { intros ev E. run_start h videoUrl; repeat run_case;
      split; intros Hp; try discriminate Hp; first [exact E|reflexivity]. }
  specialize (G (ActualVideoProcessor.extractVideoId b) Ei). cbv zeta in G |- *.
  destruct G as [G1 G2]. split; [|exact G2].
  intros Hp. rewrite (G1 Hp). split; [reflexivity|exact S].
Qed.

Lemma the_identifier_of_a_run :
  platform (fst (processActualVideo Examples.host Examples.offline
                   (ActualVideoProcessor.extractVideoId Examples.browser)
                   Examples.clock_1s Examples.youtube_url)) = "YouTube"
  /\ videoId (fst (processActualVideo Examples.host Examples.offline
                     (ActualVideoProcessor.extractVideoId Examples.browser)
                     Examples.clock_1s Examples.youtube_url)) = "dQw4w9WgXcQ".
Proof.
  split; [vm_compute; reflexivity|].
  refine (eq_trans (proj1 (proj1 (processActualVideo_identifier Examples.host Examples.offline
                      Examples.browser Examples.clock_1s Examples.youtube_url) _)) _);
    vm_compute; reflexivity.
Defined.

(** ** The client of the oracle *)

(** X7.  Whatever goes wrong when [factCheck] asks the oracle (no
    network, a status that is not ok, a body that is no JSON, an answer
    without choices) the caller is told "Failed to fact-check claim"
    and nothing of the reason.  When it returns, the assessment is
    never empty: an answer without content is replaced by "Unable to
    fact-check claim". *)
Theorem factCheck_tells_no_reason :
  forall (fetch : OpenRouterClient.Request -> Result Response) (claim : string)
         (context : option string),
    match OpenRouterClient.factCheck fetch claim context with
    | Ok assessment =>
        truthy assessment = true
        /\ exists response body,
             fetch (OpenRouterClient.FactCheck claim context) = Ok response
             /\ ok response = true /\ json response = Ok body
             /\ (assessment = VStr "Unable to fact-check claim"
                 \/ exists choices first,
                      get body "choices" = Ok choices /\ index0 choices = Ok first
                      /\ assessment = get_opt (get_opt first "message") "content")
    | Throw e => e = new_Error "Failed to fact-check claim"
    end.
Proof.
  intros fetch claim context.
  unfold OpenRouterClient.factCheck, OpenRouterClient.chatCompletion,
    OpenRouterClient.content_or, try_catch, bind.
  destruct (fetch _) as [response|e] eqn:F; [|reflexivity].
  destruct (ok response) eqn:O; cbn [negb].
  - destruct (json response) as [body|e] eqn:J; [|reflexivity].
    destruct (get body "choices") as [choices|e] eqn:G; [|reflexivity].
    destruct (index0 choices) as [first|e] eqn:I; [|reflexivity].
    split; [apply or_else_truthy; reflexivity|].
    exists response, body. repeat split; auto.
    unfold or_else. destruct (truthy _); [right|left; reflexivity].
    exists choices, first. auto.
  - destruct (JS.text response); reflexivity.
Qed.

Lemma find_model_finds (modelName : string) (models : list value) (v : value) :
  OpenRouterClient.find_model modelName models = Ok v ->
  (v = VUndefined /\ Forall (fun m => get_opt m "id" <> VStr modelName) models)
  \/ exists before after,
       models = (before ++ v :: after)%list
       /\ get v "id" = Ok (VStr modelName)
       /\ Forall (fun m => get_opt m "id" <> VStr modelName) before.
Proof.
  revert v. induction models as [|m r IH]; intros v H; simpl in H.
  - injection H as <-. left. split; [reflexivity|constructor].
  - unfold bind in H. destruct (get m "id") as [id|e] eqn:G; [|discriminate].
    destruct (is_string id modelName) eqn:S.
    + injection H as <-. right. exists [], r. repeat split; [|constructor].
      destruct id; try discriminate S. simpl in S. apply String.eqb_eq in S. now subst.
    + assert (N : get_opt m "id" <> VStr modelName).
      { unfold get_opt. rewrite G. intros ->. simpl in S. now rewrite String.eqb_refl in S. }
      destruct (IH v H) as [[-> Fa]|(before & after & -> & Gv & Fb)].
      * left. split; [reflexivity|now constructor].
      * right. exists (m :: before), after. repeat split; [exact Gv|now constructor].
Qed.

Lemma find_model_throws (modelName : string) (models : list value) (e : Error) :
  OpenRouterClient.find_model modelName models = Throw e ->
  exists before m after,
    models = (before ++ m :: after)%list
    /\ nullish m = true
    /\ Forall (fun m => get_opt m "id" <> VStr modelName) before.
Proof.
  induction models as [|m r IH]; intros H; simpl in H; [discriminate|].
  unfold bind in H. destruct (get m "id") as [id|e'] eqn:G.
  - destruct (is_string id modelName) eqn:S; [discriminate|].
    assert (N : get_opt m "id" <> VStr modelName).
    { unfold get_opt. rewrite G. intros ->. simpl in S. now rewrite String.eqb_refl in S. }
    destruct (IH H) as (before & m' & after & -> & Nm & Fb).
    exists (m :: before), m', after. repeat split; [exact Nm|now constructor].
  - exists [], m, r. repeat split; [|constructor].
    destruct m; try discriminate G; reflexivity.
Qed.

(** X8.  [checkModelInfo] never throws.  Its answer is the first model
    of the list whose [id] is the name asked for; [undefined], not
    [null], when the list holds none, as it does when the request for
    the list fails; and [null] only when the search itself fails: what
    came as the list is no array, or a [null] stands in it before any
    model of that name. *)
Theorem checkModelInfo_first_of_that_name :
  forall (fetch_models : Result Response) (modelName : string),
    let models := OpenRouterClient.getModels fetch_models in
    let answer := OpenRouterClient.checkModelInfo fetch_models modelName in
    ((exists e, fetch_models = Throw e) -> answer = VUndefined)
    /\
    ((exists before after,
        models = VArr (before ++ answer :: after)
        /\ get answer "id" = Ok (VStr modelName)
        /\ Forall (fun m => get_opt m "id" <> VStr modelName) before)
    \/ (answer = VUndefined
        /\ exists items, models = VArr items
             /\ Forall (fun m => get_opt m "id" <> VStr modelName) items)
    \/ (answer = VNull
        /\ ((forall items, models <> VArr items)
            \/ exists before after,
                 models = VArr (before ++ after)
                 /\ Forall (fun m => get_opt m "id" <> VStr modelName) before
                 /\ exists m, head after = Some m /\ nullish m = true))).
Proof.
  intros fetch_models modelName. cbv zeta. split; [intros [e ->]; reflexivity|].
  unfold OpenRouterClient.checkModelInfo.
  destruct (OpenRouterClient.getModels fetch_models) as [| | | | |items|] eqn:M;
    try (right; right; split; [reflexivity|left; intros items; discriminate]).
  destruct (OpenRouterClient.find_model modelName items) as [v|e] eqn:F.
  - destruct (find_model_finds _ _ _ F) as [[-> Fa]|(before & after & -> & Gv & Fb)].
    + right. left. split; [reflexivity|]. exists items. split; [reflexivity|exact Fa].
    + left. exists before, after. repeat split; [exact Gv|exact Fb].
  - destruct (find_model_throws _ _ _ F) as (before & m & after & -> & Nm & Fb).
    right. right. split; [reflexivity|]. right.
    exists before, (m :: after). repeat split; [exact Fb|].
    exists m. split; [reflexivity|exact Nm].
Qed.

(** ** VideoProcessor: the address of the video *)

Lemma validateAndAnalyzeUrl_cases :
  forall (b : Browser) (videoUrl : string),
    match VideoProcessor.validateAndAnalyzeUrl b videoUrl with
    | Ok (url, platform) =>
        URL_parse b videoUrl = Some url
        /\ platform = VideoProcessor.detectPlatform url
        /\ In platform VideoProcessor.supportedPlatforms
        /\ includes (url_protocol url) "http" = true
    | Throw e =>
        (URL_parse b videoUrl = None
         /\ e = new_Error "Invalid URL format. Please enter a complete video URL.")
        \/ (exists url, URL_parse b videoUrl = Some url
              /\ VideoProcessor.detectPlatform url = "Unknown Platform"
              /\ e = new_Error unsupported_platform_message)
        \/ (exists url, URL_parse b videoUrl = Some url
              /\ In (VideoProcessor.detectPlatform url) VideoProcessor.supportedPlatforms
              /\ includes (url_protocol url) "http" = false
              /\ e = new_Error "Invalid URL protocol. Please use http:// or https://")
    end.
Proof.
  intros b videoUrl.
  unfold VideoProcessor.validateAndAnalyzeUrl, new_URL.
  destruct (URL_parse b videoUrl) as [url|]; [|left; split; reflexivity].
  cbv beta iota delta [bind].
  assert (D : VideoProcessor.detectPlatform url = "Unknown Platform"
              \/ In (VideoProcessor.detectPlatform url) VideoProcessor.supportedPlatforms).
  { unfold VideoProcessor.detectPlatform.
    repeat match goal with |- context [if ?c then _ else _] => destruct c end;
      simpl; tauto. }
  destruct D as [D|D].
  - rewrite D. simpl. right; left. exists url. repeat split. exact D.
  - assert (E : existsb (String.eqb (VideoProcessor.detectPlatform url))
                  VideoProcessor.supportedPlatforms = true).
    { apply existsb_exists. exists (VideoProcessor.detectPlatform url).
      split; [exact D|apply String.eqb_refl]. }
    rewrite E. simpl.
    destruct (includes (url_protocol url) "http") eqn:P; simpl.
    + repeat split; trivial.
    + right; right. exists url. repeat split; trivial.
Qed.

(** X9.  [validateAndAnalyzeUrl] returns for the addresses the host parses
    whose platform is one of the five supported and whose protocol
    holds [http], and gives them back with their platform.  It refuses
    every other text with one of three messages: the text is no URL, the
    platform is unknown, the protocol is not HTTP. *)
Theorem validateAndAnalyzeUrl_accepts_supported :
  forall (b : Browser) (videoUrl : string),
    match VideoProcessor.validateAndAnalyzeUrl b videoUrl with
    | Ok (url, platform) =>
        URL_parse b videoUrl = Some url
        /\ platform = VideoProcessor.detectPlatform url
        /\ In platform VideoProcessor.supportedPlatforms
        /\ includes (url_protocol url) "http" = true
    | Throw e =>
        (URL_parse b videoUrl = None
         /\ e = new_Error "Invalid URL format. Please enter a complete video URL.")
        \/ (exists url, URL_parse b videoUrl = Some url
              /\ VideoProcessor.detectPlatform url = "Unknown Platform"
              /\ e = new_Error unsupported_platform_message)
        \/ (exists url, URL_parse b videoUrl = Some url
              /\ In (VideoProcessor.detectPlatform url) VideoProcessor.supportedPlatforms
              /\ includes (url_protocol url) "http" = false
              /\ e = new_Error "Invalid URL protocol. Please use http:// or https://")
    end.
Proof.
  exact validateAndAnalyzeUrl_cases.
Qed.

(** ** VideoProcessor: what looks like a factual claim *)

Lemma looksLikeFactualClaim_iff (s : string) :
  VideoProcessor.looksLikeFactualClaim s = true <->
  exists pattern pre u post c,
    In pattern VideoProcessor.factualPatterns
    /\ list_ascii_of_string s = (pre ++ u ++ post)%list
    /\ Matches pattern u None c.
Proof.
  unfold VideoProcessor.looksLikeFactualClaim. rewrite existsb_exists. split.
  - intros (pattern & I & T). apply RegExp_test_iff in T.
    destruct T as (pre & u & post & c & E & M). exists pattern, pre, u, post, c. auto.
  - intros (pattern & pre & u & post & c & I & E & M). exists pattern. split; [exact I|].
    apply RegExp_test_iff. exists pre, u, post, c. auto.
Qed.

Lemma Alts_intro (l : list regex) (r : regex) (u : list ascii) (c c' : Capture) :
  In r l -> Matches r u c c' -> Matches (Alts l) u c c'.
Proof.
  induction l as [|a l IH]; intros I M; [destruct I|].
  destruct l as [|b l].
  - destruct I as [->|[]]. exact M.
  - change (Alts (a :: b :: l)) with (Alt a (Alts (b :: l))).
    destruct I as [->|I]; [now apply M_AltL|apply M_AltR; now apply IH].
Qed.

Lemma Alts_elim (l : list regex) (u : list ascii) (c c' : Capture) :
  Matches (Alts l) u c c' -> exists r, In r l /\ Matches r u c c'.
Proof.
  induction l as [|a l IH]; intros M.
  - simpl in M. inversion M; discriminate.
  - destruct l as [|b l].
    + exists a. split; [now left|exact M].
    + change (Alts (a :: b :: l)) with (Alt a (Alts (b :: l))) in M.
      inversion M; subst.
      * exists a. split; [now left|assumption].
      * destruct IH as (r & I & Mr); [assumption|]. exists r. split; [now right|exact Mr].
Qed.

Ltac pick_pattern n leaf :=
  exists (nth n VideoProcessor.factualPatterns Eps); eexists;
  split; [cbn [nth VideoProcessor.factualPatterns In]; tauto|];
  cbn [nth VideoProcessor.factualPatterns]; eapply M_Group;
  eapply Alts_intro; [|apply leaf];
  solve [cbn [In]; repeat first [left; reflexivity | right]].

(** A keyword, read in any case, is matched by one of the patterns. *)
Lemma keyword_matched (w : string) (u : list ascii) :
  In w factual_keywords ->
  map lower_char u = list_ascii_of_string w ->
  exists pattern c, In pattern VideoProcessor.factualPatterns /\ Matches pattern u None c.
Proof.
  intros I E.
  assert (L : forall c, Matches (Lit_i w) u c c).
  { intros c. apply Matches_Lit_i_intro. rewrite E.
    repeat (destruct I as [<-|I]; [reflexivity|]). destruct I. }
  assert (S : forall c, Matches (Seq (Lit_i w) (Opt (Lit_i "s"))) u c c).
  { intros c. rewrite <- (app_nil_r u). apply M_Seq with c; [apply L|].
    apply M_AltR. constructor. }
  unfold factual_keywords in I. cbn [In] in I.
  repeat (destruct I as [<-|I];
          [ first [ pick_pattern 1%nat L | pick_pattern 1%nat S
                  | pick_pattern 2%nat L | pick_pattern 2%nat S
                  | pick_pattern 3%nat L ] |]).
  destruct I.
Qed.

Lemma keyword_leaf (w : string) (r : regex) (u : list ascii) (c c' : Capture) :
  r = Lit_i w \/ r = Seq (Lit_i w) (Opt (Lit_i "s")) ->
  Matches r u c c' ->
  exists u1 u2, u = (u1 ++ u2)%list /\ map lower_char u1 = map lower_char (list_ascii_of_string w).
Proof.
  intros [->| ->] M.
  - apply Matches_Lit_i_elim in M. exists u, []. now rewrite app_nil_r.
  - inversion M as [| |r1 r2 u1 u2 c0 c1 c2 M1 M2| | | | |]; subst.
    apply Matches_Lit_i_elim in M1. exists u1, u2. tauto.
Qed.

Lemma Group_elim (r : regex) (u : list ascii) (c c' : Capture) :
  Matches (Group r) u c c' -> exists c1, Matches r u c c1.
Proof.
  intros M. inversion M; subst. eauto.
Qed.

(** What a pattern matches holds a keyword, or begins with a digit. *)
Lemma pattern_matched (pattern : regex) (u : list ascii) (c c' : Capture) :
  In pattern VideoProcessor.factualPatterns ->
  Matches pattern u c c' ->
  (exists w u1 u2, In w factual_keywords /\ u = (u1 ++ u2)%list
                   /\ map lower_char u1 = list_ascii_of_string w)
  \/ (exists d u', u = d :: u' /\ isDigit d = true).
Proof.
  intros I M. unfold VideoProcessor.factualPatterns in I. cbn [In] in I.
  destruct I as [<-|I].
  { right.
    assert (D : forall r v c0 c1, Matches (Seq (Plus (Chr isDigit)) r) v c0 c1 ->
                                  exists d u', v = d :: u' /\ isDigit d = true).
    { intros r v c0 c1 Mv.
      inversion Mv as [| |r1 r2 u1 u2 c2 c3 c4 M1 M2| | | | |]; subst.
      unfold Plus in M1.
      inversion M1 as [| |r1 r2 u3 u4 c5 c6 c7 M3 M4| | | | |]; subst.
      inversion M3; subst. eexists; eexists. split; [reflexivity|assumption]. }
    inversion M; subst; eapply D; eauto. }
  left.
  assert (K : forall w r, In w factual_keywords ->
                r = Lit_i w \/ r = Seq (Lit_i w) (Opt (Lit_i "s")) ->
                forall c0 c1, Matches r u c0 c1 ->
                exists w u1 u2, In w factual_keywords /\ u = (u1 ++ u2)%list
                                /\ map lower_char u1 = list_ascii_of_string w).
  { intros w r Iw Hr c0 c1 Mr.
    destruct (keyword_leaf w r u c0 c1 Hr Mr) as (u1 & u2 & E & L).
    exists w, u1, u2. repeat split; trivial. rewrite L.
    unfold factual_keywords in Iw. cbn [In] in Iw.
    repeat (destruct Iw as [<-|Iw]; [reflexivity|]). destruct Iw. }
  repeat (destruct I as [<-|I];
          [ apply Group_elim in M; destruct M as (c1 & MA);
            apply Alts_elim in MA; destruct MA as (r & Ir & Mr); cbn [In] in Ir;
            repeat (destruct Ir as [<-|Ir];
                    [ match goal with
                      | H : Matches (Lit_i ?w) _ _ _ |- _ =>
                          apply (K w (Lit_i w)) in H;
                          [exact H|unfold factual_keywords; cbn [In]; tauto|now left]
                      | H : Matches (Seq (Lit_i ?w) ?o) _ _ _ |- _ =>
                          apply (K w (Seq (Lit_i w) o)) in H;
                          [exact H|unfold factual_keywords; cbn [In]; tauto|now right]
                      end |]);
            destruct Ir |]).
  destruct I.
Qed.

(** X10.  Whether a sentence looks like a factual claim is a matter of what
    it holds, wherever it holds it: any of seventeen keywords in any
    case, be it inside a longer word, or a digit before a percent sign,
    is enough; and a sentence that holds no keyword and no digit never
    looks like one.  So "everyone" passes for "every", while "study"
    does not pass for "studies". *)
Theorem looksLikeFactualClaim_by_keyword_or_digit :
  (forall (s w : string),
      In w factual_keywords -> includes (toLowerCase s) w = true ->
      VideoProcessor.looksLikeFactualClaim s = true)
  /\ (forall (s : string) (d : ascii),
        isDigit d = true -> includes s (String d "%") = true ->
        VideoProcessor.looksLikeFactualClaim s = true)
  /\ (forall (s : string),
        VideoProcessor.looksLikeFactualClaim s = true ->
        (exists w, In w factual_keywords /\ includes (toLowerCase s) w = true)
        \/ (exists d, In d (list_ascii_of_string s) /\ isDigit d = true))
  /\ VideoProcessor.looksLikeFactualClaim "Welcome to today's video, everyone" = true
  /\ VideoProcessor.looksLikeFactualClaim "A new study of the sea" = false.
Proof.
  split; [|split; [|split; [|split; vm_compute; reflexivity]]].
  - intros s w I H. apply includes_lower_iff in H.
    destruct H as (pre & u & post & E & Hu).
    destruct (keyword_matched w u I Hu) as (pattern & c & Ip & M).
    apply looksLikeFactualClaim_iff. exists pattern, pre, u, post, c. auto.
  - intros s d D H. apply includes_iff in H. destruct H as (pre & post & ->).
    apply looksLikeFactualClaim_iff.
    exists (nth 0 VideoProcessor.factualPatterns Eps),
           (list_ascii_of_string pre), [d; "%"%char], (list_ascii_of_string post), None.
    split; [cbn [nth VideoProcessor.factualPatterns In]; tauto|].
    split; [rewrite !list_ascii_app; reflexivity|].
    cbn [nth VideoProcessor.factualPatterns]. apply M_AltL.
    change [d; "%"%char] with ([d] ++ ["%"%char])%list. apply M_Seq with None.
    + unfold Plus. rewrite <- (app_nil_r [d]). apply M_Seq with None; constructor. exact D.
    + apply Matches_Lit_i_intro. reflexivity.
  - intros s H. apply looksLikeFactualClaim_iff in H.
    destruct H as (pattern & pre & u & post & c & I & E & M).
    destruct (pattern_matched pattern u None c I M)
      as [(w & u1 & u2 & Iw & -> & L)|(d & u' & -> & D)].
    + left. exists w. split; [exact Iw|]. apply includes_lower_iff.
      exists pre, u1, (u2 ++ post)%list. split; [|exact L].
      rewrite E, <- !app_assoc. reflexivity.
    + right. exists d. split; [|exact D]. rewrite E.
      apply in_or_app. right. now left.
Qed.

(** ** VideoProcessor: the claims read off the sentences *)

Lemma fallback_claims_spec (l : list string) :
  forall (i : nat),
    (i + List.length l <= 4)%nat ->
    (List.length (VideoProcessor.fallback_claims i l) <= List.length l)%nat
    /\ Forall (fun c =>
                 VideoProcessor.looksLikeFactualClaim (VideoProcessor.claim_text c) = true
                 /\ (exists s, In s l /\ VideoProcessor.claim_text c = trim s)
                 /\ In (VideoProcessor.claim_timestamp c) ["0:00"; "30:15"; "60:30"; "90:45"])
              (VideoProcessor.fallback_claims i l).
Proof.
  induction l as [|s l IH]; intros i Hi; simpl.
  - split; [lia|constructor].
  - simpl in Hi. destruct (IH (S i)) as [L F]; [lia|].
    assert (F' : Forall (fun c =>
                 VideoProcessor.looksLikeFactualClaim (VideoProcessor.claim_text c) = true
                 /\ (exists s0, In s0 (s :: l) /\ VideoProcessor.claim_text c = trim s0)
                 /\ In (VideoProcessor.claim_timestamp c) ["0:00"; "30:15"; "60:30"; "90:45"])
              (VideoProcessor.fallback_claims (S i) l)).
    { eapply Forall_impl; [|exact F]. intros c (A & (s0 & I0 & E0) & B).
      repeat split; trivial. exists s0. split; [now right|exact E0]. }
    destruct (VideoProcessor.looksLikeFactualClaim (trim s)) eqn:Looks; simpl.
    + split; [lia|]. constructor; [|exact F']. simpl.
      split; [exact Looks|]. split; [exists s; split; [now left|reflexivity]|].
      destruct i as [|[|[|[|i]]]]; [| | | |lia]; vm_compute; tauto.
    + split; [lia|exact F'].
Qed.

(** X11.  [extractClaimsFallback] always gives between one and four claims.
    Either it is the one placeholder claim, or every claim is a sentence
    of the transcript, trimmed, of more than ten characters, that looks
    like a factual claim, stamped with one of four fixed times. *)
Theorem extractClaimsFallback_one_to_four :
  forall (transcript : string),
    let claims := VideoProcessor.extractClaimsFallback transcript in
    (1 <= List.length claims <= 4)%nat
    /\ (claims = [placeholder_claim]
        \/ Forall (fun c =>
                     VideoProcessor.looksLikeFactualClaim (VideoProcessor.claim_text c) = true
                     /\ (10 < String.length (VideoProcessor.claim_text c))%nat
                     /\ (exists s, In s (split_sentences transcript)
                                   /\ VideoProcessor.claim_text c = trim s)
                     /\ In (VideoProcessor.claim_timestamp c)
                           ["0:00"; "30:15"; "60:30"; "90:45"])
                  claims).
Proof.
  intros transcript. unfold VideoProcessor.extractClaimsFallback.
  set (sentences := filter (fun s => (10 <? String.length (trim s))%nat)
                           (split_sentences transcript)).
  assert (L4 : (List.length (firstn 4 sentences) <= 4)%nat) by apply firstn_le_length.
  destruct (fallback_claims_spec (firstn 4 sentences) 0) as [L F]; [lia|].
  cbv zeta.
  destruct (0 <? List.length (VideoProcessor.fallback_claims 0 (firstn 4 sentences)))%nat eqn:N.
  - apply Nat.ltb_lt in N. split; [lia|]. right.
    eapply Forall_impl; [|exact F]. intros c (A & (s & I & E) & B).
    apply In_firstn in I. apply filter_In in I. destruct I as [I Len].
    apply Nat.ltb_lt in Len.
    repeat split; trivial; [now rewrite E|exists s; split; assumption].
  - split; [simpl; lia|]. left. reflexivity.
Qed.

(** ** VideoProcessor: the summary of the verdicts *)

Lemma Z_toString_of_Z (z : Z) : Number_toString (of_Z z) = Z_toString z.
Proof.
  unfold Number_toString, of_Z. now rewrite Qfloor_Z.
Qed.

Lemma count_accurate {C} (verdict_of : C -> string) (claims : list C) :
  Nat.add (List.length (filter (fun x => x =? "True") (map verdict_of claims)))
          (List.length (filter (fun x => x =? "Mostly True") (map verdict_of claims)))
  = List.length (filter (fun c => (verdict_of c =? "True") || (verdict_of c =? "Mostly True"))
                        claims).
Proof.
  induction claims as [|c l IH]; simpl; [reflexivity|].
  destruct (verdict_of c =? "True") eqn:T.
  - apply String.eqb_eq in T. rewrite T. simpl. now rewrite <- IH.
  - destruct (verdict_of c =? "Mostly True"); simpl; rewrite <- IH; lia.
Qed.

Lemma rounded_percentage (a t : nat) :
  (0 < t)%nat -> (a <= t)%nat ->
  exists p : Z,
    Math_round (mul (div (of_nat a) (of_nat t)) (Num 100%Q)) = of_Z p
    /\ (0 <= p <= 100)%Z
    /\ (a = t -> p = 100%Z)
    /\ (a = 0%nat -> p = 0%Z).
Proof.
  intros Ht Ha. unfold div, of_nat, of_Z.
  assert (Tpos : (0 < inject_Z (Z.of_nat t))%Q).
  { rewrite <- (Zlt_Qlt 0). lia. }
  assert (E0 : Qeq_bool (inject_Z (Z.of_nat t)) 0 = false).
  { destruct (Qeq_bool (inject_Z (Z.of_nat t)) 0) eqn:E; [|reflexivity].
    apply Qeq_bool_eq in E. rewrite E in Tpos. discriminate. }
  rewrite E0. unfold num, mul, num, Math_round, of_Z.
  set (y := Qred (Qred (inject_Z (Z.of_nat a) / inject_Z (Z.of_nat t)) * 100)).
  assert (Y : (y == inject_Z (Z.of_nat a) / inject_Z (Z.of_nat t) * 100)%Q).
  { unfold y. now rewrite !Qred_correct. }
  assert (Lo : (0 <= inject_Z (Z.of_nat a) / inject_Z (Z.of_nat t))%Q).
  { apply Qle_shift_div_l; [exact Tpos|]. rewrite Qmult_0_l.
    rewrite <- (Zle_Qle 0). lia. }
  assert (Hi : (inject_Z (Z.of_nat a) / inject_Z (Z.of_nat t) <= 1)%Q).
  { apply Qle_shift_div_r; [exact Tpos|]. rewrite Qmult_1_l.
    rewrite <- Zle_Qle. lia. }
  exists (Qfloor (y + (1 # 2))). split; [reflexivity|]. split; [|split].
  - split.
    + change 0%Z with (Qfloor 0). apply Qfloor_resp_le. rewrite Y.
      apply Qle_trans with (0 * 100 + 0)%Q; [discriminate|].
      apply Qplus_le_compat; [|discriminate].
      apply Qmult_le_compat_r; [exact Lo|discriminate].
    + change 100%Z with (Qfloor (1 * 100 + (1 # 2))). apply Qfloor_resp_le. rewrite Y.
      apply Qplus_le_compat; [|apply Qle_refl].
      apply Qmult_le_compat_r; [exact Hi|discriminate].
  - intros ->. change 100%Z with (Qfloor (1 * 100 + (1 # 2))). apply Qfloor_comp.
    rewrite Y. apply Qplus_inj_r. apply Qmult_inj_r; [discriminate|].
    unfold Qdiv. apply Qmult_inv_r. intros E. rewrite E in Tpos. discriminate.
  - intros ->. change 0%Z with (Qfloor (0 * 100 + (1 # 2))). apply Qfloor_comp.
    rewrite Y. apply Qplus_inj_r. apply Qmult_inj_r; [discriminate|].
    unfold Qdiv. apply Qmult_0_l.
Qed.

(** X12.  The summary of [calculateAccuracyDistribution] reads "No claims
    analyzed" for no claim.  Otherwise it reads "a/t claims accurate
    (p%)" where [t] counts the claims, [a] those with the verdict True
    or Mostly True, and [p] lies between 0 and 100: it is 100 when all
    are accurate and 0 when none is. *)
Theorem accuracy_summary_counts :
  forall (C : Type) (verdict_of : C -> string) (claims : list C),
    let accurate :=
      List.length (filter (fun c => (verdict_of c =? "True") || (verdict_of c =? "Mostly True"))
                          claims) in
    let total := List.length claims in
    (claims = [] ->
     VideoProcessor.calculateAccuracyDistribution verdict_of claims = "No claims analyzed")
    /\ (claims <> [] ->
        exists p : Z,
          VideoProcessor.calculateAccuracyDistribution verdict_of claims
          = (Z_toString (Z.of_nat accurate) ++ "/" ++ Z_toString (Z.of_nat total)
             ++ " claims accurate (" ++ Z_toString p ++ "%)")%string
          /\ (accurate <= total)%nat
          /\ (0 <= p <= 100)%Z
          /\ (accurate = total -> p = 100%Z)
          /\ (accurate = 0%nat -> p = 0%Z)).
Proof.
  intros C verdict_of claims. cbv zeta. split.
  - intros ->. reflexivity.
  - intros N. unfold VideoProcessor.calculateAccuracyDistribution.
    rewrite count_accurate.
    destruct (List.length claims =? 0)%nat eqn:E.
    + apply Nat.eqb_eq in E. destruct claims; [congruence|discriminate].
    + apply Nat.eqb_neq in E.
      set (accurate := List.length (filter _ claims)).
      assert (La : (accurate <= List.length claims)%nat) by apply filter_length_le.
      destruct (rounded_percentage accurate (List.length claims)) as (p & R & B & A1 & A0);
        [lia|exact La|].
      exists p. rewrite R, Z_toString_of_Z. repeat split; tauto.
Qed.

(** ** VideoProcessor: the transcript *)

(** X13.  [transcribeWithRetry] returns exactly when the host parses the
    address, and then with one of four built-in transcripts chosen by
    the host name; the turns of its loop change nothing, so a text that
    is no URL is refused after three of them.  An address on [youtu.be]
    counts as YouTube for [detectPlatform] and yet gets the default
    transcript. *)
Theorem transcribeWithRetry_by_hostname :
  forall (b : Browser) (videoUrl : string),
    match URL_parse b videoUrl with
    | Some url =>
        exists t,
          VideoProcessor.transcribeWithRetry b videoUrl = Ok t
          /\ In t [ VideoProcessor.youtube_transcript; VideoProcessor.tiktok_transcript;
                    VideoProcessor.instagram_transcript; VideoProcessor.default_transcript ]
          /\ (includes (url_hostname url) "youtube" = true ->
              t = VideoProcessor.youtube_transcript)
          /\ (includes (url_hostname url) "youtube" = false ->
              includes (url_hostname url) "tiktok" = false ->
              includes (url_hostname url) "instagram" = false ->
              t = VideoProcessor.default_transcript)
          /\ (url_hostname url = "youtu.be" ->
              VideoProcessor.detectPlatform url = "YouTube"
              /\ t = VideoProcessor.default_transcript)
    | None =>
        VideoProcessor.transcribeWithRetry b videoUrl
        = Throw (new_Error ("Transcription failed after 3 attempts: "
                            ++ "Error: Transcription failed: " ++ URL_invalid b videoUrl))
    end.
Proof.
  intros b videoUrl.
  unfold VideoProcessor.transcribeWithRetry, VideoProcessor.transcribe_loop,
    VideoProcessor.transcribeAudio, VideoProcessor.generateRealisticTranscript, new_URL.
  destruct (URL_parse b videoUrl) as [url|]; [|reflexivity].
  cbv beta iota delta [bind try_catch].
  destruct (includes (url_hostname url) "youtube") eqn:Y;
    [|destruct (includes (url_hostname url) "tiktok") eqn:T;
      [|destruct (includes (url_hostname url) "instagram") eqn:I]];
    eexists; (split; [reflexivity|]);
    (split; [cbn [In]; tauto|]);
    (split; [intros; congruence|]);
    (split; [intros; congruence|]);
    intros E; unfold VideoProcessor.detectPlatform; rewrite E in *;
    first [ vm_compute in Y; discriminate
          | vm_compute in T; discriminate
          | vm_compute in I; discriminate
          | split; reflexivity ].
Qed.

(** ** The mean of the scores *)

Lemma used_score_bounds (v : string) : ((1 # 5) <= used_score v <= 1)%Q.
Proof.
  unfold used_score, table_score.
  repeat match goal with |- context [if ?b then _ else _] => destruct b end;
    split; discriminate.
Qed.

Lemma Qsum_bounds (l : list string) :
  ((1 # 5) * inject_Z (Z.of_nat (List.length l)) <= Qsum (map used_score l)
   <= inject_Z (Z.of_nat (List.length l)))%Q.
Proof.
  induction l as [|v l [Lo Hi]].
  - simpl. split; discriminate.
  - change (Qsum (map used_score (v :: l))) with (used_score v + Qsum (map used_score l))%Q.
    replace (Z.of_nat (List.length (v :: l))) with (1 + Z.of_nat (List.length l))%Z
      by (simpl List.length; lia).
    rewrite inject_Z_plus. destruct (used_score_bounds v) as [L H]. split.
    + rewrite Qmult_plus_distr_r. apply Qplus_le_compat; [exact L|exact Lo].
    + apply Qplus_le_compat; [exact H|exact Hi].
Qed.

Lemma mean_bounds (l : list string) :
  l <> [] -> ((1 # 5) <= mean_of used_score l <= 1)%Q.
Proof.
  intros N. unfold mean_of. destruct (Qsum_bounds l) as [Lo Hi].
  assert (P : (0 < inject_Z (Z.of_nat (List.length l)))%Q).
  { rewrite <- (Zlt_Qlt 0). destruct l; [congruence|simpl; lia]. }
  split.
  - apply Qle_shift_div_l; assumption.
  - apply Qle_shift_div_r; [assumption|]. now rewrite Qmult_1_l.
Qed.

Lemma num_eq_fifth_to_one (n : number) (l : list string) :
  l <> [] -> num_eq n (Num (mean_of used_score l)) -> fifth_to_one n.
Proof.
  intros N E. destruct n as [| | |q]; try contradiction.
  exists q. split; [reflexivity|]. simpl in E. rewrite E. now apply mean_bounds.
Qed.

(** For a sequence that is not empty the three aggregators give a
    number between 0.2 and 1. *)
Lemma aggregators_bounds (claims : list VideoProcessor.VerifiedClaim)
  (segs : list AnalyzedSegment) :
  (claims <> [] -> fifth_to_one (VideoProcessor.calculateOverallScore claims))
  /\ (segs <> [] ->
      fifth_to_one (fst (RealVideoProcessor.synthesizeInsights segs))
      /\ fifth_to_one (fst (FreeVideoProcessor.generateInsights segs))).
Proof.
  destruct (aggregators_mean claims segs) as [C S]. split.
  - intros N. eapply num_eq_fifth_to_one; [|exact (C N)]. destruct claims; [congruence|discriminate].
  - intros N. destruct (S N) as [R F].
    assert (M : map (fun s => verdict (analysis s)) segs <> []).
    { destruct segs; [congruence|discriminate]. }
    split; eapply num_eq_fifth_to_one; eauto.
Qed.

(** A score between 0.2 and 1 shows as a percentage between 20 and
    100. *)
Lemma percentage_of_fifth_to_one (n : number) :
  fifth_to_one n -> exists p : Z, percentage n = of_Z p /\ (20 <= p <= 100)%Z.
Proof.
  intros (q & -> & Lo & Hi). unfold percentage, mul, num, Math_round.
  eexists. split; [reflexivity|]. rewrite Qred_correct. split.
  - rewrite <- (Qfloor_Z 20). apply Qfloor_resp_le.
    apply Qle_trans with ((1 # 5) * 100 + (1 # 2))%Q; [discriminate|].
    apply Qplus_le_compat; [|apply Qle_refl].
    apply Qmult_le_compat_r; [exact Lo|discriminate].
  - apply Z.le_trans with (Qfloor (1 * 100 + (1 # 2))); [|discriminate].
    apply Qfloor_resp_le. apply Qplus_le_compat; [|apply Qle_refl].
    apply Qmult_le_compat_r; [exact Hi|discriminate].
Qed.

(** ** The orchestrator of FreeVideoProcessor *)

Ltac free_simpl :=
  lazy [FreeVideoProcessor.processVideoFree FreeVideoProcessor.processVideoFree_try
        FreeVideoProcessor.handleError
        bindR update lift ret now Date_now updateStep mark_error
        FreeVideoProcessor.initial_steps pending_step
        update_first step status progress message steps emitted reads
        String.eqb Ascii.eqb Bool.eqb Status_eqb app fst snd negb last
        FreeVideoProcessor.result_steps FreeVideoProcessor.platform
        FreeVideoProcessor.title FreeVideoProcessor.duration
        FreeVideoProcessor.fullTranscript FreeVideoProcessor.segmentedAnalysis
        FreeVideoProcessor.overallAccuracy FreeVideoProcessor.keyFindings
        FreeVideoProcessor.processingTime FreeVideoProcessor.videoId].

Lemma Free_getVideoInfo_ok (h : Host) (b : Browser)
  (ytdl_getInfo : string -> Result FreeVideoProcessor.VideoDetails)
  (videoUrl hostname : string) :
  URL_hostname h videoUrl = Ok hostname ->
  exists info,
    FreeVideoProcessor.getVideoInfo h b ytdl_getInfo videoUrl = Ok info
    /\ In (FreeVideoProcessor.info_platform info) known_platforms
    /\ (FreeVideoProcessor.info_platform info = "YouTube"
        <-> includes hostname "youtube" || includes hostname "youtu.be" = true).
Proof.
  intros H. unfold FreeVideoProcessor.getVideoInfo. rewrite H.
  cbv beta iota delta [bind try_catch].
  destruct (includes hostname "youtube" || includes hostname "youtu.be").
  - destruct (ytdl_getInfo videoUrl); eexists; (split; [reflexivity|]);
      simpl; split; tauto.
  - destruct (includes hostname "tiktok"); [|destruct (includes hostname "instagram")];
      eexists; (split; [reflexivity|]); simpl; (split; [tauto|]);
      split; intros; discriminate.
Qed.

Lemma Free_download_ok (h : Host) (videoUrl hostname : string) :
  URL_hostname h videoUrl = Ok hostname ->
  exists n, FreeVideoProcessor.downloadAndExtractAudio h videoUrl = Ok n.
Proof.
  intros H. unfold FreeVideoProcessor.downloadAndExtractAudio. rewrite H.
  cbv beta iota delta [bind try_catch].
  destruct (_ || _); eexists; reflexivity.
Qed.

Lemma Free_prepared_six :
  List.length (FreeVideoProcessor.prepareSegments FreeVideoProcessor.mockTranscription) = 6%nat.
Proof.
  vm_compute. reflexivity.
Qed.

(** A run of [processVideoFree] on an address the host parses, in
    the exact numbers of the model. *)
Lemma Free_run :
  forall (h : Host) (b : Browser)
         (ytdl_getInfo : string -> Result FreeVideoProcessor.VideoDetails)
         (fetch : Prompt -> Result Response) (clock : Clock)
         (videoUrl hostname : string),
    URL_hostname h videoUrl = Ok hostname ->
    let r := fst (FreeVideoProcessor.processVideoFree h b ytdl_getInfo fetch clock videoUrl) in
    let trace :=
      snd (FreeVideoProcessor.processVideoFree h b ytdl_getInfo fetch clock videoUrl) in
    map status (FreeVideoProcessor.result_steps r)
    = [completed; completed; completed; completed; completed; completed]
    /\ map step (FreeVideoProcessor.result_steps r)
       = map step FreeVideoProcessor.initial_steps
    /\ List.length trace = 12%nat
    /\ last trace [] = FreeVideoProcessor.result_steps r
    /\ In (FreeVideoProcessor.platform r) known_platforms
    /\ FreeVideoProcessor.fullTranscript r = text_ FreeVideoProcessor.mockTranscription
    /\ map seg (FreeVideoProcessor.segmentedAnalysis r)
       = FreeVideoProcessor.prepareSegments FreeVideoProcessor.mockTranscription
    /\ List.length (FreeVideoProcessor.segmentedAnalysis r) = 6%nat
    /\ fifth_to_one (FreeVideoProcessor.overallAccuracy r)
    /\ map message (skipn 5 (FreeVideoProcessor.result_steps r))
       = [("✅ Analysis complete! Overall accuracy: "
           ++ Number_toString (percentage (FreeVideoProcessor.overallAccuracy r))
           ++ "%")%string]
    /\ List.length (FreeVideoProcessor.keyFindings r) = 5%nat
    /\ FreeVideoProcessor.videoId r = Z_toString (clock 1%nat)
    /\ FreeVideoProcessor.processingTime r = processingTime_of h (clock 0%nat) (clock 2%nat).
Proof.
  intros h b ytdl_getInfo fetch clock videoUrl hostname H.
  destruct (Free_getVideoInfo_ok h b ytdl_getInfo videoUrl hostname H) as (info & Hi & Hp & _).
  destruct (Free_download_ok h videoUrl hostname H) as (n & Hd).
  assert (Hs : map seg (FreeVideoProcessor.analyzeWithKimi h fetch
                          (FreeVideoProcessor.prepareSegments FreeVideoProcessor.mockTranscription))
               = FreeVideoProcessor.prepareSegments FreeVideoProcessor.mockTranscription).
  { unfold FreeVideoProcessor.analyzeWithKimi. rewrite map_map.
    rewrite <- (map_id (FreeVideoProcessor.prepareSegments _)) at 2.
    apply map_ext. intros s. destruct (FreeVideoProcessor.analyzeSegmentWithRealKimi _ _ _);
      reflexivity. }
  assert (Hl : List.length (FreeVideoProcessor.analyzeWithKimi h fetch
                          (FreeVideoProcessor.prepareSegments FreeVideoProcessor.mockTranscription))
               = 6%nat).
  { unfold FreeVideoProcessor.analyzeWithKimi. rewrite length_map. apply Free_prepared_six. }
  unfold FreeVideoProcessor.processVideoFree, FreeVideoProcessor.processVideoFree_try.
  rewrite Hi, Hd. free_simpl.
  repeat split; trivial.
  apply (aggregators_bounds []). intros E. rewrite E in Hl. discriminate.
Qed.


(** X14.  [processVideoFree] completes for every address the host parses,
    whatever the video service and the oracle answer: the six steps end
    completed after twelve snapshots, the Report holds the built-in
    transcript cut into six sentences, each with a judgment, and five
    findings, and the overall accuracy shows in the message of the last
    step as a percentage between 20 and 100. *)
Theorem processVideoFree_completes :
  forall (h : Host) (b : Browser)
         (ytdl_getInfo : string -> Result FreeVideoProcessor.VideoDetails)
         (fetch : Prompt -> Result Response) (clock : Clock)
         (videoUrl hostname : string),
    URL_hostname h videoUrl = Ok hostname ->
    let r := fst (FreeVideoProcessor.processVideoFree h b ytdl_getInfo fetch clock videoUrl) in
    let trace :=
      snd (FreeVideoProcessor.processVideoFree h b ytdl_getInfo fetch clock videoUrl) in
    map status (FreeVideoProcessor.result_steps r)
    = [completed; completed; completed; completed; completed; completed]
    /\ map step (FreeVideoProcessor.result_steps r)
       = map step FreeVideoProcessor.initial_steps
    /\ List.length trace = 12%nat
    /\ last trace [] = FreeVideoProcessor.result_steps r
    /\ In (FreeVideoProcessor.platform r) known_platforms
    /\ FreeVideoProcessor.fullTranscript r = text_ FreeVideoProcessor.mockTranscription
    /\ map seg (FreeVideoProcessor.segmentedAnalysis r)
       = FreeVideoProcessor.prepareSegments FreeVideoProcessor.mockTranscription
    /\ List.length (FreeVideoProcessor.segmentedAnalysis r) = 6%nat
    /\ (exists p : Z,
           percentage (FreeVideoProcessor.overallAccuracy r) = of_Z p
           /\ (20 <= p <= 100)%Z
           /\ map message (skipn 5 (FreeVideoProcessor.result_steps r))
              = [("✅ Analysis complete! Overall accuracy: " ++ Z_toString p ++ "%")%string])
    /\ List.length (FreeVideoProcessor.keyFindings r) = 5%nat
    /\ FreeVideoProcessor.videoId r = Z_toString (clock 1%nat)
    /\ FreeVideoProcessor.processingTime r = processingTime_of h (clock 0%nat) (clock 2%nat).
Proof.
  intros h b ytdl_getInfo fetch clock videoUrl hostname H.
  pose proof (Free_run h b ytdl_getInfo fetch clock videoUrl hostname H) as R.
  cbv zeta in R |- *.
  destruct R as (R1 & R2 & R3 & R4 & R5 & R6 & R7 & R8 & R9 & R10 & R11 & R12 & R13).
  destruct (percentage_of_fifth_to_one _ R9) as (p & Hp & Hb).
  repeat split; trivial.
  exists p. split; [exact Hp|]. split; [exact Hb|].
  rewrite R10, Hp. now rewrite Number_toString_of_Z.
Qed.

Lemma free_run_on_a_video :
  URL_hostname Examples.host Examples.youtube_url = Ok "www.youtube.com"
  /\ let r := fst (FreeVideoProcessor.processVideoFree Examples.host Examples.browser
                     Examples.ytdl_getInfo Examples.offline_fetch Examples.clock_1s
                     Examples.youtube_url) in
     map status (FreeVideoProcessor.result_steps r)
     = [completed; completed; completed; completed; completed; completed]
     /\ List.length (FreeVideoProcessor.segmentedAnalysis r) = 6%nat.
Proof.
  split; [reflexivity|].
  pose proof (processVideoFree_completes Examples.host Examples.browser
                Examples.ytdl_getInfo Examples.offline_fetch Examples.clock_1s
                Examples.youtube_url "www.youtube.com" eq_refl) as H.
  cbv zeta in H. cbv zeta. split; [apply H|]. apply H.
Defined.

Lemma Free_failed_run :
  forall (h : Host) (b : Browser)
         (ytdl_getInfo : string -> Result FreeVideoProcessor.VideoDetails)
         (fetch : Prompt -> Result Response) (clock : Clock)
         (videoUrl : string) (e : Error),
    URL_hostname h videoUrl = Throw e ->
    let r := fst (FreeVideoProcessor.processVideoFree h b ytdl_getInfo fetch clock videoUrl) in
    let trace :=
      snd (FreeVideoProcessor.processVideoFree h b ytdl_getInfo fetch clock videoUrl) in
    FreeVideoProcessor.platform r = "Error"
    /\ FreeVideoProcessor.keyFindings r
       = [ ("Processing failed: Failed to get video info: " ++ Error_toString e)%string;
           "Please try again with a different video URL" ]
    /\ FreeVideoProcessor.overallAccuracy r = Num 0%Q
    /\ FreeVideoProcessor.segmentedAnalysis r = []
    /\ map status (FreeVideoProcessor.result_steps r)
       = [error; pending; pending; pending; pending; pending]
    /\ map message (firstn 1 (FreeVideoProcessor.result_steps r))
       = [("❌ Failed to get video info: " ++ Error_toString e)%string]
    /\ List.length trace = 2%nat
    /\ last trace [] = FreeVideoProcessor.result_steps r
    /\ FreeVideoProcessor.videoId r = Z_toString (clock 3%nat)
    /\ FreeVideoProcessor.processingTime r = processingTime_of h (clock 0%nat) (clock 2%nat).
Proof.
  intros h b ytdl_getInfo fetch clock videoUrl e H.
  unfold FreeVideoProcessor.processVideoFree, FreeVideoProcessor.processVideoFree_try,
    FreeVideoProcessor.getVideoInfo.
  rewrite H.
  lazy [FreeVideoProcessor.handleError try_catch bind
        bindR update lift ret now Date_now updateStep mark_error
        FreeVideoProcessor.initial_steps pending_step
        update_first step status progress message steps emitted reads
        String.eqb Ascii.eqb Bool.eqb Status_eqb app fst snd map last List.length firstn
        FreeVideoProcessor.result_steps FreeVideoProcessor.platform
        FreeVideoProcessor.segmentedAnalysis
        FreeVideoProcessor.overallAccuracy FreeVideoProcessor.keyFindings
        FreeVideoProcessor.processingTime FreeVideoProcessor.videoId
        new_Error JS.message].
  repeat split.
Qed.


(** X15.  [processVideoFree] fails on a text the host does not parse, and at
    its first step: the step is left in error with the message, the
    five others pending, after two snapshots; the Report has accuracy 0,
    no segment, and two findings, the message and the advice to try
    another address. *)
Theorem processVideoFree_on_invalid_url :
  forall (h : Host) (b : Browser)
         (ytdl_getInfo : string -> Result FreeVideoProcessor.VideoDetails)
         (fetch : Prompt -> Result Response) (clock : Clock)
         (videoUrl : string) (e : Error),
    URL_hostname h videoUrl = Throw e ->
    let r := fst (FreeVideoProcessor.processVideoFree h b ytdl_getInfo fetch clock videoUrl) in
    let trace :=
      snd (FreeVideoProcessor.processVideoFree h b ytdl_getInfo fetch clock videoUrl) in
    FreeVideoProcessor.platform r = "Error"
    /\ FreeVideoProcessor.keyFindings r
       = [ ("Processing failed: Failed to get video info: " ++ Error_toString e)%string;
           "Please try again with a different video URL" ]
    /\ FreeVideoProcessor.overallAccuracy r = Num 0%Q
    /\ FreeVideoProcessor.segmentedAnalysis r = []
    /\ map status (FreeVideoProcessor.result_steps r)
       = [error; pending; pending; pending; pending; pending]
    /\ map message (firstn 1 (FreeVideoProcessor.result_steps r))
       = [("❌ Failed to get video info: " ++ Error_toString e)%string]
    /\ List.length trace = 2%nat
    /\ last trace [] = FreeVideoProcessor.result_steps r
    /\ FreeVideoProcessor.videoId r = Z_toString (clock 3%nat)
    /\ FreeVideoProcessor.processingTime r = processingTime_of h (clock 0%nat) (clock 2%nat).
Proof.
  exact Free_failed_run.
Qed.

Lemma free_run_on_no_url :
  URL_hostname Examples.host "not a url" = Throw (new_TypeError "Invalid URL")
  /\ FreeVideoProcessor.keyFindings
       (fst (FreeVideoProcessor.processVideoFree Examples.host Examples.browser
               Examples.ytdl_getInfo Examples.offline_fetch Examples.clock_1s "not a url"))
     = [ "Processing failed: Failed to get video info: TypeError: Invalid URL";
         "Please try again with a different video URL" ].
Proof.
  split; [reflexivity|].
  apply (processVideoFree_on_invalid_url Examples.host Examples.browser
           Examples.ytdl_getInfo Examples.offline_fetch Examples.clock_1s "not a url"
           (new_TypeError "Invalid URL") eq_refl).
Defined.

(** ** The orchestrator of RealVideoProcessor, on an address *)

Lemma Real_metadata_ok (h : Host) (videoUrl hostname : string) :
  URL_hostname h videoUrl = Ok hostname ->
  exists metadata,
    RealVideoProcessor.extractVideoMetadata h videoUrl = Ok metadata
    /\ In (RealVideoProcessor.meta_platform metadata) known_platforms.
Proof.
  intros H. unfold RealVideoProcessor.extractVideoMetadata. rewrite H.
  cbv beta iota delta [bind try_catch].
  destruct (_ || _); [|destruct (includes hostname "tiktok");
                        [|destruct (includes hostname "instagram")]];
    eexists; (split; [reflexivity|]); simpl; tauto.
Qed.

Lemma Real_prepared_six :
  List.length (RealVideoProcessor.prepareTranscriptSegments RealVideoProcessor.mockTranscription)
  = 6%nat.
Proof.
  vm_compute. reflexivity.
Qed.

(** A run of [processVideoReal] on an address the host parses, in
    the exact numbers of the model. *)
Lemma Real_run :
  forall (h : Host) (axios_post : Prompt -> Result value) (clock : Clock)
         (videoUrl hostname : string),
    URL_hostname h videoUrl = Ok hostname ->
    let r := fst (RealVideoProcessor.processVideoReal h axios_post clock videoUrl) in
    let trace := snd (RealVideoProcessor.processVideoReal h axios_post clock videoUrl) in
    map status (RealVideoProcessor.result_steps r)
    = [completed; completed; completed; completed; completed; completed]
    /\ map step (RealVideoProcessor.result_steps r)
       = map step RealVideoProcessor.initial_steps
    /\ List.length trace = 12%nat
    /\ last trace [] = RealVideoProcessor.result_steps r
    /\ In (RealVideoProcessor.platform r) known_platforms
    /\ RealVideoProcessor.fullTranscript r = text_ RealVideoProcessor.mockTranscription
    /\ map seg (RealVideoProcessor.segmentedAnalysis r)
       = RealVideoProcessor.prepareTranscriptSegments RealVideoProcessor.mockTranscription
    /\ List.length (RealVideoProcessor.segmentedAnalysis r) = 6%nat
    /\ map sentence (map seg (firstn 2 (skipn 3 (RealVideoProcessor.segmentedAnalysis r))))
       = [ "Climate research has also shown that global temperatures have increased by 1";
           "1 degrees Celsius since pre-industrial times, with human activities being the primary cause" ]
    /\ fifth_to_one (RealVideoProcessor.overallAccuracy r)
    /\ map message (skipn 5 (RealVideoProcessor.result_steps r))
       = [("✅ Analysis complete! Overall accuracy: "
           ++ Number_toString (percentage (RealVideoProcessor.overallAccuracy r))
           ++ "%")%string]
    /\ List.length (RealVideoProcessor.keyFindings r) = 4%nat
    /\ RealVideoProcessor.videoId r = Z_toString (clock 1%nat)
    /\ RealVideoProcessor.processingTime r = processingTime_of h (clock 0%nat) (clock 2%nat).
Proof.
  intros h axios_post clock videoUrl hostname H.
  destruct (Real_metadata_ok h videoUrl hostname H) as (metadata & Hm & Hp).
  assert (Hs : map seg (RealVideoProcessor.analyzeSegmentsWithKimi h axios_post
                          (RealVideoProcessor.prepareTranscriptSegments
                             RealVideoProcessor.mockTranscription))
               = RealVideoProcessor.prepareTranscriptSegments
                   RealVideoProcessor.mockTranscription).
  { unfold RealVideoProcessor.analyzeSegmentsWithKimi. rewrite map_map.
    rewrite <- (map_id (RealVideoProcessor.prepareTranscriptSegments _)) at 2.
    apply map_ext. intros s. destruct (RealVideoProcessor.analyzeSegmentWithKimi _ _ _);
      reflexivity. }
  assert (Hl : List.length (RealVideoProcessor.analyzeSegmentsWithKimi h axios_post
                          (RealVideoProcessor.prepareTranscriptSegments
                             RealVideoProcessor.mockTranscription))
               = 6%nat).
  { unfold RealVideoProcessor.analyzeSegmentsWithKimi. rewrite length_map.
    apply Real_prepared_six. }
  unfold RealVideoProcessor.processVideoReal, RealVideoProcessor.processVideoReal_try.
  rewrite Hm.
  lazy [bindR update lift ret now Date_now updateStep mark_error
        RealVideoProcessor.initial_steps pending_step
        update_first step status progress message steps emitted reads
        String.eqb Ascii.eqb Bool.eqb Status_eqb app fst snd negb last
        RealVideoProcessor.result_steps RealVideoProcessor.platform
        RealVideoProcessor.title RealVideoProcessor.duration
        RealVideoProcessor.fullTranscript RealVideoProcessor.segmentedAnalysis
        RealVideoProcessor.overallAccuracy RealVideoProcessor.keyFindings
        RealVideoProcessor.processingTime RealVideoProcessor.videoId].
  repeat split; trivial.
  - rewrite <- firstn_map, <- skipn_map, Hs. vm_compute. reflexivity.
  - apply (aggregators_bounds []). intros E. rewrite E in Hl. discriminate.
Qed.


(** X16.  [processVideoReal] completes for every address the host parses,
    whatever the oracle answers: the six steps end completed after
    twelve snapshots, and the Report holds the built-in transcript cut
    into six sentences (its five segments, one of them cut at the point
    of "1.1"), each with a judgment, and four findings, and the overall
    accuracy shows in the message of the last step as a percentage
    between 20 and 100. *)
Theorem processVideoReal_completes :
  forall (h : Host) (axios_post : Prompt -> Result value) (clock : Clock)
         (videoUrl hostname : string),
    URL_hostname h videoUrl = Ok hostname ->
    let r := fst (RealVideoProcessor.processVideoReal h axios_post clock videoUrl) in
    let trace := snd (RealVideoProcessor.processVideoReal h axios_post clock videoUrl) in
    map status (RealVideoProcessor.result_steps r)
    = [completed; completed; completed; completed; completed; completed]
    /\ map step (RealVideoProcessor.result_steps r)
       = map step RealVideoProcessor.initial_steps
    /\ List.length trace = 12%nat
    /\ last trace [] = RealVideoProcessor.result_steps r
    /\ In (RealVideoProcessor.platform r) known_platforms
    /\ RealVideoProcessor.fullTranscript r = text_ RealVideoProcessor.mockTranscription
    /\ map seg (RealVideoProcessor.segmentedAnalysis r)
       = RealVideoProcessor.prepareTranscriptSegments RealVideoProcessor.mockTranscription
    /\ List.length (RealVideoProcessor.segmentedAnalysis r) = 6%nat
    /\ map sentence (map seg (firstn 2 (skipn 3 (RealVideoProcessor.segmentedAnalysis r))))
       = [ "Climate research has also shown that global temperatures have increased by 1";
           "1 degrees Celsius since pre-industrial times, with human activities being the primary cause" ]
    /\ (exists p : Z,
           percentage (RealVideoProcessor.overallAccuracy r) = of_Z p
           /\ (20 <= p <= 100)%Z
           /\ map message (skipn 5 (RealVideoProcessor.result_steps r))
              = [("✅ Analysis complete! Overall accuracy: " ++ Z_toString p ++ "%")%string])
    /\ List.length (RealVideoProcessor.keyFindings r) = 4%nat
    /\ RealVideoProcessor.videoId r = Z_toString (clock 1%nat)
    /\ RealVideoProcessor.processingTime r = processingTime_of h (clock 0%nat) (clock 2%nat).
Proof.
  intros h axios_post clock videoUrl hostname H.
  pose proof (Real_run h axios_post clock videoUrl hostname H) as R.
  cbv zeta in R |- *.
  destruct R as (R1 & R2 & R3 & R4 & R5 & R6 & R7 & R8 & R9 & R10 & R11 & R12 & R13 & R14).
  destruct (percentage_of_fifth_to_one _ R10) as (p & Hp & Hb).
  repeat split; trivial.
  exists p. split; [exact Hp|]. split; [exact Hb|].
  rewrite R11, Hp. now rewrite Number_toString_of_Z.
Qed.

Lemma real_run_on_a_video :
  URL_hostname Examples.host Examples.youtube_url = Ok "www.youtube.com"
  /\ let r := fst (RealVideoProcessor.processVideoReal Examples.host Examples.offline_axios
                     Examples.clock_1s Examples.youtube_url) in
     map status (RealVideoProcessor.result_steps r)
     = [completed; completed; completed; completed; completed; completed]
     /\ List.length (RealVideoProcessor.segmentedAnalysis r) = 6%nat.
Proof.
  split; [reflexivity|].
  pose proof (processVideoReal_completes Examples.host Examples.offline_axios
                Examples.clock_1s Examples.youtube_url "www.youtube.com" eq_refl) as H.
  cbv zeta in H. cbv zeta. split; [apply H|]. apply H.
Defined.

(** ** The segmenters in a run *)





(** ** VideoProcessor: the claims of the oracle *)

Lemma extractClaimsFallback_length (transcript : string) :
  (1 <= List.length (VideoProcessor.extractClaimsFallback transcript) <= 4)%nat.
Proof.
  unfold VideoProcessor.extractClaimsFallback.
  set (sentences := filter (fun s => (10 <? String.length (trim s))%nat)
                           (split_sentences transcript)).
  assert (L4 : (List.length (firstn 4 sentences) <= 4)%nat) by apply firstn_le_length.
  destruct (fallback_claims_spec (firstn 4 sentences) 0) as [L _]; [lia|].
  destruct (0 <? List.length (VideoProcessor.fallback_claims 0 (firstn 4 sentences)))%nat eqn:N.
  - apply Nat.ltb_lt in N. lia.
  - simpl. lia.
Qed.

Lemma extractClaims_length (h : Host) (b : Browser)
  (fetch : VideoProcessor.ClaimsPrompt -> Result Response)
  (currentVideoUrl : option string) (transcript : string) (claims : list value) :
  VideoProcessor.extractClaims h b fetch currentVideoUrl transcript = Ok claims ->
  (List.length claims <= 5)%nat.
Proof.
  unfold VideoProcessor.extractClaims.
  match goal with |- try_catch ?body _ = _ -> _ => destruct body as [l|e] eqn:E end; simpl.
  - intros H. injection H as <-. revert E.
    repeat match goal with
           | |- bind ?x _ = _ -> _ => destruct x; simpl; [|discriminate]
           end.
    intros H. injection H as <-. apply slice_or_empty_length.
  - destruct (new_URL b _); simpl; [|discriminate].
    destruct (includes _ _); intros H; injection H as <-; simpl; lia.
Qed.

Lemma claims_loop_cases (attempt : nat -> Result (list value)) (fallback : list value) :
  (exists k claims, (k < 3)%nat /\ attempt k = Ok claims
                    /\ (forall j, (j < k)%nat -> exists e, attempt j = Throw e)
                    /\ VideoProcessor.claims_loop attempt fallback 3 0 = claims)
  \/ ((forall j, (j < 3)%nat -> exists e, attempt j = Throw e)
      /\ VideoProcessor.claims_loop attempt fallback 3 0 = fallback).
Proof.
  simpl.
  destruct (attempt 0%nat) as [c0|e0] eqn:E0.
  { left. exists 0%nat, c0. repeat split; trivial; [lia|intros j Hj; lia]. }
  destruct (attempt 1%nat) as [c1|e1] eqn:E1.
  { left. exists 1%nat, c1. repeat split; trivial; [lia|].
    intros j Hj. assert (j = 0%nat) as -> by lia. eauto. }
  destruct (attempt 2%nat) as [c2|e2] eqn:E2.
  { left. exists 2%nat, c2. repeat split; trivial; [lia|].
    intros j Hj. destruct j as [|[|j]]; [eauto|eauto|lia]. }
  right. split; [|reflexivity].
  intros j Hj. destruct j as [|[|[|j]]]; [eauto|eauto|eauto|lia].
Qed.

Lemma extractClaimsWithRetry_cases :
  forall (h : Host) (b : Browser)
         (fetch : nat -> VideoProcessor.ClaimsPrompt -> Result Response)
         (currentVideoUrl : option string) (transcript : string),
    let attempt k :=
      VideoProcessor.extractClaims h b (fetch k) currentVideoUrl transcript in
    let claims :=
      VideoProcessor.extractClaimsWithRetry h b fetch currentVideoUrl transcript in
    let address :=
      match currentVideoUrl with
      | Some u => if u =? "" then "https://youtube.com" else u
      | None => "https://youtube.com"
      end in
    (List.length claims <= 5)%nat
    /\ ((exists k, (k < 3)%nat /\ attempt k = Ok claims
                   /\ forall j, (j < k)%nat -> exists e, attempt j = Throw e)
        \/ ((forall j, (j < 3)%nat -> exists e, attempt j = Throw e)
            /\ claims = map VideoProcessor.value_of_claim
                            (VideoProcessor.extractClaimsFallback transcript)))
    /\ (forall url, URL_parse b address = Some url ->
          attempt 0%nat = Ok claims
          /\ (forall e, fetch 0%nat (VideoProcessor.ExtractClaimsFrom transcript) = Throw e ->
              List.length claims
              = if includes (url_hostname url) "tiktok" then 3%nat else 2%nat)).
Proof.
  intros h b fetch currentVideoUrl transcript. cbv zeta.
  unfold VideoProcessor.extractClaimsWithRetry.
  set (attempt := fun k => VideoProcessor.extractClaims h b (fetch k) currentVideoUrl transcript).
  set (fallback := map VideoProcessor.value_of_claim
                       (VideoProcessor.extractClaimsFallback transcript)).
  destruct (claims_loop_cases attempt fallback)
    as [(k & claims & Hk & Ek & Before & ->)|(All & ->)].
  - split; [eapply extractClaims_length; exact Ek|].
    split; [left; exists k; auto|].
    intros url U.
    assert (R : forall j, exists c, attempt j = Ok c).
    { intros j. unfold attempt, VideoProcessor.extractClaims, new_URL. rewrite U.
      match goal with |- exists c, try_catch ?body _ = _ => destruct body end; simpl;
        [eauto|destruct (includes _ _); eauto]. }
    destruct k as [|k].
    + split; [exact Ek|]. intros e F. revert Ek.
      unfold attempt, VideoProcessor.extractClaims, OpenRouterClient.chatCompletion, new_URL.
      rewrite F, U. simpl.
      destruct (includes _ _); intros H; injection H as <-; reflexivity.
    + destruct (Before 0%nat) as [e E]; [lia|]. destruct (R 0%nat) as [c C]. congruence.
  - destruct (extractClaimsFallback_length transcript) as [L1 L4].
    split; [unfold fallback; rewrite length_map; lia|].
    split; [right; auto|].
    intros url U. exfalso.
    destruct (All 0%nat) as [e E]; [lia|]. revert E.
    unfold attempt, VideoProcessor.extractClaims, new_URL. rewrite U.
    match goal with |- try_catch ?body _ = _ -> _ => destruct body end; simpl;
      [discriminate|destruct (includes _ _); discriminate].
Qed.

(** X17.  [extractClaimsWithRetry] gives what the first of three attempts
    that returns gives, and the claims read off the sentences when all
    three throw; never more than five claims.  An attempt throws only
    when the address of the video does not parse: with an address that
    parses the first attempt decides, and when the oracle fails there
    the claims are the built-in ones, three for TikTok and two for any
    other site. *)
Theorem extractClaimsWithRetry_first_attempt :
  forall (h : Host) (b : Browser)
         (fetch : nat -> VideoProcessor.ClaimsPrompt -> Result Response)
         (currentVideoUrl : option string) (transcript : string),
    let attempt k :=
      VideoProcessor.extractClaims h b (fetch k) currentVideoUrl transcript in
    let claims :=
      VideoProcessor.extractClaimsWithRetry h b fetch currentVideoUrl transcript in
    let address :=
      match currentVideoUrl with
      | Some u => if u =? "" then "https://youtube.com" else u
      | None => "https://youtube.com"
      end in
    (List.length claims <= 5)%nat
    /\ ((exists k, (k < 3)%nat /\ attempt k = Ok claims
                   /\ forall j, (j < k)%nat -> exists e, attempt j = Throw e)
        \/ ((forall j, (j < 3)%nat -> exists e, attempt j = Throw e)
            /\ claims = map VideoProcessor.value_of_claim
                            (VideoProcessor.extractClaimsFallback transcript)))
    /\ (forall url, URL_parse b address = Some url ->
          attempt 0%nat = Ok claims
          /\ (forall e, fetch 0%nat (VideoProcessor.ExtractClaimsFrom transcript) = Throw e ->
              List.length claims
              = if includes (url_hostname url) "tiktok" then 3%nat else 2%nat)).
Proof.
  exact extractClaimsWithRetry_cases.
Qed.

(** ** VideoProcessor: the fact check behind its retry *)

Lemma factCheckAny_typed (h : Host) (fetch : Prompt -> Result Response) (i : nat)
  (c : VideoProcessor.ExtractedClaim) :
  VideoProcessor.factCheckAny h fetch i (VideoProcessor.value_of_claim c)
  = Ok (VideoProcessor.checked_of (VideoProcessor.factCheckClaim h fetch i c)).
Proof.
  unfold VideoProcessor.factCheckAny, VideoProcessor.factCheckClaim,
    VideoProcessor.sanitizedResult, VideoProcessor.fallback_checked,
    VideoProcessor.value_of_claim, VideoProcessor.claim_value,
    VideoProcessor.checked_of.
  cbn [get lookup String.eqb Ascii.eqb Bool.eqb bind ToString string_receiver].
  destruct (VideoProcessor.chatCompletion fetch _) as [response|e]; cbn [bind try_catch];
    [|reflexivity].
  destruct (VideoProcessor.content_of response) as [resultText|e]; cbn [bind try_catch];
    [|reflexivity].
  destruct (clean_content resultText) as [cleanedText|e]; cbn [bind try_catch];
    [|reflexivity].
  destruct (JSON_parse h cleanedText) as [result|e]; cbn [bind try_catch]; [|reflexivity].
  destruct (get result "confidence") as [cf|e]; cbn [bind try_catch]; [|reflexivity].
  destruct (ToNumber h _) as [n|e]; cbn [bind try_catch]; [|reflexivity].
  destruct (get result "verdict") as [v|e]; cbn [bind try_catch]; [|reflexivity].
  destruct (get result "evidence") as [ev|e]; cbn [bind try_catch]; [|reflexivity].
  destruct (get result "sources") as [so|e]; cbn [bind try_catch]; reflexivity.
Qed.

Lemma factCheckAll_typed (h : Host) (fetch : Prompt -> Result Response)
  (claims : list VideoProcessor.ExtractedClaim) :
  forall i,
    VideoProcessor.factCheckAll_from h fetch i (map VideoProcessor.value_of_claim claims)
    = Ok (map VideoProcessor.checked_of (VideoProcessor.factCheckClaims_from h fetch i claims)).
Proof.
  induction claims as [|c r IH]; intros i; [reflexivity|].
  cbn [map VideoProcessor.factCheckAll_from VideoProcessor.factCheckClaims_from].
  rewrite factCheckAny_typed. cbn [bind]. rewrite IH. reflexivity.
Qed.

(** X18.  On claims made as they should be, an object with a text and a
    timestamp that are strings, [factCheckWithRetry] never throws and
    never comes to its own fallback: it gives what [factCheckClaims]
    gives, one judgment a claim, in their order. *)
Theorem factCheckWithRetry_on_typed_claims :
  forall (h : Host) (fetch : Prompt -> Result Response)
         (claims : list VideoProcessor.ExtractedClaim),
    VideoProcessor.factCheckWithRetry h fetch (map VideoProcessor.value_of_claim claims)
    = Ok (map VideoProcessor.checked_of (VideoProcessor.factCheckClaims h fetch claims))
    /\ List.length (VideoProcessor.factCheckClaims h fetch claims) = List.length claims
    /\ map VideoProcessor.text (VideoProcessor.factCheckClaims h fetch claims)
       = map VideoProcessor.claim_text claims
    /\ map VideoProcessor.id (VideoProcessor.factCheckClaims h fetch claims)
       = seq 1 (List.length claims).
Proof.
  intros h fetch claims. split.
  - unfold VideoProcessor.factCheckWithRetry, VideoProcessor.factCheckClaims.
    rewrite factCheckAll_typed. reflexivity.
  - unfold VideoProcessor.factCheckClaims. generalize 0%nat.
    induction claims as [|c r IH]; intros i; [repeat split|].
    destruct (IH (S i)) as (L & T & I).
    cbn [VideoProcessor.factCheckClaims_from map List.length seq].
    rewrite L, T, I.
    assert (E : VideoProcessor.text (VideoProcessor.factCheckClaim h fetch i c)
                = VideoProcessor.claim_text c
                /\ VideoProcessor.id (VideoProcessor.factCheckClaim h fetch i c) = S i).
    { unfold VideoProcessor.factCheckClaim, VideoProcessor.sanitizedResult.
      match goal with |- context [match ?x with Ok _ => _ | Throw _ => _ end] =>
        destruct x as [k|e] eqn:E end.
      - revert E.
        repeat match goal with
               | |- bind ?x _ = _ -> _ => destruct x; cbn [bind]; [|discriminate]
               end.
        intros H. injection H as <-. simpl. split; [reflexivity|lia].
      - simpl. split; [reflexivity|lia]. }
    destruct E as [-> ->]. repeat split.
Qed.

Lemma fallback_all_throws (claims : list value) :
  forall i,
    (exists c, In c claims /\ nullish c = true) ->
    exists e, VideoProcessor.fallback_all_from i claims = Throw e /\ name e = "TypeError".
Proof.
  induction claims as [|c r IH]; intros i (x & I & N); [destruct I|].
  cbn [VideoProcessor.fallback_all_from]. unfold VideoProcessor.fallback_checked.
  destruct (nullish c) eqn:Nc.
  - rewrite (get_nullish c "text" Nc). simpl. eexists. split; reflexivity.
  - rewrite !(get_not_nullish c _ Nc). cbn [bind].
    destruct (get_opt c "text"); cbn [string_receiver bind];
      try (eexists; split; reflexivity).
    destruct I as [->|I]; [congruence|].
    destruct (IH (S i)) as (e & -> & Ne); [exists x; auto|].
    exists e. split; [reflexivity|exact Ne].
Qed.

Lemma factCheckAll_throws (h : Host) (fetch : Prompt -> Result Response)
  (claims : list value) :
  forall i,
    (exists c, In c claims /\ nullish c = true) ->
    exists e, VideoProcessor.factCheckAll_from h fetch i claims = Throw e.
Proof.
  induction claims as [|c r IH]; intros i (x & I & N); [destruct I|].
  cbn [VideoProcessor.factCheckAll_from].
  destruct (VideoProcessor.factCheckAny h fetch i c) as [k|e] eqn:E; cbn [bind]; [|eauto].
  destruct I as [->|I].
  - unfold VideoProcessor.factCheckAny in E. rewrite (get_nullish x "text" N) in E.
    discriminate.
  - destruct (IH (S i)) as (e & ->); [exists x; auto|]. cbn [bind]. eauto.
Qed.

(** X19.  A claim that is [null] or [undefined] defeats [factCheckWithRetry]:
    the loop throws when it reads its text, and the fallback that
    catches it reads the same text of the same claims.  What comes out
    is a TypeError, whatever the other claims and the oracle. *)
Theorem factCheckWithRetry_rethrows_on_null_claim :
  forall (h : Host) (fetch : Prompt -> Result Response) (claims : list value),
    (exists c, In c claims /\ nullish c = true) ->
    exists e,
      VideoProcessor.factCheckWithRetry h fetch claims = Throw e /\ name e = "TypeError".
Proof.
  intros h fetch claims N. unfold VideoProcessor.factCheckWithRetry.
  destruct (factCheckAll_throws h fetch claims 0 N) as (e0 & ->).
  cbn [try_catch]. now apply fallback_all_throws.
Qed.

Lemma null_claim_defeats_the_retry :
  (exists c, In c [VideoProcessor.claim_value "The sky is blue" "0:10"; VNull]
             /\ nullish c = true)
  /\ exists e,
       VideoProcessor.factCheckWithRetry Examples.host Examples.offline_fetch
         [VideoProcessor.claim_value "The sky is blue" "0:10"; VNull] = Throw e
       /\ name e = "TypeError".
Proof.
  assert (N : exists c, In c [VideoProcessor.claim_value "The sky is blue" "0:10"; VNull]
                        /\ nullish c = true).
  { exists VNull. split; [right; left; reflexivity|reflexivity]. }
  split; [exact N|].
  exact (factCheckWithRetry_rethrows_on_null_claim Examples.host Examples.offline_fetch _ N).
Defined.

(** ** The orchestrator of VideoProcessor *)

Ltac vp_simpl :=
  lazy [VideoProcessor.processVideo VideoProcessor.processVideo_try
        VideoProcessor.handleProcessingError
        bindR update lift ret now Date_now updateStep mark_error
        VideoProcessor.initial_steps pending_step
        update_first step status progress message steps emitted reads
        String.eqb Ascii.eqb Bool.eqb Status_eqb app fst snd negb last
        VideoProcessor.result_steps VideoProcessor.platform VideoProcessor.title
        VideoProcessor.transcript VideoProcessor.claims VideoProcessor.overallScore
        VideoProcessor.processingTime VideoProcessor.videoId
        new_Error JS.message error_claim].

(** X20.  [processVideo] fails at its first step on a text the host does not
    parse: the step is left in error, the five others pending, after
    two snapshots; the result has score 0 and one claim, of verdict
    Mixed and confidence 0, whose evidence is the message.  It holds no
    advice to try again. *)
Theorem processVideo_on_invalid_url :
  forall (h : Host) (b : Browser) (random : Random)
         (fetch_claims : nat -> VideoProcessor.ClaimsPrompt -> Result Response)
         (fetch : Prompt -> Result Response) (clock : Clock) (videoUrl : string),
    URL_parse b videoUrl = None ->
    let r := fst (VideoProcessor.processVideo h b random fetch_claims fetch clock videoUrl) in
    let trace :=
      snd (VideoProcessor.processVideo h b random fetch_claims fetch clock videoUrl) in
    VideoProcessor.platform r = "Unknown"
    /\ VideoProcessor.title r = "Analysis Failed"
    /\ VideoProcessor.claims r
       = [error_claim "Invalid URL format. Please enter a complete video URL."]
    /\ VideoProcessor.overallScore r = Num 0%Q
    /\ map status (VideoProcessor.result_steps r)
       = [error; pending; pending; pending; pending; pending]
    /\ map message (firstn 1 (VideoProcessor.result_steps r))
       = ["❌ Invalid URL format. Please enter a complete video URL."]
    /\ List.length trace = 2%nat
    /\ last trace [] = VideoProcessor.result_steps r
    /\ VideoProcessor.videoId r = Z_toString (clock 3%nat)
    /\ VideoProcessor.processingTime r = processingTime_of h (clock 0%nat) (clock 2%nat).
Proof.
  intros h b random fetch_claims fetch clock videoUrl H.
  assert (V : VideoProcessor.validateAndAnalyzeUrl b videoUrl
              = Throw (new_Error "Invalid URL format. Please enter a complete video URL.")).
  { unfold VideoProcessor.validateAndAnalyzeUrl, new_URL. rewrite H. reflexivity. }
  unfold VideoProcessor.processVideo, VideoProcessor.processVideo_try.
  rewrite V. vp_simpl. repeat split.
Qed.

Lemma vp_run_on_no_url :
  URL_parse Examples.browser "not a url" = None
  /\ VideoProcessor.claims
       (fst (VideoProcessor.processVideo Examples.host Examples.browser
               Examples.random_half Examples.offline_claims Examples.offline_fetch
               Examples.clock_1s "not a url"))
     = [error_claim "Invalid URL format. Please enter a complete video URL."].
Proof.
  split; [reflexivity|].
  apply (processVideo_on_invalid_url Examples.host Examples.browser
           Examples.random_half Examples.offline_claims Examples.offline_fetch
           Examples.clock_1s "not a url" eq_refl).
Defined.

(** X21.  [processVideo] fails at its second step when three draws in a row
    are at most 0.1 (a chance in a thousand for uniform draws), however
    sound the address: the first step is completed, the second in error
    and the four others pending. *)
Theorem processVideo_on_three_low_draws :
  forall (h : Host) (b : Browser) (random : Random)
         (fetch_claims : nat -> VideoProcessor.ClaimsPrompt -> Result Response)
         (fetch : Prompt -> Result Response) (clock : Clock) (videoUrl : string)
         (url : URL) (platform : string),
    VideoProcessor.validateAndAnalyzeUrl b videoUrl = Ok (url, platform) ->
    gtb (random 0%nat) (Num (1 # 10)) = false ->
    gtb (random 1%nat) (Num (1 # 10)) = false ->
    gtb (random 2%nat) (Num (1 # 10)) = false ->
    let r := fst (VideoProcessor.processVideo h b random fetch_claims fetch clock videoUrl) in
    let trace :=
      snd (VideoProcessor.processVideo h b random fetch_claims fetch clock videoUrl) in
    VideoProcessor.platform r = "Unknown"
    /\ VideoProcessor.claims r
       = [error_claim ("Audio extraction failed after 3 attempts: "
                       ++ "Error: Audio extraction failed - network error")]
    /\ VideoProcessor.overallScore r = Num 0%Q
    /\ map status (VideoProcessor.result_steps r)
       = [completed; error; pending; pending; pending; pending]
    /\ List.length trace = 4%nat
    /\ last trace [] = VideoProcessor.result_steps r.
Proof.
  intros h b random fetch_claims fetch clock videoUrl url platform V D0 D1 D2.
  assert (A : fst (VideoProcessor.extractAudioWithRetry random 0)
              = Throw (new_Error ("Audio extraction failed after 3 attempts: "
                                  ++ "Error: Audio extraction failed - network error"))).
  { unfold VideoProcessor.extractAudioWithRetry, VideoProcessor.extractAudio_loop.
    rewrite D0, D1, D2. reflexivity. }
  unfold VideoProcessor.processVideo, VideoProcessor.processVideo_try.
  rewrite V, A. vp_simpl. repeat split.
Qed.

Lemma vp_run_on_low_draws :
  VideoProcessor.validateAndAnalyzeUrl Examples.browser Examples.youtube_url
  = Ok (mkURL "www.youtube.com" "https:" "/watch"
              (fun k => if k =? "v" then Some "dQw4w9WgXcQ" else None), "YouTube")
  /\ map status
       (VideoProcessor.result_steps
          (fst (VideoProcessor.processVideo Examples.host Examples.browser
                  Examples.random_low Examples.offline_claims Examples.offline_fetch
                  Examples.clock_1s Examples.youtube_url)))
     = [completed; error; pending; pending; pending; pending].
Proof.
  split; [reflexivity|].
  apply (processVideo_on_three_low_draws Examples.host Examples.browser
           Examples.random_low Examples.offline_claims Examples.offline_fetch
           Examples.clock_1s Examples.youtube_url _ _ eq_refl eq_refl eq_refl eq_refl).
Defined.

Lemma calculateOverallScore_of_checked (l : list VideoProcessor.VerifiedClaim) :
  VideoProcessor.calculateOverallScore_of VideoProcessor.checked_verdict
    (map VideoProcessor.checked_of l)
  = VideoProcessor.calculateOverallScore l.
Proof.
  unfold VideoProcessor.calculateOverallScore_of, VideoProcessor.calculateOverallScore.
  rewrite length_map. destruct (List.length l =? 0)%nat; [reflexivity|].
  f_equal. generalize (Num 0%Q).
  induction l as [|c r IH]; intros acc; [reflexivity|]. simpl. apply IH.
Qed.

Lemma factCheckClaims_length (h : Host) (fetch : Prompt -> Result Response)
  (claims : list VideoProcessor.ExtractedClaim) :
  List.length (VideoProcessor.factCheckClaims h fetch claims) = List.length claims.
Proof.
  unfold VideoProcessor.factCheckClaims. generalize 0%nat.
  induction claims as [|c r IH]; intros i; [reflexivity|]. simpl. now rewrite IH.
Qed.

(** X22.  [processVideo] completes when the address is accepted, one of the
    three draws of the audio step exceeds 0.1 and the claims extracted
    are made as they should be: the six steps end completed after
    twelve snapshots, and the result holds the platform of the address,
    the transcript, one judgment for each claim, five at most, each
    with one of the five verdicts, and a score that is 0 for no claim
    and between 0.2 and 1 otherwise. *)
Theorem processVideo_completes :
  forall (h : Host) (b : Browser) (random : Random)
         (fetch_claims : nat -> VideoProcessor.ClaimsPrompt -> Result Response)
         (fetch : Prompt -> Result Response) (clock : Clock) (videoUrl : string)
         (url : URL) (platform duration t : string)
         (typed : list VideoProcessor.ExtractedClaim),
    VideoProcessor.validateAndAnalyzeUrl b videoUrl = Ok (url, platform) ->
    fst (VideoProcessor.extractAudioWithRetry random 0) = Ok duration ->
    VideoProcessor.transcribeWithRetry b videoUrl = Ok t ->
    VideoProcessor.extractClaimsWithRetry h b fetch_claims (Some videoUrl) t
    = map VideoProcessor.value_of_claim typed ->
    let r := fst (VideoProcessor.processVideo h b random fetch_claims fetch clock videoUrl) in
    let trace :=
      snd (VideoProcessor.processVideo h b random fetch_claims fetch clock videoUrl) in
    map status (VideoProcessor.result_steps r)
    = [completed; completed; completed; completed; completed; completed]
    /\ map step (VideoProcessor.result_steps r) = map step VideoProcessor.initial_steps
    /\ List.length trace = 12%nat
    /\ last trace [] = VideoProcessor.result_steps r
    /\ VideoProcessor.platform r = platform
    /\ In platform VideoProcessor.supportedPlatforms
    /\ VideoProcessor.title r = (platform ++ " Video Analysis")%string
    /\ VideoProcessor.transcript r = t
    /\ VideoProcessor.claims r
       = map VideoProcessor.checked_of (VideoProcessor.factCheckClaims h fetch typed)
    /\ (List.length (VideoProcessor.claims r) <= 5)%nat
    /\ Forall (fun c => In (VideoProcessor.checked_verdict c) canonical_verdicts)
              (VideoProcessor.claims r)
    /\ zero_or_fifth_to_one (VideoProcessor.overallScore r)
    /\ VideoProcessor.videoId r = Z_toString (clock 1%nat)
    /\ VideoProcessor.processingTime r = processingTime_of h (clock 0%nat) (clock 2%nat).
Proof.
  intros h b random fetch_claims fetch clock videoUrl url platform duration t typed V A T C.
  assert (F : VideoProcessor.factCheckWithRetry h fetch
                (map VideoProcessor.value_of_claim typed)
              = Ok (map VideoProcessor.checked_of
                        (VideoProcessor.factCheckClaims h fetch typed))).
  { unfold VideoProcessor.factCheckWithRetry, VideoProcessor.factCheckClaims.
    rewrite factCheckAll_typed. reflexivity. }
  assert (S : In platform VideoProcessor.supportedPlatforms).
  { pose proof (validateAndAnalyzeUrl_cases b videoUrl) as H. rewrite V in H.
    destruct H as (_ & -> & S & _). exact S. }
  assert (L : (List.length typed <= 5)%nat).
  { pose proof (extractClaimsWithRetry_cases h b fetch_claims (Some videoUrl) t) as H.
    cbv zeta in H. destruct H as (L & _). rewrite C, length_map in L. exact L. }
  unfold VideoProcessor.processVideo, VideoProcessor.processVideo_try.
  rewrite V, A, T. vp_simpl. rewrite C, F. vp_simpl.
  repeat split; trivial.
  - rewrite length_map, factCheckClaims_length. exact L.
  - apply Forall_forall. intros c I. apply in_map_iff in I. destruct I as (x & <- & I).
    simpl.
    apply (factCheckClaims_judgments h fetch (fun v _ _ => In v canonical_verdicts))
      with (claims := typed); trivial.
    + intros j cl p. eapply on_return_impl; [|apply sanitizedResult_canonical].
      intros a. apply verdict_sanitized_In.
    + intros s. apply generateFallbackAnalysis_lists.
  - rewrite calculateOverallScore_of_checked.
    destruct typed as [|c0 r0].
    + left. reflexivity.
    + right. apply (aggregators_bounds _ []).
      intros E. apply (f_equal (@List.length _)) in E.
      rewrite factCheckClaims_length in E. discriminate.
Qed.

Lemma vp_run_on_a_video :
  let typed :=
    [ VideoProcessor.mkExtracted "Climate change affects weather patterns globally" "1:23";
      VideoProcessor.mkExtracted
        "Renewable energy adoption has increased 300% in the last decade" "2:15" ] in
  VideoProcessor.extractClaimsWithRetry Examples.host Examples.browser
    Examples.offline_claims (Some Examples.youtube_url) VideoProcessor.youtube_transcript
  = map VideoProcessor.value_of_claim typed
  /\ let r := fst (VideoProcessor.processVideo Examples.host Examples.browser
                     Examples.random_half Examples.offline_claims Examples.offline_fetch
                     Examples.clock_1s Examples.youtube_url) in
     map status (VideoProcessor.result_steps r)
     = [completed; completed; completed; completed; completed; completed]
     /\ map VideoProcessor.checked_verdict (VideoProcessor.claims r) = ["True"; "Mixed"].
Proof.
  cbv zeta. split; [reflexivity|].
  pose proof (processVideo_completes Examples.host Examples.browser
                Examples.random_half Examples.offline_claims Examples.offline_fetch
                Examples.clock_1s Examples.youtube_url _ _ _ _
                [ VideoProcessor.mkExtracted
                    "Climate change affects weather patterns globally" "1:23";
                  VideoProcessor.mkExtracted
                    "Renewable energy adoption has increased 300% in the last decade"
                    "2:15" ]
                eq_refl eq_refl eq_refl eq_refl) as H.
  cbv zeta in H. split; [apply H|].
  destruct H as (_ & _ & _ & _ & _ & _ & _ & _ & -> & _). reflexivity.
Defined.
